(** * Voyager: environmental field engine and simulation orchestrator

    A shallow embedding of [voyager/utils.py], [voyager/chart.py] and
    [voyager/traverser.py], and the properties of the design document
    checked against it.

    Conventions of the embedding.
    - A numpy / xarray float is an exact rational ([Q]); the missing-data
      sentinel NaN of a data value is [None] in an [option Q].  The
      comparisons against 0, 180 and 360 and the subtraction of 360 in
      [normalize_longitude] are exact in binary64 on the ranges involved.
    - Surface distances involve [sqrt], [cos] and [pi] and are real
      numbers ([R]).
    - A [pd.Timestamp] is a number of seconds since 1970-01-01 00:00
      ([Z]).
    - A Python exception is a value of [Error]; a call that may raise
      returns a [result].
    - The libraries under the code are modelled as far as the code uses
      them: label-based selection as xarray does it on pandas indexes
      (increasing, decreasing or neither), [os.path.join] as [posixpath]
      has it, and [RegularGridInterpolator] as scipy 1.10 and later has
      it, where points that are strictly descending are accepted and
      flipped. *)

From stdpp Require Import base gmap strings.
From Stdlib Require Import ZArith QArith Qabs List String Ascii Bool Lia.
From Stdlib Require Import Reals Lra Qreals Permutation Sorted.
From Stdlib Require Lqa.
Import ListNotations.

#[local] Open Scope Z_scope.

(* ===================================================================== *)
(** ** Exceptions *)

Inductive Error : Type :=
| ValueError (msg : string)
| KeyError
| TypeError
| IndexError
| AttributeError
| InvalidIndexError
| OSError.

Inductive result (A : Type) : Type :=
| Ok (a : A)
| Raise (e : Error).
Arguments Ok {A} a.
Arguments Raise {A} e.

Definition rbind {A B} (r : result A) (k : A -> result B) : result B :=
  match r with
  | Ok a => k a
  | Raise e => Raise e
  end.

Notation "'let*' x ':=' r 'in' k" := (rbind r (fun x => k))
  (at level 10, x pattern, r at level 200, k at level 200).

(** [try: body except: handler] with a bare [except]. *)
Definition try_except {A} (body : result A) (handler : result A) : result A :=
  match body with
  | Ok a => Ok a
  | Raise _ => handler
  end.

Definition is_ok {A} (r : result A) : bool :=
  match r with Ok _ => true | Raise _ => false end.

(* ===================================================================== *)
(** ** Numbers *)

Definition Qlt_bool (x y : Q) : bool := negb (Qle_bool y x).

Lemma Qlt_bool_iff (x y : Q) : Qlt_bool x y = true <-> (x < y)%Q.
Proof.
  unfold Qlt_bool. rewrite negb_true_iff.
  split; intros H.
  - apply Qnot_le_lt. intros Hle. apply Qle_bool_iff in Hle. congruence.
  - destruct (Qle_bool y x) eqn:E; [|reflexivity].
    apply Qle_bool_iff in E. exfalso. exact (Qlt_not_le _ _ H E).
Qed.

(** [str(n)], also ["%d" % n], of a natural number. *)
Fixpoint decimal_digits (fuel n : nat) (acc : string) : string :=
  match fuel with
  | O => acc
  | S fuel' =>
      let acc' := String (ascii_of_nat (48 + Nat.modulo n 10)) acc in
      if Nat.eqb (Nat.div n 10) 0 then acc'
      else decimal_digits fuel' (Nat.div n 10) acc'
  end.

Definition str_of_nat (n : nat) : string := decimal_digits (S n) n EmptyString.

(* ===================================================================== *)
(** ** Timestamps and the civil calendar

    What the code uses of [pd.Timestamp]: [.year], [strftime('%Y')],
    [strftime('%Y-%m-%d')], the addition of a [pd.Timedelta] in days and
    the daily [pd.date_range]. *)

Module Calendar.

Definition Timestamp := Z.

Definition seconds_per_day : Z := 86400.

(** Days since 1970-01-01 of a proleptic Gregorian date. *)
Definition days_from_civil (y m d : Z) : Z :=
  let y' := if m <=? 2 then y - 1 else y in
  let era := y' / 400 in
  let yoe := y' - era * 400 in
  let mp := if 2 <? m then m - 3 else m + 9 in
  let doy := (153 * mp + 2) / 5 + d - 1 in
  let doe := yoe * 365 + yoe / 4 - yoe / 100 + doy in
  era * 146097 + doe - 719468.

(** The Gregorian date of a number of days since 1970-01-01. *)
Definition civil_from_days (z : Z) : Z * Z * Z :=
  let z' := z + 719468 in
  let era := z' / 146097 in
  let doe := z' - era * 146097 in
  let yoe := (doe - doe / 1460 + doe / 36524 - doe / 146096) / 365 in
  let doy := doe - (365 * yoe + yoe / 4 - yoe / 100) in
  let mp := (5 * doy + 2) / 153 in
  let d := doy - (153 * mp + 2) / 5 + 1 in
  let m := if mp <? 10 then mp + 3 else mp - 9 in
  let y := yoe + era * 400 in
  (if m <=? 2 then y + 1 else y, m, d).

(** [pd.Timestamp(year, month, day)], at midnight. *)
Definition timestamp_of_ymd (y m d : Z) : Timestamp :=
  days_from_civil y m d * seconds_per_day.

Definition date_of (t : Timestamp) : Z * Z * Z :=
  civil_from_days (t / seconds_per_day).

Definition year (t : Timestamp) : Z := fst (fst (date_of t)).

(** [t + pd.Timedelta(n, 'D')]. *)
Definition add_days (t : Timestamp) (n : Z) : Timestamp :=
  t + n * seconds_per_day.

Definition digit (n : Z) : ascii :=
  ascii_of_nat (48 + Z.to_nat (n mod 10)).

(** The last [width] decimal digits of [n], zero padded. *)
Fixpoint digits (width : nat) (n : Z) : string :=
  match width with
  | O => EmptyString
  | S w => (digits w (n / 10) ++ String (digit n) EmptyString)%string
  end.

(** [t.strftime('%Y')]. *)
Definition year_str (y : Z) : string := digits 4 y.

(** [t.strftime('%Y-%m-%d')]. *)
Definition strftime_ymd (t : Timestamp) : string :=
  let '(y, m, d) := date_of t in
  (digits 4 y ++ "-" ++ digits 2 m ++ "-" ++ digits 2 d)%string.

(** [pd.date_range(start, end)]: the daily timestamps [start],
    [start + 1 day], ... that do not exceed [end]. *)
Definition date_range (start end_ : Timestamp) : list Timestamp :=
  List.map (fun i => add_days start (Z.of_nat i))
           (List.seq 0 (Z.to_nat ((end_ - start) / seconds_per_day + 1))).

End Calendar.

(* ===================================================================== *)
(** ** os.path (posixpath) *)

Module os_path.

Definition startswith_sep (s : string) : bool :=
  match s with
  | String c _ => Ascii.eqb c "/"
  | EmptyString => false
  end.

Fixpoint endswith_sep (s : string) : bool :=
  match s with
  | EmptyString => false
  | String c EmptyString => Ascii.eqb c "/"
  | String _ rest => endswith_sep rest
  end.

(** One step of [os.path.join]: a component that starts with the
    separator replaces what precedes it; the separator is added unless
    the path is empty or ends with it. *)
Definition join2 (path b : string) : string :=
  if startswith_sep b then b
  else if String.eqb path "" || endswith_sep path then (path ++ b)%string
  else (path ++ "/" ++ b)%string.

(** [os.path.join(a, *p)]. *)
Definition join (a : string) (p : list string) : string :=
  List.fold_left join2 p a.

End os_path.

(* ===================================================================== *)
(** ** utils.py *)

Module utils.

(** [normalize_longitude(lon)]:
    east = lon[where((lon >= 0) & (lon <= 180))];
    west = lon[where((lon > 180) & (lon <= 360))] - 360;
    concatenate([east, west]). *)
Definition is_east (x : Q) : bool := Qle_bool 0 x && Qle_bool x 180.
Definition is_west (x : Q) : bool := Qlt_bool 180 x && Qle_bool x 360.

Definition normalize_longitude (lon : list Q) : list Q :=
  let east := List.filter is_east lon in
  let west := List.map (fun x => x - 360)%Q (List.filter is_west lon) in
  east ++ west.

(** The signed convention: every value within [-180, 180]. *)
Definition is_signed (x : Q) : bool := Qle_bool (-180 # 1) x && Qle_bool x 180.

(** The 0-360 convention, the only values [normalize_longitude] keeps. *)
Definition in_0_360 (x : Q) : bool := Qle_bool 0 x && Qle_bool x 360.

Section GridStore.
(** The xarray / file-system layer underneath [load_data]. *)
Variable Dataset : Type.
Variable DataArray : Type.
Variable glob : string -> list string.
Variable open_mfdataset : list string -> result Dataset.
Variable ds_drop : string -> Dataset -> result Dataset.
Variable ds_squeeze : Dataset -> Dataset.
Variable ds_rename : list (string * string) -> Dataset -> result Dataset.
Variable ds_sel_time_load : Calendar.Timestamp -> Calendar.Timestamp -> Dataset -> result Dataset.
Variable ds_var : string -> Dataset -> result DataArray.

(** [ecmwf_to_xr]: winds.rename({"u10": "u", "v10": "v"}). *)
Definition ecmwf_to_xr (winds : Dataset) : result Dataset :=
  ds_rename [("u10", "u"); ("v10", "v")]%string winds.

(** [cmems_to_xr]: drop the depth dimension, squeeze and rename; on any
    failure, rename only. *)
Definition cmems_to_xr (currents : Dataset) : result Dataset :=
  try_except
    (let* d := ds_drop "depth" currents in
     ds_rename [("uo", "u"); ("vo", "v")]%string (ds_squeeze d))
    (ds_rename [("uo", "u"); ("vo", "v")]%string currents).

(** [os.path.join(data_directory, source, year, "*.nc")]. *)
Definition pattern_of (data_directory source year : string) : string :=
  os_path.join data_directory [source; year; "*.nc"%string].

(** The years from [start.year] to [end.year].  The code iterates over
    them as a [set] of strings; the files are taken here in the order of
    the years. *)
Definition years_between (start_year end_year : Z) : list Z :=
  List.map (fun i => start_year + Z.of_nat i)
           (List.seq 0 (Z.to_nat (end_year - start_year + 1))).

Definition filenames_of (start end_ : Calendar.Timestamp) (data_directory source : string)
  : list string :=
  List.flat_map
    (fun year => glob (pattern_of data_directory source (Calendar.year_str year)))
    (years_between (Calendar.year start) (Calendar.year end_)).

(** [load_data(start, end, bbox, data_directory, source)]. *)
Definition load_data (start end_ : Calendar.Timestamp) (bbox : list Q)
           (data_directory source : string)
  : result (DataArray * DataArray) :=
  let filenames := filenames_of start end_ data_directory source in
  let* data :=
    (if String.eqb source "currents" then
       let* data := open_mfdataset filenames in cmems_to_xr data
     else if String.eqb source "winds" then
       let* data := open_mfdataset filenames in ecmwf_to_xr data
     else Raise (ValueError "Source must be currents or winds.")) in
  let* data := ds_sel_time_load start end_ data in
  let* u := ds_var "u" data in
  let* v := ds_var "v" data in
  Ok (u, v).
End GridStore.

End utils.

(* ===================================================================== *)
(** ** Arrays and labelled fields (numpy / xarray) *)

(** A coordinate array: a 1-D vector (regular grid) or a 2-D array of
    shape [(ny, nx)] (curvilinear grid). *)
Inductive ndarray : Type :=
| Arr1 (v : list Q)
| Arr2 (ny nx : nat) (a : nat -> nat -> Q).

(** An [xr.DataArray] with dimensions (time, latitude, longitude): its
    time index, its coordinate arrays and its values, [None] being NaN.
    The shape of the values is the one its coordinates give. *)
Record DataArray : Type := {
  time : list Calendar.Timestamp;
  longitude : ndarray;
  latitude : ndarray;
  values : nat -> nat -> nat -> option Q
}.

(** [np.all(p[1:] > p[:-1])]: a strictly ascending vector, which is
    what a monotonic increasing index without repeated labels is. *)
Fixpoint strictly_ascending (p : list Q) : bool :=
  match p with
  | [] => true
  | a :: rest =>
      match rest with
      | [] => true
      | b :: _ => Qlt_bool a b && strictly_ascending rest
      end
  end.

(** [np.all(p[1:] < p[:-1])]. *)
Fixpoint strictly_descending (p : list Q) : bool :=
  match p with
  | [] => true
  | a :: rest =>
      match rest with
      | [] => true
      | b :: _ => Qlt_bool b a && strictly_descending rest
      end
  end.

Definition isnan (v : option Q) : bool :=
  match v with None => true | Some _ => false end.

Definition notnull (v : option Q) : bool := negb (isnan v).

(** [a.shape[k]]. *)
Definition shape_at (a : ndarray) (k : nat) : result nat :=
  match a, k with
  | Arr1 v, O => Ok (List.length v)
  | Arr2 ny _ _, O => Ok ny
  | Arr2 _ nx _, S O => Ok nx
  | _, _ => Raise IndexError
  end.

(** The number of latitude rows and of longitude columns of the values. *)
Definition n_lat (x : DataArray) : nat :=
  match latitude x with Arr1 v => List.length v | Arr2 ny _ _ => ny end.
Definition n_lon (x : DataArray) : nat :=
  match longitude x with Arr1 v => List.length v | Arr2 _ nx _ => nx end.

(** A label-based selection needs a 1-D index on the coordinate. *)
Definition index_of_coord (a : ndarray) : result (list Q) :=
  match a with
  | Arr1 v => Ok v
  | Arr2 _ _ _ => Raise KeyError
  end.

(** The entries of a vector with their positions. *)
Definition indexed {A} (l : list A) : list (nat * A) :=
  List.combine (List.seq 0 (List.length l)) l.

(** *** The pandas indexes under a selection *)

(** [index.is_monotonic_increasing] and [index.is_monotonic_decreasing],
    which allow repeated labels, and [index.is_unique]. *)
Fixpoint is_monotonic_increasing (p : list Q) : bool :=
  match p with
  | [] => true
  | a :: rest =>
      match rest with
      | [] => true
      | b :: _ => Qle_bool a b && is_monotonic_increasing rest
      end
  end.

Fixpoint is_monotonic_decreasing (p : list Q) : bool :=
  match p with
  | [] => true
  | a :: rest =>
      match rest with
      | [] => true
      | b :: _ => Qle_bool b a && is_monotonic_decreasing rest
      end
  end.

Fixpoint is_unique (p : list Q) : bool :=
  match p with
  | [] => true
  | a :: rest => negb (List.existsb (Qeq_bool a) rest) && is_unique rest
  end.

(** [index.get_loc(t)]: the position of an exact label (of a time
    stamp that the index holds once). *)
Fixpoint get_loc (t : Z) (index : list Z) : result nat :=
  match index with
  | [] => Raise KeyError
  | t' :: rest =>
      if t' =? t then Ok O else let* i := get_loc t rest in Ok (S i)
  end.

(** The position of the smallest of a vector of distances, the later
    one on a tie. *)
Fixpoint nearest_from (dists : list Q) (i : nat) (best : nat) (d : Q) : nat :=
  match dists with
  | [] => best
  | d' :: rest =>
      if Qle_bool d' d then nearest_from rest (S i) i d'
      else nearest_from rest (S i) best d
  end.

Definition nearest (dists : list Q) : result nat :=
  match dists with
  | [] => Raise KeyError
  | d :: rest => Ok (nearest_from rest 1 0 d)
  end.

(** The same, the earlier position on a tie. *)
Fixpoint nearest_first_from (dists : list Q) (i : nat) (best : nat) (d : Q) : nat :=
  match dists with
  | [] => best
  | d' :: rest =>
      if Qlt_bool d' d then nearest_first_from rest (S i) i d'
      else nearest_first_from rest (S i) best d
  end.

Definition nearest_first (dists : list Q) : result nat :=
  match dists with
  | [] => Raise KeyError
  | d :: rest => Ok (nearest_first_from rest 1 0 d)
  end.

(** [index.get_indexer([q], method="nearest")], as a selection with
    [method="nearest"] uses it.  The index has to hold no label twice and
    to be monotonic.  The nearest label is the closer of the two
    neighbours of [q]; when they are as close, it is the right one on an
    increasing index and the left one on a decreasing index, the larger
    label in both cases.  Nothing is found in an empty index. *)
Definition nearest_coord (index : list Q) (q : Q) : result nat :=
  let dists := List.map (fun c => Qabs (c - q)) index in
  if negb (is_unique index) then Raise InvalidIndexError
  else if is_monotonic_increasing index then nearest dists
  else if is_monotonic_decreasing index then nearest_first dists
  else Raise (ValueError "index must be monotonic increasing or decreasing").

Definition nearest_time (index : list Z) (t : Z) : result nat :=
  nearest_coord (List.map inject_Z index) (inject_Z t).

(** A field on a regular grid: 1-D coordinates, and a time index and
    coordinate indexes that are increasing. *)
Definition regular_grid (x : DataArray) : bool :=
  strictly_ascending (List.map inject_Z (time x))
  && match longitude x with Arr1 v => strictly_ascending v | Arr2 _ _ _ => false end
  && match latitude x with Arr1 v => strictly_ascending v | Arr2 _ _ _ => false end.

(** The labels of an index within [lo, hi], with their positions. *)
Definition in_slice (lo hi : Q) (c : Q) : bool := Qle_bool lo c && Qle_bool c hi.

Definition labels_within (lo hi : Q) (index : list Q) : list (nat * Q) :=
  List.filter (fun ic => in_slice lo hi (snd ic)) (indexed index).

(** The positions of a label in an index. *)
Definition locs (label : Q) (index : list Q) : list nat :=
  List.map fst (List.filter (fun ic => Qeq_bool (snd ic) label) (indexed index)).

(** Positions that follow [p] one by one. *)
Fixpoint consecutive (p : nat) (ps : list nat) : bool :=
  match ps with
  | [] => true
  | p' :: rest => Nat.eqb p' (S p) && consecutive p' rest
  end.

Inductive Side : Type := SideLeft | SideRight.

(** [index.get_slice_bound(label, side)] on an index that is not
    monotonic: the label has to be in the index, once or at neighbouring
    positions; the bound is its first position on the left and the
    position after its last one on the right. *)
Definition label_bound (side : Side) (label : Q) (index : list Q) : result nat :=
  match locs label index with
  | [] => Raise KeyError
  | p :: rest =>
      if consecutive p rest then
        Ok (match side with
            | SideLeft => p
            | SideRight => S (List.last rest p)
            end)
      else Raise KeyError
  end.

(** [index[index.slice_indexer(lo, hi)]], which a selection with
    [slice(lo, hi)] uses: the labels from the left bound of [lo] to the
    right bound of [hi], with their positions.  On a monotonic index the
    bounds are found by bisection: on an increasing index these are the
    labels within [lo, hi]; on a decreasing index the slice runs from the
    first label that is at most [lo] to the last one that is at least
    [hi], which leaves nothing when [lo < hi]. *)
Definition sel_slice (lo hi : Q) (index : list Q) : result (list (nat * Q)) :=
  if is_monotonic_increasing index then Ok (labels_within lo hi index)
  else if is_monotonic_decreasing index then Ok (labels_within hi lo index)
  else
    let* start := label_bound SideLeft lo index in
    let* stop := label_bound SideRight hi index in
    Ok (List.filter (fun ic => Nat.leb start (fst ic) && Nat.ltb (fst ic) stop)
                    (indexed index)).

(** [x.sel(time=t, longitude=lon, latitude=lat, method="nearest")]:
    every coordinate needs an index before any label is looked up. *)
Definition sel_nearest (x : DataArray) (t : Calendar.Timestamp) (lon lat : Q)
  : result (option Q) :=
  let* lons := index_of_coord (longitude x) in
  let* lats := index_of_coord (latitude x) in
  let* it := nearest_time (time x) t in
  let* ilon := nearest_coord lons lon in
  let* ilat := nearest_coord lats lat in
  Ok (values x it ilat ilon).

(** The result of
    [x.sel(time=t, longitude=slice(..), latitude=slice(..))]: a
    (latitude, longitude) window on the values of [x] at one time. *)
Record Window : Type := {
  w_data : DataArray;
  w_time : nat;
  w_lats : list (nat * Q);
  w_lons : list (nat * Q)
}.

Definition sel_window (x : DataArray) (t : Calendar.Timestamp)
           (lon_lo lon_hi lat_lo lat_hi : Q) : result Window :=
  let* lons := index_of_coord (longitude x) in
  let* lats := index_of_coord (latitude x) in
  let* it := get_loc t (time x) in
  let* in_lons := sel_slice lon_lo lon_hi lons in
  let* in_lats := sel_slice lat_lo lat_hi lats in
  Ok {| w_data := x; w_time := it; w_lats := in_lats; w_lons := in_lons |}.

(** A node of a window: its latitude, its longitude and its value. *)
Record Node : Type := {
  node_lat : nat * Q;
  node_lon : nat * Q;
  node_value : option Q
}.

Definition window_value (w : Window) (ilat ilon : nat) : option Q :=
  values (w_data w) (w_time w) ilat ilon.

(** The nodes of a window in row-major (latitude, longitude) order. *)
Definition nodes (w : Window) : list Node :=
  List.flat_map
    (fun la => List.map
                 (fun lo => {| node_lat := la; node_lon := lo;
                               node_value := window_value w (fst la) (fst lo) |})
                 (w_lons w))
    (w_lats w).

(** [w.isnull().values] and [w.notnull().values]. *)
Definition mask_values (test : option Q -> bool) (w : Window) : list (list bool) :=
  List.map (fun la => List.map (fun lo => test (window_value w (fst la) (fst lo)))
                               (w_lons w))
           (w_lats w).

Definition count_true (row : list bool) : Z :=
  Z.of_nat (List.length (List.filter (fun b => b) row)).

(** Python's [sum(sum(m))] on a 2-D boolean array [m]: the inner [sum]
    adds the rows to the integer 0, which is what it returns when there is
    no row, and the outer [sum] cannot iterate over an integer. *)
Definition sum_sum (m : list (list bool)) : result Z :=
  match m with
  | [] => Raise TypeError
  | _ :: _ => Ok (List.fold_right Z.add 0 (List.map count_true m))
  end.

(** ** Real-valued distances *)

Definition Rltb (x y : R) : bool := if Rlt_dec x y then true else false.

(** The first element with the smallest key. *)
Fixpoint argmin_from {X} (key : X -> R) (best : X) (l : list X) : X :=
  match l with
  | [] => best
  | x :: rest =>
      argmin_from key (if Rltb (key x) (key best) then x else best) rest
  end.

(** [argmin] over the nodes left by a mask; numpy raises on an all-NaN
    slice. *)
Definition argmin {X} (key : X -> R) (l : list X) : result X :=
  match l with
  | [] => Raise (ValueError "All-NaN slice encountered")
  | x :: rest => Ok (argmin_from key x rest)
  end.

Definition r_earth : R := 6371%R.

(** (r_earth*pi/180) * sqrt((lat' - latitude)**2 + (lon' - longitude)**2)
    * cos(latitude*pi/180) *)
Definition distance_km (longitude latitude : Q) (lon' lat' : Q) : R :=
  ((r_earth * PI / 180)
   * sqrt ((Q2R lat' - Q2R latitude) ^ 2 + (Q2R lon' - Q2R longitude) ^ 2)
   * cos (Q2R latitude * PI / 180))%R.

Definition node_distance (longitude latitude : Q) (n : Node) : R :=
  distance_km longitude latitude (snd (node_lon n)) (snd (node_lat n)).

(* ===================================================================== *)
(** ** scipy.interpolate.RegularGridInterpolator *)

Module scipy.

(** What is done with a query outside the grid when [bounds_error] is
    off: [fill_value=None] extrapolates, any other value is returned. *)
Inductive Fill : Type :=
| Extrapolate
| FillWith (v : option Q).

Record Values3 : Type := {
  shape3 : nat * nat * nat;
  at3 : nat -> nat -> nat -> option Q
}.

Record RegularGridInterpolator : Type := {
  grid_time : list Q;
  grid_lon : list Q;
  grid_lat : list Q;
  grid_values : nat -> nat -> nat -> option Q;
  bounds_error : bool;
  fill_value : Fill
}.

(** [np.all(p[1:] > p[:-1])] and [np.all(p[1:] < p[:-1])] on the points
    of one dimension; on a 2-D array they compare the rows. *)
Definition points_ascending (p : ndarray) : bool :=
  match p with
  | Arr1 v => strictly_ascending v
  | Arr2 ny nx a =>
      List.forallb (fun i => List.forallb (fun j => Qlt_bool (a i j) (a (S i) j))
                                          (List.seq 0 nx))
                   (List.seq 0 (ny - 1))
  end.

Definition points_descending (p : ndarray) : bool :=
  match p with
  | Arr1 v => strictly_descending v
  | Arr2 ny nx a =>
      List.forallb (fun i => List.forallb (fun j => Qlt_bool (a (S i) j) (a i j))
                                          (List.seq 0 nx))
                   (List.seq 0 (ny - 1))
  end.

(** [np.flip(p)]. *)
Definition flip (p : ndarray) : ndarray :=
  match p with
  | Arr1 v => Arr1 (List.rev v)
  | Arr2 ny nx a => Arr2 ny nx (fun i j => a (ny - 1 - i)%nat (nx - 1 - j)%nat)
  end.

(** [_check_points] on the points of dimension [dim]: ascending points
    are kept, descending points are made ascending and the dimension is
    recorded as descending, any other points are refused. *)
Definition check_points (dim : nat) (p : ndarray) : result (ndarray * bool) :=
  if points_ascending p then Ok (p, false)
  else if points_descending p then Ok (flip p, true)
  else Raise (ValueError ("The points in dimension " ++ str_of_nat dim
                          ++ " must be strictly ascending or descending")).

(** [_check_dimensionality] on dimension [dim], of which the values
    hold [n] entries. *)
Definition check_dimensionality (dim : nat) (p : ndarray) (n : nat)
  : result (list Q) :=
  match p with
  | Arr2 _ _ _ =>
      Raise (ValueError ("The points in dimension " ++ str_of_nat dim
                         ++ " must be 1-dimensional"))
  | Arr1 v =>
      if Nat.eqb n (List.length v) then Ok v
      else Raise (ValueError ("There are " ++ str_of_nat (List.length v)
                              ++ " points and " ++ str_of_nat n
                              ++ " values in dimension " ++ str_of_nat dim))
  end.

(** The position in the values as they were given of position [i] on
    an axis of [n] points. *)
Definition flipped (descending : bool) (n i : nat) : nat :=
  if descending then (n - 1 - i)%nat else i.

(** [RegularGridInterpolator(points, values, bounds_error=...,
    fill_value=...)]: the points of every dimension are checked first,
    then their number of dimensions and their length; the values are
    flipped along the dimensions whose points were descending. *)
Definition new (points : ndarray * ndarray * ndarray) (vals : Values3)
           (bounds_error : bool) (fill_value : Fill)
  : result RegularGridInterpolator :=
  let '(p0, p1, p2) := points in
  let '(n0, n1, n2) := shape3 vals in
  let* c0 := check_points 0 p0 in
  let* c1 := check_points 1 p1 in
  let* c2 := check_points 2 p2 in
  let* g0 := check_dimensionality 0 (fst c0) n0 in
  let* g1 := check_dimensionality 1 (fst c1) n1 in
  let* g2 := check_dimensionality 2 (fst c2) n2 in
  Ok {| grid_time := g0; grid_lon := g1; grid_lat := g2;
        grid_values := fun i j k => at3 vals (flipped (snd c0) n0 i)
                                             (flipped (snd c1) n1 j)
                                             (flipped (snd c2) n2 k);
        bounds_error := bounds_error; fill_value := fill_value |}.
#[global] Arguments new : simpl never.

(** The number of points of an axis that are at most [x]. *)
Definition count_le (grid : list Q) (x : Q) : nat :=
  List.length (List.filter (fun g => Qle_bool g x) grid).

(** A cell of an axis around a query: the positions of its two edges
    and the normalised distance of the query to the lower one. *)
Record Cell : Type := {
  lower : nat;
  upper : nat;
  norm_distance : Q
}.

(** [find_indices] on one axis: the interval [i] with
    [grid[i] <= x < grid[i + 1]], the first one below the axis and the
    last one at its end and above, and [(x - grid[i]) /
    (grid[i + 1] - grid[i])].  On an axis of one point the two edges are
    that point and the distance is 0; an empty axis cannot be
    indexed. *)
Definition find_index (grid : list Q) (x : Q) : result Cell :=
  match grid with
  | [] => Raise IndexError
  | [_] => Ok {| lower := O; upper := O; norm_distance := 0%Q |}
  | _ :: _ :: _ =>
      let i := Nat.min (count_le grid x - 1) (List.length grid - 2) in
      let lo := List.nth i grid 0%Q in
      let hi := List.nth (S i) grid 0%Q in
      Ok {| lower := i; upper := S i; norm_distance := ((x - lo) / (hi - lo))%Q |}
  end.

(** [x < grid[0]] or [x > grid[-1]]; an empty axis cannot be indexed. *)
Definition out_of_bounds (grid : list Q) (x : Q) : result bool :=
  match grid with
  | [] => Raise IndexError
  | g0 :: _ => Ok (Qlt_bool x g0 || Qlt_bool (List.last grid g0) x)
  end.

Definition weighted (w : Q) (v : option Q) : option Q :=
  option_map (fun q => (q * w)%Q) v.

Definition nan_add (a b : option Q) : option Q :=
  match a, b with
  | Some x, Some y => Some (x + y)%Q
  | _, _ => None
  end.

(** The multilinear interpolation over the 8 corners of the cell. *)
Definition evaluate_linear (vals : nat -> nat -> nat -> option Q)
           (ct clon clat : Cell) : option Q :=
  let corner (di dj dk : bool) : option Q :=
    let wt := if di then norm_distance ct else (1 - norm_distance ct)%Q in
    let wlon := if dj then norm_distance clon else (1 - norm_distance clon)%Q in
    let wlat := if dk then norm_distance clat else (1 - norm_distance clat)%Q in
    weighted (wt * wlon * wlat)%Q
             (vals (if di then upper ct else lower ct)
                   (if dj then upper clon else lower clon)
                   (if dk then upper clat else lower clat)) in
  List.fold_left nan_add
    [corner false false false; corner false false true;
     corner false true false; corner false true true;
     corner true false false; corner true false true;
     corner true true false; corner true true true]
    (Some 0%Q).

(** With [bounds_error] on, a query has to be within the axis of
    dimension [dim]. *)
Definition check_bounds (dim : nat) (grid : list Q) (x : Q) : result unit :=
  match grid with
  | [] => Raise IndexError
  | g0 :: _ =>
      if Qle_bool g0 x && Qle_bool x (List.last grid g0) then Ok tt
      else Raise (ValueError ("One of the requested xi is out of bounds in dimension "
                              ++ str_of_nat dim))
  end.

(** [itp((t, lon, lat))]: the bounds are looked at first, one
    dimension after the other, then the cell of the query is found and
    the values are interpolated; with [bounds_error] off, the fill value
    replaces the result of a query that is out of bounds. *)
Definition call (itp : RegularGridInterpolator) (t lon lat : Q)
  : result (option Q) :=
  let* oob :=
    (if bounds_error itp then
       let* _ := check_bounds 0 (grid_time itp) t in
       let* _ := check_bounds 1 (grid_lon itp) lon in
       let* _ := check_bounds 2 (grid_lat itp) lat in
       Ok false
     else
       let* o0 := out_of_bounds (grid_time itp) t in
       let* o1 := out_of_bounds (grid_lon itp) lon in
       let* o2 := out_of_bounds (grid_lat itp) lat in
       Ok (o0 || o1 || o2)) in
  let* ct := find_index (grid_time itp) t in
  let* clon := find_index (grid_lon itp) lon in
  let* clat := find_index (grid_lat itp) lat in
  let r := evaluate_linear (grid_values itp) ct clon clat in
  Ok (match fill_value itp with
      | FillWith v => if oob then v else r
      | Extrapolate => r
      end).

End scipy.

(* ===================================================================== *)
(** ** numpy helpers of [_interpolate] *)

Definition arange (n : nat) : list Q :=
  List.map (fun i => inject_Z (Z.of_nat i)) (List.seq 0 n).

(** [np.linspace(a, b, n)]. *)
Definition linspace (a b : Q) (n : nat) : list Q :=
  match n with
  | O => []
  | S O => [a]
  | S (S _) =>
      List.map (fun i => (a + inject_Z (Z.of_nat i) * ((b - a) / inject_Z (Z.of_nat (n - 1))))%Q)
               (List.seq 0 n)
  end.

Definition flatten (a : ndarray) : list Q :=
  match a with
  | Arr1 v => v
  | Arr2 ny nx f =>
      List.flat_map (fun i => List.map (fun j => f i j) (List.seq 0 nx)) (List.seq 0 ny)
  end.

Definition Qmin_list (q : Q) (l : list Q) : Q :=
  List.fold_left (fun m x => if Qlt_bool x m then x else m) l q.
Definition Qmax_list (q : Q) (l : list Q) : Q :=
  List.fold_left (fun m x => if Qlt_bool m x then x else m) l q.

(** [a.min()] and [a.max()]; a reduction of an empty array raises. *)
Definition arr_min (a : ndarray) : result Q :=
  match flatten a with
  | [] => Raise (ValueError "zero-size array to reduction operation minimum which has no identity")
  | q :: l => Ok (Qmin_list q l)
  end.
Definition arr_max (a : ndarray) : result Q :=
  match flatten a with
  | [] => Raise (ValueError "zero-size array to reduction operation maximum which has no identity")
  | q :: l => Ok (Qmax_list q l)
  end.

(* ===================================================================== *)
(** ** geo.py *)

Module geo.

(** Modelled from the spec: [geo.bearing_from_lonlat], the bearing helper
    of [find_closest_land], which is not among the sources.  It returns
    the compass bearing from a position to another, in degrees from the
    north, within [0, 360). *)
Record Bearing : Type := {
  bearing_from_lonlat : Q * Q -> Q * Q -> R;
  bearing_range : forall p q, (0 <= bearing_from_lonlat p q < 360)%R
}.

End geo.

(* ===================================================================== *)
(** ** chart.py *)

Module chart.

(** Which branch of [_interpolate] produced its outcome. *)
Inductive Path : Type := RegularPath | CurvilinearPath.

(** [x.sel(time=slice(start_date, end_date))]: the positions of the
    time stamps of the window. *)
Definition sel_time_slice (x : DataArray) (start_date end_date : Calendar.Timestamp)
  : result (list nat) :=
  let* X := sel_slice (inject_Z start_date) (inject_Z end_date)
                      (List.map inject_Z (time x)) in
  Ok (List.map fst X).

(** [np.transpose(X.values, (0, 2, 1))]: (time, longitude, latitude). *)
Definition transposed_values (x : DataArray) (X : list nat) : scipy.Values3 :=
  {| scipy.shape3 := (List.length X, n_lon x, n_lat x);
     scipy.at3 := fun k ilon ilat => values x (List.nth k X O) ilat ilon |}.

(** The body of the [try], [X] being the window. *)
Definition regular_attempt (x : DataArray) (X : list nat)
  : result scipy.RegularGridInterpolator :=
  let longitudes := longitude x in
  let latitudes := latitude x in
  scipy.new (Arr1 (arange (List.length X)), longitudes, latitudes)
            (transposed_values x X) false (scipy.FillWith None).

(** The body of the [except]. *)
Definition curvilinear_attempt (x : DataArray) (X : list nat)
  : result scipy.RegularGridInterpolator :=
  let* lon_min := arr_min (longitude x) in
  let* lon_max := arr_max (longitude x) in
  let* nx := shape_at (longitude x) 1 in
  let longitudes := linspace lon_min lon_max nx in
  let* lat_min := arr_min (latitude x) in
  let* lat_max := arr_max (latitude x) in
  let* ny := shape_at (latitude x) 0 in
  let latitudes := linspace lat_min lat_max ny in
  scipy.new (Arr1 (arange (List.length X)), Arr1 longitudes, Arr1 latitudes)
            (transposed_values x X) false (scipy.FillWith None).

(** [_interpolate(x, start_date, end_date)], with the branch that
    produced the outcome: none when the selection of the window, which
    is outside the [try], raises. *)
Definition _interpolate_traced (x : DataArray) (start_date end_date : Calendar.Timestamp)
  : option Path * result scipy.RegularGridInterpolator :=
  match sel_time_slice x start_date end_date with
  | Raise err => (None, Raise err)
  | Ok X =>
      match regular_attempt x X with
      | Ok itp => (Some RegularPath, Ok itp)
      | Raise _ => (Some CurvilinearPath, curvilinear_attempt x X)
      end
  end.

Definition _interpolate (x : DataArray) (start_date end_date : Calendar.Timestamp)
  : result scipy.RegularGridInterpolator :=
  snd (_interpolate_traced x start_date end_date).

Definition path_taken (x : DataArray) (start_date end_date : Calendar.Timestamp)
  : option Path :=
  fst (_interpolate_traced x start_date end_date).

(** Whether the coordinates of a field are 2-D. *)
Definition is_2d (a : ndarray) : bool :=
  match a with Arr1 _ => false | Arr2 _ _ _ => true end.

Section Chart.
(** The collaborators of the chart: the weighted grid of [search], the
    bearing helper of [geo], the index of [xoak] and the xarray / file
    layer of [utils.load_data]. *)
Variable WeightedGrid : Type.
Variable from_map : DataArray -> nat -> result WeightedGrid.
Variable bearing_from_lonlat : Q * Q -> Q * Q -> R.
Variable xoak_set_index : DataArray -> result unit.
Variable Dataset : Type.
Variable glob : string -> list string.
Variable open_mfdataset : list string -> result Dataset.
Variable ds_drop : string -> Dataset -> result Dataset.
Variable ds_squeeze : Dataset -> Dataset.
Variable ds_rename : list (string * string) -> Dataset -> result Dataset.
Variable ds_sel_time_load :
  Calendar.Timestamp -> Calendar.Timestamp -> Dataset -> result Dataset.
Variable ds_var : string -> Dataset -> result DataArray.

Record Chart : Type := {
  bbox : list Q;
  start_date : Calendar.Timestamp;
  end_date : Calendar.Timestamp;
  data_dir : option string;
  u_current_all : option DataArray;
  v_current_all : option DataArray;
  u_wind_all : option DataArray;
  v_wind_all : option DataArray;
  waves_all : option (DataArray * DataArray);
  longitudes : option ndarray;
  latitudes : option ndarray;
  grid : option WeightedGrid;
  u_current : option scipy.RegularGridInterpolator;
  v_current : option scipy.RegularGridInterpolator;
  u_wind : option scipy.RegularGridInterpolator;
  v_wind : option scipy.RegularGridInterpolator
}.

(** [Chart(bbox, start_date, end_date)]. *)
Definition __init__ (bbox : list Q) (start_date end_date : Calendar.Timestamp) : Chart :=
  {| bbox := bbox; start_date := start_date; end_date := end_date;
     data_dir := None;
     u_current_all := None; v_current_all := None;
     u_wind_all := None; v_wind_all := None; waves_all := None;
     longitudes := None; latitudes := None; grid := None;
     u_current := None; v_current := None; u_wind := None; v_wind := None |}.

(** Reading an attribute that is [None] (or was never set) and using
    it as an array. *)
Definition attr {A} (a : option A) : result A :=
  match a with Some x => Ok x | None => Raise AttributeError end.

(** A method: the chart it leaves and what it returns or raises. *)
Definition Method (A : Type) : Type := Chart -> Chart * result A.

Definition ret {A} (a : A) : Method A := fun c => (c, Ok a).

Definition bind {A B} (m : Method A) (k : A -> Method B) : Method B :=
  fun c => match m c with
           | (c', Ok a) => k a c'
           | (c', Raise e) => (c', Raise e)
           end.

(** An expression that reads the chart. *)
Definition eval {A} (f : Chart -> result A) : Method A := fun c => (c, f c).

(** An assignment to attributes of the chart. *)
Definition assign (f : Chart -> Chart) : Method unit := fun c => (f c, Ok tt).

Definition set_data_dir (d : string) (c : Chart) : Chart :=
  {| bbox := bbox c; start_date := start_date c; end_date := end_date c;
     data_dir := Some d;
     u_current_all := u_current_all c; v_current_all := v_current_all c;
     u_wind_all := u_wind_all c; v_wind_all := v_wind_all c;
     waves_all := waves_all c;
     longitudes := longitudes c; latitudes := latitudes c; grid := grid c;
     u_current := u_current c; v_current := v_current c;
     u_wind := u_wind c; v_wind := v_wind c |}.

Definition set_current_all (uv : DataArray * DataArray) (c : Chart) : Chart :=
  {| bbox := bbox c; start_date := start_date c; end_date := end_date c;
     data_dir := data_dir c;
     u_current_all := Some (fst uv); v_current_all := Some (snd uv);
     u_wind_all := u_wind_all c; v_wind_all := v_wind_all c;
     waves_all := waves_all c;
     longitudes := longitudes c; latitudes := latitudes c; grid := grid c;
     u_current := u_current c; v_current := v_current c;
     u_wind := u_wind c; v_wind := v_wind c |}.

Definition set_wind_all (uv : DataArray * DataArray) (c : Chart) : Chart :=
  {| bbox := bbox c; start_date := start_date c; end_date := end_date c;
     data_dir := data_dir c;
     u_current_all := u_current_all c; v_current_all := v_current_all c;
     u_wind_all := Some (fst uv); v_wind_all := Some (snd uv);
     waves_all := waves_all c;
     longitudes := longitudes c; latitudes := latitudes c; grid := grid c;
     u_current := u_current c; v_current := v_current c;
     u_wind := u_wind c; v_wind := v_wind c |}.

Definition set_waves_all (w : DataArray * DataArray) (c : Chart) : Chart :=
  {| bbox := bbox c; start_date := start_date c; end_date := end_date c;
     data_dir := data_dir c;
     u_current_all := u_current_all c; v_current_all := v_current_all c;
     u_wind_all := u_wind_all c; v_wind_all := v_wind_all c;
     waves_all := Some w;
     longitudes := longitudes c; latitudes := latitudes c; grid := grid c;
     u_current := u_current c; v_current := v_current c;
     u_wind := u_wind c; v_wind := v_wind c |}.

Definition set_map (lons lats : ndarray) (g : WeightedGrid) (c : Chart) : Chart :=
  {| bbox := bbox c; start_date := start_date c; end_date := end_date c;
     data_dir := data_dir c;
     u_current_all := u_current_all c; v_current_all := v_current_all c;
     u_wind_all := u_wind_all c; v_wind_all := v_wind_all c;
     waves_all := waves_all c;
     longitudes := Some lons; latitudes := Some lats; grid := Some g;
     u_current := u_current c; v_current := v_current c;
     u_wind := u_wind c; v_wind := v_wind c |}.

Definition set_u_current (i : scipy.RegularGridInterpolator) (c : Chart) : Chart :=
  {| bbox := bbox c; start_date := start_date c; end_date := end_date c;
     data_dir := data_dir c;
     u_current_all := u_current_all c; v_current_all := v_current_all c;
     u_wind_all := u_wind_all c; v_wind_all := v_wind_all c;
     waves_all := waves_all c;
     longitudes := longitudes c; latitudes := latitudes c; grid := grid c;
     u_current := Some i; v_current := v_current c;
     u_wind := u_wind c; v_wind := v_wind c |}.

Definition set_v_current (i : scipy.RegularGridInterpolator) (c : Chart) : Chart :=
  {| bbox := bbox c; start_date := start_date c; end_date := end_date c;
     data_dir := data_dir c;
     u_current_all := u_current_all c; v_current_all := v_current_all c;
     u_wind_all := u_wind_all c; v_wind_all := v_wind_all c;
     waves_all := waves_all c;
     longitudes := longitudes c; latitudes := latitudes c; grid := grid c;
     u_current := u_current c; v_current := Some i;
     u_wind := u_wind c; v_wind := v_wind c |}.

Definition set_u_wind (i : scipy.RegularGridInterpolator) (c : Chart) : Chart :=
  {| bbox := bbox c; start_date := start_date c; end_date := end_date c;
     data_dir := data_dir c;
     u_current_all := u_current_all c; v_current_all := v_current_all c;
     u_wind_all := u_wind_all c; v_wind_all := v_wind_all c;
     waves_all := waves_all c;
     longitudes := longitudes c; latitudes := latitudes c; grid := grid c;
     u_current := u_current c; v_current := v_current c;
     u_wind := Some i; v_wind := v_wind c |}.

Definition set_v_wind (i : scipy.RegularGridInterpolator) (c : Chart) : Chart :=
  {| bbox := bbox c; start_date := start_date c; end_date := end_date c;
     data_dir := data_dir c;
     u_current_all := u_current_all c; v_current_all := v_current_all c;
     u_wind_all := u_wind_all c; v_wind_all := v_wind_all c;
     waves_all := waves_all c;
     longitudes := longitudes c; latitudes := latitudes c; grid := grid c;
     u_current := u_current c; v_current := v_current c;
     u_wind := u_wind c; v_wind := Some i |}.

Definition load_data := utils.load_data Dataset DataArray glob open_mfdataset
                          ds_drop ds_squeeze ds_rename ds_sel_time_load ds_var.

(** [Chart.load(data_dir)]. *)
Definition load (data_dir : string) : Method unit :=
  bind (assign (set_data_dir data_dir)) (fun _ =>
  bind (eval (fun c => load_data (start_date c) (end_date c) (bbox c) data_dir "currents")) (fun uv =>
  bind (assign (set_current_all uv)) (fun _ =>
  bind (eval (fun c => load_data (start_date c) (end_date c) (bbox c) data_dir "winds")) (fun uv =>
  bind (assign (set_wind_all uv)) (fun _ =>
  bind (eval (fun c => load_data (start_date c) (end_date c) (bbox c) data_dir "waves")) (fun w =>
  bind (assign (set_waves_all w)) (fun _ =>
  bind (eval (fun c => let* u := attr (u_wind_all c) in xoak_set_index u)) (fun _ =>
  bind (eval (fun c => let* v := attr (v_wind_all c) in xoak_set_index v)) (fun _ =>
  bind (eval (fun c =>
                let* u := attr (u_current_all c) in
                let* it := nearest_time (time u) (start_date c) in
                let* g := from_map u it in
                Ok (longitude u, latitude u, g))) (fun m =>
  assign (set_map (fst (fst m)) (snd (fst m)) (snd m)))))))))))).

(** [Chart.interpolate(date, duration)]. *)
Definition interpolate (date : Calendar.Timestamp) (duration : Z) : Method unit :=
  let end_date := Calendar.add_days date duration in
  bind (eval (fun c => let* x := attr (u_current_all c) in _interpolate x date end_date)) (fun i =>
  bind (assign (set_u_current i)) (fun _ =>
  bind (eval (fun c => let* x := attr (v_current_all c) in _interpolate x date end_date)) (fun i =>
  bind (assign (set_v_current i)) (fun _ =>
  bind (eval (fun c => let* x := attr (u_wind_all c) in _interpolate x date end_date)) (fun i =>
  bind (assign (set_u_wind i)) (fun _ =>
  bind (eval (fun c => let* x := attr (v_wind_all c) in _interpolate x date end_date)) (fun i =>
  assign (set_v_wind i)))))))).

(** [Chart.isLand(longitude, latitude)]. *)
Definition isLand (c : Chart) (longitude latitude : Q) : result bool :=
  let* u := attr (u_current_all c) in
  let* v_x_current := sel_nearest u (start_date c) longitude latitude in
  let* v := attr (v_current_all c) in
  let* v_y_current := sel_nearest v (start_date c) longitude latitude in
  Ok (isnan v_x_current || isnan v_y_current).

(** The window of both searches:
    [u_current_all.sel(time=start_date,
                       longitude=slice(longitude - r, longitude + r),
                       latitude=slice(latitude - r, latitude + r))]. *)
Definition selected_radius (c : Chart) (longitude latitude radar_radius : Q)
  : result Window :=
  let* u := attr (u_current_all c) in
  sel_window u (start_date c)
             (longitude - radar_radius) (longitude + radar_radius)
             (latitude - radar_radius) (latitude + radar_radius).

(** [Chart.find_closest_land(longitude, latitude, radar_radius)]:
    [None] is [[None, None]], [Some (d, a)] is
    [[distance_to_land, angle_to_land]]. *)
Definition find_closest_land (c : Chart) (longitude latitude radar_radius : Q)
  : result (option (R * R)) :=
  let* w := selected_radius c longitude latitude radar_radius in
  let* nan_count := sum_sum (mask_values isnan w) in
  let isThereLand := negb (nan_count =? 0) in
  if isThereLand then
    let* closest :=
      argmin (node_distance longitude latitude)
             (List.filter (fun n => isnan (node_value n)) (nodes w)) in
    let lat_closest := snd (node_lat closest) in
    let lon_closest := snd (node_lon closest) in
    let distance_to_land := node_distance longitude latitude closest in
    let angle_to_land :=
      bearing_from_lonlat (longitude, latitude) (lon_closest, lat_closest) in
    Ok (Some (distance_to_land, angle_to_land))
  else Ok None.

(** [Chart.find_closest_water(longitude, latitude, radar_radius)]:
    [None] is [[None, None]], [Some (lon, lat)] is
    [[lon_closest, lat_closest]]. *)
Definition find_closest_water (c : Chart) (longitude latitude radar_radius : Q)
  : result (option (Q * Q)) :=
  let* w := selected_radius c longitude latitude radar_radius in
  let* values_count := sum_sum (mask_values notnull w) in
  let isThereWater := negb (values_count =? 0) in
  if isThereWater then
    let* closest :=
      argmin (node_distance longitude latitude)
             (List.filter (fun n => notnull (node_value n)) (nodes w)) in
    let lat_closest := snd (node_lat closest) in
    let lon_closest := snd (node_lon closest) in
    Ok (Some (lon_closest, lat_closest))
  else Ok None.

End Chart.

Arguments bbox {WeightedGrid} c.
Arguments start_date {WeightedGrid} c.
Arguments end_date {WeightedGrid} c.
Arguments data_dir {WeightedGrid} c.
Arguments u_current_all {WeightedGrid} c.
Arguments v_current_all {WeightedGrid} c.
Arguments u_wind_all {WeightedGrid} c.
Arguments v_wind_all {WeightedGrid} c.
Arguments waves_all {WeightedGrid} c.
Arguments longitudes {WeightedGrid} c.
Arguments latitudes {WeightedGrid} c.
Arguments grid {WeightedGrid} c.
Arguments u_current {WeightedGrid} c.
Arguments v_current {WeightedGrid} c.
Arguments u_wind {WeightedGrid} c.
Arguments v_wind {WeightedGrid} c.
Arguments interpolate {WeightedGrid} date duration _ : simpl never.
Arguments isLand {WeightedGrid} c longitude latitude.
Arguments selected_radius {WeightedGrid} c longitude latitude radar_radius.
Arguments find_closest_land {WeightedGrid} bearing_from_lonlat c
  longitude latitude radar_radius.
Arguments find_closest_water {WeightedGrid} c longitude latitude radar_radius.

End chart.

(* ===================================================================== *)
(** ** multiprocessing.Pool.map *)

Module mp.

Section Pool.
Context {A B : Type}.

(** The size of a batch of tasks for [n] items on [processes] workers:
    [chunksize, extra = divmod(n, processes * 4)], one more when
    [extra] is not zero. *)
Definition chunksize (n processes : nat) : nat :=
  let q := Nat.div n (processes * 4) in
  if Nat.eqb (Nat.modulo n (processes * 4)) 0 then q else S q.

Definition n_batches (n cs : nat) : nat :=
  match cs with
  | O => O
  | S _ => Nat.div (n + cs - 1) cs
  end.

(** The batches handed to the workers: the [i]-th one holds the items
    [i * cs .. (i + 1) * cs - 1]. *)
Definition batches (cs : nat) (items : list A) : list (nat * list A) :=
  List.map (fun i => (i, List.firstn cs (List.skipn (i * cs) items)))
           (List.seq 0 (n_batches (List.length items) cs)).

(** [value[start : start + len(xs)] = xs] on the result slots. *)
Fixpoint set_slice (start : nat) (xs : list B) (slots : list (option B))
  : list (option B) :=
  match slots with
  | [] => []
  | s :: rest =>
      match start with
      | S start' => s :: set_slice start' xs rest
      | O =>
          match xs with
          | [] => slots
          | x :: xs' => Some x :: set_slice O xs' rest
          end
      end
  end.

(** A worker finishes batch [i]: its results go to the slots
    [i * cs ..]. *)
Definition complete (func : A -> B) (cs : nat) (slots : list (option B))
           (task : nat * list A) : list (option B) :=
  set_slice (fst task * cs) (List.map func (snd task)) slots.

(** The value read once every batch is done ([None]: a slot is still
    to be filled). *)
Fixpoint gather (slots : list (option B)) : option (list B) :=
  match slots with
  | [] => Some []
  | None :: _ => None
  | Some x :: rest => option_map (cons x) (gather rest)
  end.

(** [Pool(processes).map(func, items)], the batches being completed in
    the order [schedule] gives them. *)
Definition map (processes : nat)
           (schedule : list (nat * list A) -> list (nat * list A))
           (func : A -> B) (items : list A) : result (option (list B)) :=
  if Nat.eqb processes 0 then
    Raise (ValueError "Number of processes must be at least 1")
  else
    let cs := chunksize (List.length items) processes in
    let slots := List.repeat None (List.length items) in
    Ok (gather (List.fold_left (complete func cs)
                               (schedule (batches cs items)) slots)).
End Pool.

End mp.

(* ===================================================================== *)
(** ** traverser.py *)

Module traverser.

(** [l[::step]]. *)
Definition slice_step {A} (step : Z) (l : list A) : result (list A) :=
  if step =? 0 then Raise (ValueError "slice step cannot be zero")
  else if 0 <? step then
    let k := Z.to_nat step in
    Ok (List.flat_map (fun i => match List.nth_error l (i * k) with
                                | Some x => [x]
                                | None => []
                                end)
                      (List.seq 0 (Nat.div (List.length l + k - 1) k)))
  else
    let k := Z.to_nat (- step) in
    let r := List.rev l in
    Ok (List.flat_map (fun i => match List.nth_error r (i * k) with
                                | Some x => [x]
                                | None => []
                                end)
                      (List.seq 0 (Nat.div (List.length l + k - 1) k))).

Section Traverser.
Variable WeightedGrid : Type.
Variable from_map : DataArray -> nat -> result WeightedGrid.
Variable xoak_set_index : DataArray -> result unit.
Variable Dataset : Type.
Variable glob : string -> list string.
Variable open_mfdataset : list string -> result Dataset.
Variable ds_drop : string -> Dataset -> result Dataset.
Variable ds_squeeze : Dataset -> Dataset.
Variable ds_rename : list (string * string) -> Dataset -> result Dataset.
Variable ds_sel_time_load :
  Calendar.Timestamp -> Calendar.Timestamp -> Dataset -> result Dataset.
Variable ds_var : string -> Dataset -> result DataArray.

Abbreviation Chart := (chart.Chart WeightedGrid).

(** The collaborators of [models]: the model and the vessels.  A
    vessel and a model hold a reference to the chart, so what they do
    depends on the chart as it is when they are called. *)
Variable Vessel : Type.
Variable Model : Type.
Variable Model_new : Z -> Z -> Model.
Variable Model_use : Model -> Chart -> Model.
Variable Model_run : Model -> Chart -> Vessel -> Vessel.

Record Traverser : Type := {
  craft : Z;
  mode : string;
  duration : Z;
  dt : Z;
  vessel_config : string;
  destination : list Q;
  speed : Q;
  data_directory : string;
  start_date : Calendar.Timestamp;
  end_date : Calendar.Timestamp;
  dates : list Calendar.Timestamp;
  launch_day_frequency : Z;
  bbox : list Q;
  departure_points : list (Q * Q)
}.

Variable Vessel_from_position : Q * Q -> Traverser -> Chart -> Vessel.

(** Modelled from the spec: [Vessel.from_positions] of [models], which
    is not among the sources; one vessel per departure point, in the
    order of the points. *)
Definition Vessel_from_positions (t : Traverser) (c : Chart) : list Vessel :=
  List.map (fun p => Vessel_from_position p t c) (departure_points t).

(** [Traverser(...)]; [start_date] and [end_date] are the values of
    [pd.to_datetime] on the arguments. *)
Definition __init__ (mode : string) (craft duration timestep : Z)
           (destination : list Q) (speed : Q)
           (start_date end_date : Calendar.Timestamp) (launch_freq : Z)
           (bbox : list Q) (departure_points : list (Q * Q))
           (data_directory vessel_config : string) : Traverser :=
  {| craft := craft; mode := mode; duration := duration; dt := timestep;
     vessel_config := vessel_config;
     destination := destination; speed := speed;
     data_directory := data_directory;
     start_date := start_date; end_date := end_date;
     dates := Calendar.date_range start_date end_date;
     launch_day_frequency := launch_freq;
     bbox := bbox; departure_points := departure_points |}.

(** [self.dates[::self.launch_day_frequency]]. *)
Definition launch_dates (t : Traverser) : result (list Calendar.Timestamp) :=
  slice_step (launch_day_frequency t) (dates t).

Definition Results : Type := gmap string (list Vessel).

(** The body of [for date in self.dates[::self.launch_day_frequency]],
    shared by [run] and [run_mp], which differ in how [trajectories] is
    computed from the model, the chart and the vessels. *)
Fixpoint launches
         (trajectories_of :
            Calendar.Timestamp -> Model -> Chart -> list Vessel -> result (list Vessel))
         (t : Traverser) (ds : list Calendar.Timestamp)
         (c : Chart) (model : Model) (results : Results) : result Results :=
  match ds with
  | [] => Ok results
  | date :: rest =>
      let vessels := Vessel_from_positions t c in
      match chart.interpolate date (duration t) c with
      | (_, Raise e) => Raise e
      | (c', Ok _) =>
          let model' := Model_use model c' in
          let* trajectories := trajectories_of date model' c' vessels in
          launches trajectories_of t rest c' model'
                   (<[Calendar.strftime_ymd date := trajectories]> results)
      end
  end.

(** [trajectories = []; for vessel in vessels:
     trajectories.append(model.run(vessel))]. *)
Definition run_each (date : Calendar.Timestamp) (model : Model) (c : Chart)
           (vessels : list Vessel)
  : result (list Vessel) :=
  Ok (List.fold_left (fun trajectories vessel =>
                        trajectories ++ [Model_run model c vessel])
                     vessels []).

(** The order in which the workers complete the batches of a launch. *)
Definition Schedule : Type :=
  Calendar.Timestamp -> list (nat * list Vessel) -> list (nat * list Vessel).

(** [with mp.Pool(mp.cpu_count()) as p:
     trajectories = p.map(model.run, vessels)]. *)
Definition run_pool (cpu_count : nat) (schedule : Schedule)
           (date : Calendar.Timestamp) (model : Model) (c : Chart)
           (vessels : list Vessel)
  : result (list Vessel) :=
  let* value := mp.map cpu_count (schedule date) (Model_run model c) vessels in
  match value with
  | Some trajectories => Ok trajectories
  | None => Raise OSError
  end.

Definition load_chart (t : Traverser) : result Chart :=
  match chart.load WeightedGrid from_map xoak_set_index Dataset glob
                   open_mfdataset ds_drop ds_squeeze ds_rename
                   ds_sel_time_load ds_var (data_directory t)
                   (chart.__init__ WeightedGrid (bbox t) (start_date t) (end_date t))
  with
  | (c, Ok _) => Ok c
  | (_, Raise e) => Raise e
  end.

(** [Traverser.run()]. *)
Definition run (t : Traverser) : result Results :=
  let* c := load_chart t in
  let model := Model_new (duration t) (dt t) in
  let* ds := launch_dates t in
  launches run_each t ds c model ∅.

(** [Traverser.run_mp()]. *)
Definition run_mp (cpu_count : nat) (schedule : Schedule)
           (t : Traverser) : result Results :=
  let* c := load_chart t in
  let model := Model_new (duration t) (dt t) in
  let* ds := launch_dates t in
  launches (run_pool cpu_count schedule) t ds c model ∅.

(** A generator run to its end: the values it yields, in order, and
    the exception that ends it, if one does. *)
Definition Yields (A : Type) : Type := list A * option Error.

(** The body of the loop of [as_generator]: the same launch as in
    [run_mp], whose trajectories are yielded under the key of the date
    instead of being added to [results]. *)
Fixpoint generate (cpu_count : nat) (schedule : Schedule)
         (t : Traverser) (ds : list Calendar.Timestamp)
         (c : Chart) (model : Model) : Yields Results :=
  match ds with
  | [] => ([], None)
  | date :: rest =>
      let vessels := Vessel_from_positions t c in
      match chart.interpolate date (duration t) c with
      | (_, Raise e) => ([], Some e)
      | (c', Ok _) =>
          let model' := Model_use model c' in
          match run_pool cpu_count schedule date model' c' vessels with
          | Raise e => ([], Some e)
          | Ok trajectories =>
              let rest_yields := generate cpu_count schedule t rest c' model' in
              ({[ Calendar.strftime_ymd date := trajectories ]} :: fst rest_yields,
               snd rest_yields)
          end
      end
  end.

(** [Traverser.as_generator()], consumed to its end. *)
Definition as_generator (cpu_count : nat) (schedule : Schedule)
           (t : Traverser) : Yields Results :=
  match load_chart t with
  | Raise e => ([], Some e)
  | Ok c =>
      let model := Model_new (duration t) (dt t) in
      match launch_dates t with
      | Raise e => ([], Some e)
      | Ok ds => generate cpu_count schedule t ds c model
      end
  end.

(** [results.update(y)] for each yielded [y], in order. *)
Definition collect (results : Results) (ys : list Results) : Results :=
  List.fold_left (fun acc y => y ∪ acc) ys results.

End Traverser.

End traverser.

(* ===================================================================== *)
(* ===================================================================== *)
(** ** Vocabulary of the properties *)

(** The values that [normalize_longitude] does not keep. *)
Definition out_of_0_360 (x : Q) : bool := Qlt_bool x 0 || Qlt_bool 360 x.

(** An interpolant whose axes all have a point. *)
Definition grid_nonempty (itp : scipy.RegularGridInterpolator) : bool :=
  negb (Nat.eqb (List.length (scipy.grid_time itp)) 0)
  && negb (Nat.eqb (List.length (scipy.grid_lon itp)) 0)
  && negb (Nat.eqb (List.length (scipy.grid_lat itp)) 0).

(** A coordinate is outside an axis when it is below every point or
    above every point of the axis, and a query is outside the domain of
    an interpolant when one of its coordinates is outside its axis. *)
Definition outside_axis (grid : list Q) (x : Q) : bool :=
  List.forallb (fun g => Qlt_bool x g) grid
  || List.forallb (fun g => Qlt_bool g x) grid.

Definition outside_domain (itp : scipy.RegularGridInterpolator) (t lon lat : Q) : bool :=
  outside_axis (scipy.grid_time itp) t
  || outside_axis (scipy.grid_lon itp) lon
  || outside_axis (scipy.grid_lat itp) lat.

(** A coordinate vector put in ascending order by reversing it when it
    is not ascending, and the position in the vector of the [i]-th point
    of the result. *)
Definition ascending_order (v : list Q) : list Q :=
  if strictly_ascending v then v else List.rev v.

(** A vector that is strictly ascending or strictly descending. *)
Definition strictly_monotone (v : list Q) : bool :=
  strictly_ascending v || strictly_descending v.

Definition source_position (coordinate : ndarray) (i : nat) : nat :=
  match coordinate with
  | Arr1 v => if strictly_ascending v then i else (List.length v - 1 - i)%nat
  | Arr2 _ _ _ => i
  end.

(** The window of a search: the longitudes and latitudes within
    [radar_radius] degrees of those of the query point. *)
Definition within_radius (lon lat r : Q) (qlon qlat : Q) : Prop :=
  (lon - r <= qlon)%Q /\ (qlon <= lon + r)%Q
  /\ (lat - r <= qlat)%Q /\ (qlat <= lat + r)%Q.

(** A node of a grid with the longitudes [lons] and the latitudes
    [lats], given by its positions and its coordinates, that is within
    the window of a search around [(lon, lat)]. *)
Definition node_in_window (lons lats : list Q) (lon lat r : Q)
           (ilat ilon : nat) (qlat qlon : Q) : Prop :=
  List.nth_error lats ilat = Some qlat /\ List.nth_error lons ilon = Some qlon
  /\ within_radius lon lat r qlon qlat.

(** The window of a search on a grid whose indexes are increasing. *)
Definition regular_window (u : DataArray) (it : nat) (lons lats : list Q)
           (lon lat r : Q) : Window :=
  {| w_data := u; w_time := it;
     w_lats := labels_within (lat - r) (lat + r) lats;
     w_lons := labels_within (lon - r) (lon + r) lons |}.

(** The missing nodes and the nodes with a value of a window. *)
Definition land_nodes (w : Window) : list Node :=
  List.filter (fun n => isnan (node_value n)) (nodes w).

Definition water_nodes (w : Window) : list Node :=
  List.filter (fun n => notnull (node_value n)) (nodes w).

(** The state of the chart that [interpolate] does not write. *)
Definition same_loaded_state {G} (c c' : chart.Chart G) : Prop :=
  chart.bbox c' = chart.bbox c
  /\ chart.start_date c' = chart.start_date c
  /\ chart.end_date c' = chart.end_date c
  /\ chart.data_dir c' = chart.data_dir c
  /\ chart.u_current_all c' = chart.u_current_all c
  /\ chart.v_current_all c' = chart.v_current_all c
  /\ chart.u_wind_all c' = chart.u_wind_all c
  /\ chart.v_wind_all c' = chart.v_wind_all c
  /\ chart.waves_all c' = chart.waves_all c
  /\ chart.longitudes c' = chart.longitudes c
  /\ chart.latitudes c' = chart.latitudes c
  /\ chart.grid c' = chart.grid c.

(** A sequence of calls [interpolate(date, duration)], whether they
    return or raise. *)
Definition interpolate_all {G} (calls : list (Calendar.Timestamp * Z))
           (c : chart.Chart G) : chart.Chart G :=
  List.fold_left (fun c call => fst (chart.interpolate (fst call) (snd call) c))
                 calls c.

(** A batch as [batches] cuts it. *)
Definition valid {A} (cs : nat) (items : list A) (task : nat * list A) : Prop :=
  snd task = List.firstn cs (List.skipn (fst task * cs) items).

(** The items a batch holds. *)
Definition covers {A} (cs : nat) (p : nat) (task : nat * list A) : Prop :=
  (fst task * cs <= p < fst task * cs + List.length (snd task))%nat.

(** The square of the distance, in degrees, from a query point to a
    point and to a node. *)
Definition square_degrees (longitude latitude : Q) (lon' lat' : Q) : Q :=
  ((lat' - latitude) * (lat' - latitude)
   + (lon' - longitude) * (lon' - longitude))%Q.

Definition degrees2 (longitude latitude : Q) (n : Node) : Q :=
  square_degrees longitude latitude (snd (node_lon n)) (snd (node_lat n)).

(* ===================================================================== *)
(** ** Example data *)

(** A field on a regular grid whose longitudes are not ascending. *)
Definition unsorted_field : DataArray :=
  {| time := [0];
     longitude := Arr1 [0#1; 2#1; 1#1];
     latitude := Arr1 [0#1; 1#1];
     values := fun _ _ _ => Some (1#1) |}.

(** A field on a regular 2 x 2 grid with two time stamps, a day apart. *)
Definition small_field : DataArray :=
  {| time := [0; 86400];
     longitude := Arr1 [0#1; 1#1];
     latitude := Arr1 [0#1; 1#1];
     values := fun it ilat ilon => Some (inject_Z (Z.of_nat (it + ilat + ilon))) |}.

Definition small_interpolant : scipy.RegularGridInterpolator :=
  {| scipy.grid_time := [0#1; 1#1];
     scipy.grid_lon := [0#1; 1#1];
     scipy.grid_lat := [0#1; 1#1];
     scipy.grid_values :=
       fun k ilon ilat => values small_field (List.nth k [0%nat; 1%nat] O) ilat ilon;
     scipy.bounds_error := false;
     scipy.fill_value := scipy.FillWith None |}.

(** A row of two nodes: land at longitude 0, water at longitude 1. *)
Definition coast : DataArray :=
  {| time := [0];
     longitude := Arr1 [0#1; 1#1];
     latitude := Arr1 [0#1];
     values := fun _ _ ilon => match ilon with O => None | S _ => Some (1#2) end |}.

(** The same grid with no value at all. *)
Definition no_value : DataArray :=
  {| time := [0];
     longitude := Arr1 [0#1; 1#1];
     latitude := Arr1 [0#1];
     values := fun _ _ _ => None |}.

(** The same grid with a value at every node. *)
Definition all_water : DataArray :=
  {| time := [0];
     longitude := Arr1 [0#1; 1#1];
     latitude := Arr1 [0#1];
     values := fun _ _ _ => Some (1#2) |}.


(** A field whose latitudes run from north to south. *)
Definition north_first : DataArray :=
  {| time := [0; 86400];
     longitude := Arr1 [0#1; 1#1];
     latitude := Arr1 [1#1; 0#1];
     values := fun it ilat ilon => Some (inject_Z (Z.of_nat (it + 2 * ilat + ilon))) |}.

(** A chart holding the given current fields, its start date being the
    time stamp of the fields. *)
Definition chart_of (u v : DataArray) : chart.Chart unit :=
  {| chart.bbox := [-1#1; -1#1; 2#1; 1#1];
     chart.start_date := 0; chart.end_date := 0;
     chart.data_dir := None;
     chart.u_current_all := Some u; chart.v_current_all := Some v;
     chart.u_wind_all := None; chart.v_wind_all := None;
     chart.waves_all := None;
     chart.longitudes := Some (longitude u); chart.latitudes := Some (latitude u);
     chart.grid := Some tt;
     chart.u_current := None; chart.v_current := None;
     chart.u_wind := None; chart.v_wind := None |}.

Definition coast_window : Window :=
  {| w_data := coast; w_time := 0;
     w_lats := [(0%nat, 0#1)];
     w_lons := [(0%nat, 0#1); (1%nat, 1#1)] |}.

(** A helper that answers north. *)
Definition north : geo.Bearing.
Proof.
  refine {| geo.bearing_from_lonlat := fun _ _ => 0%R |}.
  intros p q. lra.
Defined.

(** A chart with the same field for currents and winds. *)
Definition chart_with_winds : chart.Chart unit :=
  {| chart.bbox := [-1#1; -1#1; 2#1; 1#1];
     chart.start_date := 0; chart.end_date := 0;
     chart.data_dir := None;
     chart.u_current_all := Some coast; chart.v_current_all := Some coast;
     chart.u_wind_all := Some coast; chart.v_wind_all := Some coast;
     chart.waves_all := None;
     chart.longitudes := Some (longitude coast); chart.latitudes := Some (latitude coast);
     chart.grid := Some tt;
     chart.u_current := None; chart.v_current := None;
     chart.u_wind := None; chart.v_wind := None |}.

(** A traverser with three departure points, vessels that are their
    position, and a model that moves a vessel one degree east. *)
Definition three_points : traverser.Traverser :=
  traverser.__init__ "drift" 1 60 1 [] (2#1) 0 0 5 [-1#1; -1#1; 2#1; 1#1]
                     [(0#1, 0#1); (1#1, 1#1); (2#1, 2#1)] "" "".

Definition vessel_at (p : Q * Q) (t : traverser.Traverser) (c : chart.Chart unit)
  : Q * Q := p.

Definition drift_east (model : unit) (c : chart.Chart unit) (v : Q * Q) : Q * Q :=
  (Qred (fst v + 1), snd v).

(** Workers that complete their batches in the reverse order of
    submission. *)
Definition reversed_schedule : traverser.Schedule (Q * Q) :=
  fun _ tasks => List.rev tasks.

(* ===================================================================== *)
(** * Properties *)

(** ** The embedding on small inputs *)

Example strftime_example :
  Calendar.strftime_ymd (Calendar.timestamp_of_ymd 2020 1 6 + 3600)
  = "2020-01-06"%string.
Proof. vm_compute. reflexivity. Qed.

Example civil_round_trip :
  Calendar.date_of (Calendar.timestamp_of_ymd 2024 2 29) = (2024, 2, 29).
Proof. vm_compute. reflexivity. Qed.

Example linspace_example :
  List.map Qred (linspace (0#1) (1#1) 3) = [0#1; 1#2; 1#1].
Proof. vm_compute. reflexivity. Qed.

(** The patterns of [load_data] for a directory, for no directory
    (the default of the traverser), for a directory with its separator
    and for a source that is an absolute path. *)
Example pattern_of_examples :
  utils.pattern_of "data" "currents" (Calendar.year_str 2020)
  = "data/currents/2020/*.nc"%string
  /\ utils.pattern_of "" "currents" (Calendar.year_str 2020)
     = "currents/2020/*.nc"%string
  /\ utils.pattern_of "data/" "winds" (Calendar.year_str 1999)
     = "data/winds/1999/*.nc"%string
  /\ utils.pattern_of "data" "/srv/winds" (Calendar.year_str 1999)
     = "/srv/winds/1999/*.nc"%string.
Proof. vm_compute. repeat split. Qed.

Example str_of_nat_examples :
  str_of_nat 0 = "0"%string /\ str_of_nat 7 = "7"%string
  /\ str_of_nat 120 = "120"%string.
Proof. vm_compute. repeat split. Qed.

Example slice_step_backwards :
  traverser.slice_step (-2) [1; 2; 3; 4; 5] = Ok [5; 3; 1].
Proof. vm_compute. reflexivity. Qed.

(** The nearest label: a tie goes to the larger label, whatever the
    direction of the index; an index that is not monotonic or that holds
    a label twice is refused. *)
Example nearest_tie :
  nearest_coord [0#1; 1#1] (1#2) = Ok 1%nat
  /\ nearest_coord [1#1; 0#1] (1#2) = Ok 0%nat
  /\ nearest_coord [0#1; 2#1; 1#1] (1#1)
     = Raise (ValueError "index must be monotonic increasing or decreasing")
  /\ nearest_coord [0#1; 0#1; 1#1] (1#1) = Raise InvalidIndexError
  /\ nearest_coord [] (1#1) = Raise KeyError.
Proof. vm_compute. repeat split. Qed.

(** A slice of labels: on an increasing index the labels within the
    bounds; on a decreasing index nothing, unless the bounds are given
    the other way round; on an index that is not monotonic the bounds
    have to be labels, and what is between their positions is taken. *)
Example sel_slice_examples :
  sel_slice (1#2) (5#2) [0#1; 1#1; 2#1] = Ok [(1%nat, 1#1); (2%nat, 2#1)]
  /\ sel_slice (5#2) (1#2) [0#1; 1#1; 2#1] = Ok []
  /\ sel_slice (1#2) (5#2) [2#1; 1#1; 0#1] = Ok []
  /\ sel_slice (5#2) (1#2) [2#1; 1#1; 0#1] = Ok [(0%nat, 2#1); (1%nat, 1#1)]
  /\ sel_slice (1#2) (5#2) [0#1; 2#1; 1#1] = Raise KeyError
  /\ sel_slice (0#1) (1#1) [0#1; 2#1; 1#1]
     = Ok [(0%nat, 0#1); (1%nat, 2#1); (2%nat, 1#1)].
Proof. vm_compute. repeat split. Qed.

Example sum_sum_rows :
  sum_sum [] = Raise TypeError
  /\ sum_sum [[]; []] = Ok 0
  /\ sum_sum [[true; false]; [true; true]] = Ok 3.
Proof. repeat split. Qed.

Example pool_map_reversed :
  mp.map 2 (@List.rev _) Z.succ [1; 2; 3; 4; 5; 6; 7; 8; 9; 10]
  = Ok (Some [2; 3; 4; 5; 6; 7; 8; 9; 10; 11])
  /\ List.length (mp.batches (mp.chunksize 10 2) [1; 2; 3; 4; 5; 6; 7; 8; 9; 10])
     = 5%nat.
Proof. vm_compute. split; reflexivity. Qed.

(** ** Data loading *)

Section GridStoreFacts.
Variable Dataset : Type.
Variable DataArray' : Type.
Variable glob : string -> list string.
Variable open_mfdataset : list string -> result Dataset.
Variable ds_drop : string -> Dataset -> result Dataset.
Variable ds_squeeze : Dataset -> Dataset.
Variable ds_rename : list (string * string) -> Dataset -> result Dataset.
Variable ds_sel_time_load :
  Calendar.Timestamp -> Calendar.Timestamp -> Dataset -> result Dataset.
Variable ds_var : string -> Dataset -> result DataArray'.

Let load_data := utils.load_data Dataset DataArray' glob open_mfdataset
                   ds_drop ds_squeeze ds_rename ds_sel_time_load ds_var.

(** Any source other than "currents" and "winds" is refused. *)
Lemma load_data_other_source start end_ bbox data_directory source :
  source <> "currents"%string -> source <> "winds"%string ->
  load_data start end_ bbox data_directory source
  = Raise (ValueError "Source must be currents or winds.").
Proof.
  intros Hc Hw. unfold load_data, utils.load_data.
  apply String.eqb_neq in Hc, Hw. rewrite Hc, Hw. reflexivity.
Qed.

(** C1. [load_data] called with [source = "waves"], one of the three
    sources of the enumeration, does not load anything: it raises the
    ValueError of an invalid source, whatever the files are. *)
Theorem load_data_waves_raises start end_ bbox data_directory :
  load_data start end_ bbox data_directory "waves"
  = Raise (ValueError "Source must be currents or winds.").
Proof. reflexivity. Qed.
End GridStoreFacts.

(** ** Longitude normalisation *)

Lemma east_not_west x : utils.is_east x = true -> utils.is_west x = false.
Proof.
  unfold utils.is_east, utils.is_west, Qlt_bool.
  intros H. apply andb_true_iff in H as [_ H]. rewrite H. reflexivity.
Qed.

Lemma filter_all {A} (p : A -> bool) (l : list A) :
  forallb p l = true -> List.filter p l = l.
Proof.
  induction l as [|a l IH]; simpl; [reflexivity|].
  intros H. apply andb_true_iff in H as [Ha Hl].
  rewrite Ha, IH by assumption. reflexivity.
Qed.

Lemma filter_none {A} (p q : A -> bool) (l : list A) :
  (forall x, p x = true -> q x = false) ->
  forallb p l = true -> List.filter q l = [].
Proof.
  intros Hpq. induction l as [|a l IH]; simpl; [reflexivity|].
  intros H. apply andb_true_iff in H as [Ha Hl].
  rewrite (Hpq _ Ha). auto.
Qed.

(** C2, as the code has it. An array whose values all lie in [0, 180]
    is returned unchanged, and [normalize_longitude([350, 10])] is
    [[10, -10]]: the east values first, then the shifted west values. *)
Theorem normalize_longitude_east_fixed (lon : list Q) :
  forallb utils.is_east lon = true ->
  utils.normalize_longitude lon = lon
  /\ utils.normalize_longitude [350#1; 10#1] = [10#1; -10#1].
Proof.
  intros H. split.
  - unfold utils.normalize_longitude.
    rewrite (filter_all _ _ H), (filter_none _ _ _ east_not_west H).
    simpl. apply app_nil_r.
  - vm_compute. reflexivity.
Qed.

Lemma normalize_longitude_east_fixed_witness :
  forallb utils.is_east [0#1; 90#1; 180#1] = true
  /\ (utils.normalize_longitude [0#1; 90#1; 180#1] = [0#1; 90#1; 180#1]
      /\ utils.normalize_longitude [350#1; 10#1] = [10#1; -10#1]).
Proof.
  split; [reflexivity|].
  apply (normalize_longitude_east_fixed [0#1; 90#1; 180#1]). reflexivity.
Defined.

(** C2, as stated, fails: [[10, -10]] is in the signed convention and
    its normalisation is [[10]]. *)
Lemma normalize_longitude_drops_signed_west :
  forallb utils.is_signed [10#1; -10#1] = true
  /\ utils.normalize_longitude [10#1; -10#1] = [10#1]
  /\ utils.normalize_longitude [10#1; -10#1] <> [10#1; -10#1].
Proof.
  split; [reflexivity|]. split; [reflexivity|]. discriminate.
Qed.

(** Normalising twice differs from normalising once. *)
Lemma normalize_longitude_twice :
  utils.normalize_longitude (utils.normalize_longitude [350#1; 10#1])
  <> utils.normalize_longitude [350#1; 10#1].
Proof. vm_compute. discriminate. Qed.

Lemma Qle_bool_trans x y z :
  Qle_bool x y = true -> Qle_bool y z = true -> Qle_bool x z = true.
Proof.
  rewrite !Qle_bool_iff. apply Qle_trans.
Qed.

Lemma Qle_bool_total x y : Qle_bool x y = false -> Qle_bool y x = true.
Proof.
  intros H. apply Qle_bool_iff. apply Qlt_le_weak, Qnot_le_lt.
  intros Hle. apply Qle_bool_iff in Hle. congruence.
Qed.

(** Each value is east, west or outside [0, 360], and only one of them. *)
Lemma classify x :
  (utils.is_east x = true /\ utils.is_west x = false /\ out_of_0_360 x = false)
  \/ (utils.is_east x = false /\ utils.is_west x = true /\ out_of_0_360 x = false)
  \/ (utils.is_east x = false /\ utils.is_west x = false /\ out_of_0_360 x = true).
Proof.
  unfold utils.is_east, utils.is_west, out_of_0_360, Qlt_bool.
  destruct (Qle_bool 0 x) eqn:E0, (Qle_bool x 180) eqn:E180,
           (Qle_bool x 360) eqn:E360; simpl; auto.
  - exfalso.
    assert (Qle_bool x 360 = true) by (apply (Qle_bool_trans _ 180); auto).
    congruence.
  - exfalso. apply Qle_bool_total in E0, E180.
    assert (Qle_bool 180 0 = true) by (apply (Qle_bool_trans _ x); auto).
    discriminate.
Qed.

Lemma in_0_360_east_or_west x :
  utils.in_0_360 x = negb (out_of_0_360 x).
Proof.
  unfold utils.in_0_360, out_of_0_360, Qlt_bool.
  destruct (Qle_bool 0 x), (Qle_bool x 360); reflexivity.
Qed.

Lemma normalize_longitude_length (lon : list Q) :
  (List.length (utils.normalize_longitude lon)
   + List.length (List.filter out_of_0_360 lon) = List.length lon)%nat.
Proof.
  unfold utils.normalize_longitude.
  rewrite List.length_app, List.length_map.
  induction lon as [|x lon IH]; simpl; [reflexivity|].
  destruct (classify x) as [(-> & -> & ->)|[(-> & -> & ->)|(-> & -> & ->)]];
    simpl; lia.
Qed.

Lemma normalize_longitude_In (lon : list Q) (y : Q) :
  In y (utils.normalize_longitude lon) <->
  exists x, In x lon
            /\ ((utils.is_east x = true /\ y = x)
                \/ (utils.is_west x = true /\ y = (x - 360)%Q)).
Proof.
  unfold utils.normalize_longitude. rewrite in_app_iff, in_map_iff.
  setoid_rewrite filter_In. split.
  - intros [[Hin He]|(x & <- & Hin & Hw)]; eauto 6.
  - intros (x & Hin & [[He ->]|[Hw ->]]); eauto 6.
Qed.

(** C10. [normalize_longitude] keeps the values within [0, 360] only:
    a value of the output is a value of the input within [0, 360], or
    such a value minus 360; the values below 0 or above 360 are missing
    from the count of the output; and for some inputs the output is
    shorter than the input. *)
Theorem normalize_longitude_keeps_0_360 :
  (forall lon : list Q,
      (List.length (utils.normalize_longitude lon)
       + List.length (List.filter out_of_0_360 lon) = List.length lon)%nat
      /\ List.length (utils.normalize_longitude lon)
         = List.length (List.filter utils.in_0_360 lon)
      /\ forall y, In y (utils.normalize_longitude lon) ->
                   exists x, In x lon /\ utils.in_0_360 x = true
                             /\ (y = x \/ y = (x - 360)%Q))
  /\ (List.length (utils.normalize_longitude [-10#1; 370#1; 20#1])
      < List.length [-10#1; 370#1; 20#1])%nat.
Proof.
  split.
  - intros lon. split; [apply normalize_longitude_length|]. split.
    + unfold utils.normalize_longitude.
      rewrite List.length_app, List.length_map.
      induction lon as [|x lon IH]; simpl; [reflexivity|].
      rewrite in_0_360_east_or_west.
      destruct (classify x) as [(-> & -> & ->)|[(-> & -> & ->)|(-> & -> & ->)]];
        simpl; lia.
    + intros y Hy. apply normalize_longitude_In in Hy as (x & Hin & Hx).
      exists x. split; [assumption|].
      rewrite in_0_360_east_or_west.
      destruct (classify x) as [(He & Hw & ->)|[(He & Hw & ->)|(He & Hw & Ho)]];
        simpl; destruct Hx as [[H ->]|[H ->]]; auto; congruence.
  - vm_compute. lia.
Qed.

(** ** The chart *)

Section ChartFacts.
Variable WeightedGrid : Type.
Variable from_map : DataArray -> nat -> result WeightedGrid.
Variable bearing_from_lonlat : Q * Q -> Q * Q -> R.
Variable xoak_set_index : DataArray -> result unit.
Variable Dataset : Type.
Variable glob : string -> list string.
Variable open_mfdataset : list string -> result Dataset.
Variable ds_drop : string -> Dataset -> result Dataset.
Variable ds_squeeze : Dataset -> Dataset.
Variable ds_rename : list (string * string) -> Dataset -> result Dataset.
Variable ds_sel_time_load :
  Calendar.Timestamp -> Calendar.Timestamp -> Dataset -> result Dataset.
Variable ds_var : string -> Dataset -> result DataArray.

Abbreviation Chart := (chart.Chart WeightedGrid).
Abbreviation load :=
  (chart.load WeightedGrid from_map xoak_set_index Dataset glob open_mfdataset
              ds_drop ds_squeeze ds_rename ds_sel_time_load ds_var).

(** [Chart.load] asks [load_data] for the "waves" source, so that it
    never returns: it raises, at the latest, the ValueError of the
    third call. *)
Lemma load_raises (data_dir : string) (c : Chart) :
  exists e, snd (load data_dir c) = Raise e.
Proof.
  unfold chart.load, chart.bind, chart.assign, chart.eval. cbn.
  destruct (chart.load_data _ _ _ _ _ _ _ _ _ _ _ _ "currents") as [uv|e];
    [|eauto]. cbn.
  destruct (chart.load_data _ _ _ _ _ _ _ _ _ _ _ _ "winds") as [uv'|e];
    [|eauto]. cbn.
  eauto.
Qed.

Lemma same_loaded_state_refl (c : Chart) : same_loaded_state c c.
Proof. repeat split. Qed.

Lemma same_loaded_state_trans (c1 c2 c3 : Chart) :
  same_loaded_state c1 c2 -> same_loaded_state c2 c3 -> same_loaded_state c1 c3.
Proof.
  unfold same_loaded_state. intros H1 H2.
  repeat match goal with H : _ /\ _ |- _ => destruct H end.
  repeat split; congruence.
Qed.

Lemma interpolate_frame date duration (c : Chart) :
  same_loaded_state c (fst (chart.interpolate date duration c)).
Proof.
  unfold chart.interpolate, chart.bind, chart.assign, chart.eval.
  repeat match goal with
         | |- context [match ?r with (_, _) => _ end] => cbn
         | |- context [rbind ?a ?k] => destruct (rbind a k); cbn
         end; repeat split.
Qed.

Lemma interpolate_all_frame calls (c : Chart) :
  same_loaded_state c (interpolate_all calls c).
Proof.
  revert c. induction calls as [|call calls IH]; intros c; simpl.
  - apply same_loaded_state_refl.
  - eapply same_loaded_state_trans; [apply interpolate_frame|apply IH].
Qed.

Lemma isLand_frame (c c' : Chart) lon lat :
  same_loaded_state c c' -> chart.isLand c' lon lat = chart.isLand c lon lat.
Proof.
  intros (_ & Hs & _ & _ & Hu & Hv & _). unfold chart.isLand.
  rewrite Hs, Hu, Hv. reflexivity.
Qed.

Lemma selected_radius_frame (c c' : Chart) lon lat r :
  same_loaded_state c c' ->
  chart.selected_radius c' lon lat r = chart.selected_radius c lon lat r.
Proof.
  intros (_ & Hs & _ & _ & Hu & _). unfold chart.selected_radius.
  rewrite Hs, Hu. reflexivity.
Qed.

(** What a successful [interpolate] writes: the four interpolants of
    the full fields over [date, date + duration days]. *)
Lemma interpolate_writes date duration (c : Chart) :
  snd (chart.interpolate date duration c) = Ok tt ->
  let c' := fst (chart.interpolate date duration c) in
  let end_date := Calendar.add_days date duration in
  let built (all : option DataArray) (sub : option scipy.RegularGridInterpolator) :=
    exists x i, all = Some x /\ sub = Some i
                /\ chart._interpolate x date end_date = Ok i in
  built (chart.u_current_all c) (chart.u_current c')
  /\ built (chart.v_current_all c) (chart.v_current c')
  /\ built (chart.u_wind_all c) (chart.u_wind c')
  /\ built (chart.v_wind_all c) (chart.v_wind c').
Proof.
  unfold chart.interpolate, chart.bind, chart.assign, chart.eval, chart.attr.
  cbn.
  destruct (chart.u_current_all c) as [xu|]; cbn; [|discriminate].
  destruct (chart._interpolate xu _ _) as [iu|] eqn:Eu; cbn; [|discriminate].
  destruct (chart.v_current_all c) as [xv|]; cbn; [|discriminate].
  destruct (chart._interpolate xv _ _) as [iv|] eqn:Ev; cbn; [|discriminate].
  destruct (chart.u_wind_all c) as [wu|]; cbn; [|discriminate].
  destruct (chart._interpolate wu _ _) as [ju|] eqn:Fu; cbn; [|discriminate].
  destruct (chart.v_wind_all c) as [wv|]; cbn; [|discriminate].
  destruct (chart._interpolate wv _ _) as [jv|] eqn:Fv; cbn; [|discriminate].
  intros _. repeat split; eauto 6.
Qed.

(** C7. [interpolate(date, duration)] writes the four sub-window
    interpolants, built over [date, date + duration days], and nothing
    else: after any sequence of calls the full-resolution fields, the
    coordinate vectors, the bounding box and the dates are the ones
    before, and [isLand], [find_closest_land] and [find_closest_water]
    return what they returned before. *)
Theorem interpolate_frame_effect :
  (forall date duration (c : Chart),
      same_loaded_state c (fst (chart.interpolate date duration c))
      /\ (snd (chart.interpolate date duration c) = Ok tt ->
          exists iu iv ju jv,
            chart.u_current (fst (chart.interpolate date duration c)) = Some iu
            /\ chart.v_current (fst (chart.interpolate date duration c)) = Some iv
            /\ chart.u_wind (fst (chart.interpolate date duration c)) = Some ju
            /\ chart.v_wind (fst (chart.interpolate date duration c)) = Some jv
            /\ rbind (chart.attr (chart.u_current_all c))
                     (fun x => chart._interpolate x date (Calendar.add_days date duration))
               = Ok iu
            /\ rbind (chart.attr (chart.v_current_all c))
                     (fun x => chart._interpolate x date (Calendar.add_days date duration))
               = Ok iv
            /\ rbind (chart.attr (chart.u_wind_all c))
                     (fun x => chart._interpolate x date (Calendar.add_days date duration))
               = Ok ju
            /\ rbind (chart.attr (chart.v_wind_all c))
                     (fun x => chart._interpolate x date (Calendar.add_days date duration))
               = Ok jv))
  /\ (forall calls (c : Chart),
         same_loaded_state c (interpolate_all calls c)
         /\ (forall lon lat,
                chart.isLand (interpolate_all calls c) lon lat
                = chart.isLand c lon lat)
         /\ (forall lon lat r,
                chart.find_closest_land bearing_from_lonlat
                                        (interpolate_all calls c) lon lat r
                = chart.find_closest_land bearing_from_lonlat c lon lat r)
         /\ (forall lon lat r,
                chart.find_closest_water (interpolate_all calls c) lon lat r
                = chart.find_closest_water c lon lat r)).
Proof.
  split.
  - intros date duration c. split; [apply interpolate_frame|].
    intros H. destruct (interpolate_writes date duration c H)
      as ((xu & iu & Eu & Hu & Iu) & (xv & iv & Ev & Hv & Iv)
          & (wu & ju & Fu & Gu & Ju) & (wv & jv & Fv & Gv & Jv)).
    exists iu, iv, ju, jv. rewrite Eu, Ev, Fu, Fv. cbn. auto 10.
  - intros calls c. pose proof (interpolate_all_frame calls c) as F.
    split; [exact F|]. split; [|split].
    + intros. apply isLand_frame, F.
    + intros. unfold chart.find_closest_land.
      rewrite (selected_radius_frame _ _ _ _ _ F). reflexivity.
    + intros. unfold chart.find_closest_water.
      rewrite (selected_radius_frame _ _ _ _ _ F). reflexivity.
Qed.

End ChartFacts.

(** ** Label-based selection *)

Lemma strictly_ascending_cons a b l :
  strictly_ascending (a :: b :: l) = Qlt_bool a b && strictly_ascending (b :: l).
Proof. reflexivity. Qed.

Lemma strictly_ascending_tail a l :
  strictly_ascending (a :: l) = true -> strictly_ascending l = true.
Proof.
  cbn. destruct l as [|b l]; [reflexivity|].
  intros H. apply andb_true_iff in H as [_ H]. exact H.
Qed.

Lemma strictly_ascending_head a l j b :
  strictly_ascending (a :: l) = true -> List.nth_error l j = Some b -> (a < b)%Q.
Proof.
  revert a j b. induction l as [|c l IH]; intros a j b H Hj.
  - destruct j; discriminate.
  - cbn in H. apply andb_true_iff in H as [Hac Hl].
    apply Qlt_bool_iff in Hac. destruct j as [|j]; cbn in Hj.
    + injection Hj as <-. exact Hac.
    + eapply Qlt_trans; [exact Hac|]. exact (IH c j b Hl Hj).
Qed.

Lemma strictly_ascending_lt l i j a b :
  strictly_ascending l = true -> (i < j)%nat ->
  List.nth_error l i = Some a -> List.nth_error l j = Some b -> (a < b)%Q.
Proof.
  revert i j. induction l as [|c l IH]; intros i j H Hij Hi Hj.
  - destruct i; discriminate.
  - destruct j as [|j]; [lia|]. destruct i as [|i]; cbn in Hi, Hj.
    + injection Hi as <-. exact (strictly_ascending_head _ _ _ _ H Hj).
    + apply (IH i j); [exact (strictly_ascending_tail _ _ H)|lia|exact Hi|exact Hj].
Qed.

(** An increasing index has no repeated label. *)
Lemma strictly_ascending_distinct l i j a b :
  strictly_ascending l = true ->
  List.nth_error l i = Some a -> List.nth_error l j = Some b ->
  (a == b)%Q -> i = j.
Proof.
  intros H Hi Hj Hab.
  destruct (Nat.lt_trichotomy i j) as [Hlt|[Heq|Hgt]]; [|exact Heq|].
  - pose proof (strictly_ascending_lt _ _ _ _ _ H Hlt Hi Hj) as Hc.
    rewrite Hab in Hc. exfalso. exact (Qlt_irrefl _ Hc).
  - pose proof (strictly_ascending_lt _ _ _ _ _ H Hgt Hj Hi) as Hc.
    rewrite Hab in Hc. exfalso. exact (Qlt_irrefl _ Hc).
Qed.

Lemma strictly_ascending_monotonic l :
  strictly_ascending l = true -> is_monotonic_increasing l = true.
Proof.
  induction l as [|a l IH]; [reflexivity|]. destruct l as [|b l]; [reflexivity|].
  rewrite strictly_ascending_cons. intros H. apply andb_true_iff in H as [Hab H].
  change (is_monotonic_increasing (a :: b :: l))
    with (Qle_bool a b && is_monotonic_increasing (b :: l)).
  rewrite (IH H), andb_true_r.
  apply Qle_bool_iff, Qlt_le_weak, Qlt_bool_iff, Hab.
Qed.

Lemma strictly_ascending_unique l :
  strictly_ascending l = true -> is_unique l = true.
Proof.
  induction l as [|a l IH]; [reflexivity|]. intros H. cbn [is_unique].
  rewrite (IH (strictly_ascending_tail _ _ H)), andb_true_r.
  apply negb_true_iff.
  destruct (List.existsb (Qeq_bool a) l) eqn:E; [|reflexivity]. exfalso.
  apply List.existsb_exists in E as (b & Hb & Hab). apply Qeq_bool_iff in Hab.
  apply List.In_nth_error in Hb as [j Hj].
  pose proof (strictly_ascending_head _ _ _ _ H Hj) as Hlt.
  rewrite Hab in Hlt. exact (Qlt_irrefl _ Hlt).
Qed.

(** On an increasing index the nearest label is looked for among all
    the labels, the later one on a tie. *)
Lemma nearest_coord_ascending index q :
  strictly_ascending index = true ->
  nearest_coord index q = nearest (List.map (fun c => Qabs (c - q)) index).
Proof.
  intros H. unfold nearest_coord.
  rewrite (strictly_ascending_unique _ H), (strictly_ascending_monotonic _ H).
  reflexivity.
Qed.

(** On an increasing index a slice holds the labels within its
    bounds. *)
Lemma sel_slice_ascending lo hi index :
  strictly_ascending index = true ->
  sel_slice lo hi index = Ok (labels_within lo hi index).
Proof.
  intros H. unfold sel_slice. rewrite (strictly_ascending_monotonic _ H).
  reflexivity.
Qed.

Lemma nearest_from_keeps dists k best d :
  (forall x, In x dists -> (d < x)%Q) -> nearest_from dists k best d = best.
Proof.
  revert k. induction dists as [|x dists IH]; intros k H; cbn; [reflexivity|].
  destruct (Qle_bool x d) eqn:E.
  - apply Qle_bool_iff in E. exfalso.
    exact (Qlt_not_le _ _ (H x (or_introl eq_refl)) E).
  - apply IH. intros y Hy. apply H. right. exact Hy.
Qed.

Lemma nearest_from_finds dists k best d j dj :
  List.nth_error dists j = Some dj -> (dj <= d)%Q ->
  (forall j' x, j' <> j -> List.nth_error dists j' = Some x -> (dj < x)%Q) ->
  nearest_from dists k best d = (k + j)%nat.
Proof.
  revert k best d j. induction dists as [|x dists IH]; intros k best d j Hj Hd Hmin.
  - destruct j; discriminate.
  - destruct j as [|j]; cbn in Hj |- *.
    + injection Hj as ->. apply Qle_bool_iff in Hd. rewrite Hd.
      rewrite nearest_from_keeps; [lia|].
      intros y Hy. apply List.In_nth_error in Hy as [j' Hj'].
      apply (Hmin (S j')); [discriminate|exact Hj'].
    + assert (Hx : (dj < x)%Q) by (apply (Hmin O); [discriminate|reflexivity]).
      assert (Hrest : forall j' y, j' <> j -> List.nth_error dists j' = Some y -> (dj < y)%Q).
      { intros j' y Hne Hy. apply (Hmin (S j')); [congruence|exact Hy]. }
      destruct (Qle_bool x d).
      * rewrite (IH (S k) k x j Hj (Qlt_le_weak _ _ Hx) Hrest). lia.
      * rewrite (IH (S k) best d j Hj Hd Hrest). lia.
Qed.

(** The position of a distance smaller than all the others. *)
Lemma nearest_unique_min dists i di :
  List.nth_error dists i = Some di ->
  (forall j dj, j <> i -> List.nth_error dists j = Some dj -> (di < dj)%Q) ->
  nearest dists = Ok i.
Proof.
  intros Hi Hmin. destruct dists as [|d0 rest]; [destruct i; discriminate|].
  cbn. f_equal. destruct i as [|i]; cbn in Hi.
  - injection Hi as ->. apply nearest_from_keeps.
    intros y Hy. apply List.In_nth_error in Hy as [j Hj].
    apply (Hmin (S j)); [discriminate|exact Hj].
  - rewrite (nearest_from_finds rest 1 0%nat d0 i di Hi).
    + reflexivity.
    + apply Qlt_le_weak. apply (Hmin O); [discriminate|reflexivity].
    + intros j' y Hne Hy. apply (Hmin (S j')); [congruence|exact Hy].
Qed.

Lemma Qabs_pos_of_neq (x : Q) : ~ (x == 0)%Q -> (0 < Qabs x)%Q.
Proof.
  intros Hx. apply Qnot_le_lt. intros Hle.
  apply Qabs_Qle_condition in Hle as [Hlo Hhi].
  apply Hx. apply Qle_antisym; [exact Hhi|exact Hlo].
Qed.

(** On an increasing index, the position nearest to one of its labels
    is the position of the label. *)
Lemma nearest_coord_exact index i c q :
  strictly_ascending index = true ->
  List.nth_error index i = Some c -> (c == q)%Q ->
  nearest_coord index q = Ok i.
Proof.
  intros Hasc Hi Hcq. rewrite (nearest_coord_ascending _ _ Hasc).
  apply (nearest_unique_min _ i (Qabs (c - q))).
  - rewrite List.nth_error_map, Hi. reflexivity.
  - intros j dj Hne Hj. rewrite List.nth_error_map in Hj.
    destruct (List.nth_error index j) as [cj|] eqn:Ecj; [|discriminate].
    injection Hj as <-.
    assert (H0 : (Qabs (c - q) == 0)%Q).
    { rewrite Hcq. unfold Qminus. rewrite Qplus_opp_r. reflexivity. }
    rewrite H0. apply (Qabs_pos_of_neq (cj - q)). intros Hz.
    apply Hne. apply (strictly_ascending_distinct index j i cj c Hasc Ecj Hi).
    rewrite Hcq. apply Qplus_inj_r with (z := (- q)%Q).
    rewrite Qplus_opp_r. exact Hz.
Qed.

Lemma get_loc_nth_error t index i :
  get_loc t index = Ok i -> List.nth_error index i = Some t.
Proof.
  revert i. induction index as [|t' index IH]; intros i; cbn; [discriminate|].
  destruct (Z.eqb_spec t' t) as [->|_].
  - intros [= <-]. reflexivity.
  - destruct (get_loc t index) as [i'|]; cbn; [|discriminate].
    intros [= <-]. cbn. apply IH. reflexivity.
Qed.

(** On an increasing time index, the nearest time stamp of a time
    stamp of the index is that time stamp. *)
Lemma nearest_time_exact index t i :
  strictly_ascending (List.map inject_Z index) = true ->
  get_loc t index = Ok i -> nearest_time index t = Ok i.
Proof.
  intros Hasc Hi. apply get_loc_nth_error in Hi. unfold nearest_time.
  apply (nearest_coord_exact _ i (inject_Z t)); [exact Hasc| |reflexivity].
  rewrite List.nth_error_map, Hi. reflexivity.
Qed.

Lemma in_combine_seq {A} (l : list A) s i (a : A) :
  In (i, a) (List.combine (List.seq s (List.length l)) l)
  <-> (s <= i)%nat /\ List.nth_error l (i - s) = Some a.
Proof.
  revert s. induction l as [|x l IH]; intros s; cbn.
  - split; [tauto|]. intros [_ H]. destruct (i - s)%nat; discriminate.
  - rewrite IH. split.
    + intros [[= <- <-]|[Hs Hi]].
      * rewrite Nat.sub_diag. split; [lia|reflexivity].
      * split; [lia|]. replace (i - s)%nat with (S (i - S s)) by lia. exact Hi.
    + intros [Hs Hi]. destruct (Nat.eq_dec s i) as [->|Hne].
      * rewrite Nat.sub_diag in Hi. injection Hi as ->. left. reflexivity.
      * right. split; [lia|].
        replace (i - s)%nat with (S (i - S s)) in Hi by lia. exact Hi.
Qed.

Lemma in_indexed {A} (l : list A) i (a : A) :
  In (i, a) (indexed l) <-> List.nth_error l i = Some a.
Proof.
  unfold indexed. rewrite in_combine_seq, Nat.sub_0_r.
  split; [tauto|]. intros H. split; [lia|exact H].
Qed.

Lemma in_slice_iff lo hi c :
  in_slice lo hi c = true <-> (lo <= c)%Q /\ (c <= hi)%Q.
Proof.
  unfold in_slice. rewrite andb_true_iff, !Qle_bool_iff. reflexivity.
Qed.

Lemma in_labels_within lo hi index i c :
  In (i, c) (labels_within lo hi index)
  <-> List.nth_error index i = Some c /\ (lo <= c)%Q /\ (c <= hi)%Q.
Proof.
  unfold labels_within. rewrite List.filter_In, in_indexed. cbn [snd].
  rewrite in_slice_iff. reflexivity.
Qed.

Lemma in_nodes w n :
  In n (nodes w) <->
  exists la lo, In la (w_lats w) /\ In lo (w_lons w)
                /\ n = {| node_lat := la; node_lon := lo;
                          node_value := window_value w (fst la) (fst lo) |}.
Proof.
  unfold nodes. rewrite List.in_flat_map. split.
  - intros (la & Hla & Hn). apply List.in_map_iff in Hn as (lo & <- & Hlo). eauto.
  - intros (la & lo & Hla & Hlo & ->). exists la. split; [exact Hla|].
    apply List.in_map_iff. eauto.
Qed.

Lemma labels_within_none lo hi index :
  (forall q, In q index -> ~ ((lo <= q)%Q /\ (q <= hi)%Q)) ->
  labels_within lo hi index = [].
Proof.
  intros H. destruct (labels_within lo hi index) as [|[i q] l] eqn:E; [reflexivity|].
  exfalso.
  assert (Hin : In (i, q) (labels_within lo hi index)) by (rewrite E; left; reflexivity).
  apply in_labels_within in Hin as (Hin & H1 & H2).
  apply List.nth_error_In in Hin. exact (H q Hin (conj H1 H2)).
Qed.

(** ** The interpolator *)

Lemma strictly_ascending_snoc l x :
  strictly_ascending (l ++ [x])
  = strictly_ascending l
    && match l with [] => true | _ :: _ => Qlt_bool (List.last l x) x end.
Proof.
  induction l as [|a l IH]; [reflexivity|].
  destruct l as [|b l].
  - cbn. apply andb_comm.
  - change (strictly_ascending ((a :: b :: l) ++ [x]))
      with (Qlt_bool a b && strictly_ascending ((b :: l) ++ [x])).
    rewrite IH.
    change (strictly_ascending (a :: b :: l))
      with (Qlt_bool a b && strictly_ascending (b :: l)).
    change (List.last (a :: b :: l) x) with (List.last (b :: l) x).
    apply andb_assoc.
Qed.

(** Descending points are ascending once flipped. *)
Lemma strictly_descending_rev v :
  strictly_descending v = strictly_ascending (List.rev v).
Proof.
  induction v as [|a v IH]; [reflexivity|].
  destruct v as [|b v]; [reflexivity|].
  change (strictly_descending (a :: b :: v))
    with (Qlt_bool b a && strictly_descending (b :: v)).
  rewrite IH. change (List.rev (a :: b :: v)) with (List.rev (b :: v) ++ [a]).
  rewrite strictly_ascending_snoc.
  change (List.rev (b :: v)) with (List.rev v ++ [b]).
  destruct (List.rev v ++ [b]) as [|c l] eqn:E.
  - apply app_eq_nil in E as [_ E]. discriminate.
  - rewrite <- E, List.last_last. apply andb_comm.
Qed.

Lemma arange_length n : List.length (arange n) = n.
Proof. unfold arange. rewrite List.length_map, List.length_seq. reflexivity. Qed.

Lemma strictly_ascending_seq a n :
  strictly_ascending (List.map (fun i => inject_Z (Z.of_nat i)) (List.seq a n)) = true.
Proof.
  revert a. induction n as [|n IH]; intros a; [reflexivity|].
  pose proof (IH (S a)) as H. destruct n as [|n]; [reflexivity|].
  cbn [List.seq List.map] in H |- *.
  rewrite strictly_ascending_cons, H, andb_true_r. apply Qlt_bool_iff.
  unfold Qlt, inject_Z. cbn [Qnum Qden]. lia.
Qed.

Lemma arange_ascending n : strictly_ascending (arange n) = true.
Proof. apply strictly_ascending_seq. Qed.

Lemma check_dimensionality_ok dim p n v :
  scipy.check_dimensionality dim p n = Ok v -> p = Arr1 v /\ List.length v = n.
Proof.
  unfold scipy.check_dimensionality. destruct p as [w|]; [|discriminate].
  destruct (Nat.eqb_spec n (List.length w)) as [->|]; [|discriminate].
  intros [= ->]. auto.
Qed.

(** The axis the constructor keeps for the points of one dimension: the
    points have to be a vector, strictly ascending or strictly
    descending, of the length of the values; the axis is the vector in
    ascending order. *)
Lemma axis_ok dim p n c v :
  scipy.check_points dim p = Ok c ->
  scipy.check_dimensionality dim (fst c) n = Ok v ->
  exists w, p = Arr1 w /\ v = ascending_order w
            /\ strictly_ascending v = true /\ List.length w = n
            /\ snd c = negb (strictly_ascending w).
Proof.
  unfold scipy.check_points. intros Hc Hd.
  destruct (scipy.points_ascending p) eqn:Ea.
  - injection Hc as <-. cbn [fst snd] in *.
    apply check_dimensionality_ok in Hd as [-> Hlen]. cbn in Ea.
    exists v. unfold ascending_order. rewrite Ea. auto.
  - destruct (scipy.points_descending p) eqn:Ed; [|discriminate].
    injection Hc as <-. cbn [fst snd] in *.
    apply check_dimensionality_ok in Hd as [Hp Hlen].
    destruct p as [w|]; [|discriminate]. cbn in Hp, Ea, Ed.
    injection Hp as <-. exists w. unfold ascending_order. rewrite Ea.
    rewrite <- strictly_descending_rev, Ed.
    rewrite List.length_rev in Hlen. auto.
Qed.

Lemma flipped_source_position w i :
  scipy.flipped (negb (strictly_ascending w)) (List.length w) i
  = source_position (Arr1 w) i.
Proof.
  unfold scipy.flipped, source_position.
  destruct (strictly_ascending w); reflexivity.
Qed.

(** What the constructor returns. *)
Lemma new_ok p0 p1 p2 vals be fv itp :
  scipy.new (p0, p1, p2) vals be fv = Ok itp ->
  exists w0 w1 w2,
    p0 = Arr1 w0 /\ p1 = Arr1 w1 /\ p2 = Arr1 w2
    /\ scipy.shape3 vals = (List.length w0, List.length w1, List.length w2)
    /\ scipy.grid_time itp = ascending_order w0
    /\ scipy.grid_lon itp = ascending_order w1
    /\ scipy.grid_lat itp = ascending_order w2
    /\ strictly_ascending (scipy.grid_time itp) = true
    /\ strictly_ascending (scipy.grid_lon itp) = true
    /\ strictly_ascending (scipy.grid_lat itp) = true
    /\ (forall i j k,
           scipy.grid_values itp i j k
           = scipy.at3 vals (source_position p0 i) (source_position p1 j)
                       (source_position p2 k))
    /\ scipy.bounds_error itp = be /\ scipy.fill_value itp = fv.
Proof.
  unfold scipy.new. destruct (scipy.shape3 vals) as [[n0 n1] n2].
  destruct (scipy.check_points 0 p0) as [c0|] eqn:E0; [|discriminate].
  destruct (scipy.check_points 1 p1) as [c1|] eqn:E1; [|discriminate].
  destruct (scipy.check_points 2 p2) as [c2|] eqn:E2; [|discriminate].
  cbn [rbind].
  destruct (scipy.check_dimensionality 0 (fst c0) n0) as [g0|] eqn:D0; [|discriminate].
  destruct (scipy.check_dimensionality 1 (fst c1) n1) as [g1|] eqn:D1; [|discriminate].
  destruct (scipy.check_dimensionality 2 (fst c2) n2) as [g2|] eqn:D2; [|discriminate].
  cbn [rbind]. intros [= <-]. cbn.
  destruct (axis_ok _ _ _ _ _ E0 D0) as (w0 & -> & -> & A0 & <- & ->).
  destruct (axis_ok _ _ _ _ _ E1 D1) as (w1 & -> & -> & A1 & <- & ->).
  destruct (axis_ok _ _ _ _ _ E2 D2) as (w2 & -> & -> & A2 & <- & ->).
  exists w0, w1, w2. repeat (split; [solve [auto]|]). split; [|auto].
  intros i j k. rewrite !flipped_source_position. reflexivity.
Qed.

Lemma new_2d_raises p0 p1 p2 vals be fv :
  is_ok (scipy.new (p0, p1, p2) vals be fv) = true ->
  chart.is_2d p1 = false /\ chart.is_2d p2 = false.
Proof.
  destruct (scipy.new (p0, p1, p2) vals be fv) as [itp|] eqn:E; [|discriminate].
  apply new_ok in E as (w0 & w1 & w2 & _ & -> & -> & _). auto.
Qed.

(** The constructor on points that are vectors of the lengths of the
    values, ascending or descending. *)
Lemma new_1d w0 w1 w2 vals be fv :
  scipy.shape3 vals = (List.length w0, List.length w1, List.length w2) ->
  strictly_ascending w0 = true ->
  strictly_ascending w1 || strictly_descending w1 = true ->
  strictly_ascending w2 || strictly_descending w2 = true ->
  exists itp, scipy.new (Arr1 w0, Arr1 w1, Arr1 w2) vals be fv = Ok itp.
Proof.
  intros Hs H0 H1 H2. unfold scipy.new, scipy.check_points. rewrite Hs.
  cbn [scipy.points_ascending scipy.points_descending]. rewrite H0. cbn [rbind].
  destruct (strictly_ascending w1) eqn:A1; cbn [orb] in H1;
    [|rewrite H1]; cbn [rbind];
    (destruct (strictly_ascending w2) eqn:A2; cbn [orb] in H2;
     [|rewrite H2]; cbn [rbind fst snd scipy.flip scipy.check_dimensionality];
     rewrite ?List.length_rev, !Nat.eqb_refl; cbn [rbind]; eauto).
Qed.

Lemma not_monotone_raises dim w :
  strictly_ascending w || strictly_descending w = false ->
  exists msg, scipy.check_points dim (Arr1 w) = Raise (ValueError msg).
Proof.
  intros H. apply orb_false_iff in H as [Ha Hd]. unfold scipy.check_points.
  cbn [scipy.points_ascending scipy.points_descending]. rewrite Ha, Hd. eauto.
Qed.

(** What [_interpolate] returns was built by the constructor on the
    index of the window, with the fill value NaN and no error on the
    bounds, on the coordinates of the field (regular path) or on the
    linearly spaced points (curvilinear path). *)
Lemma _interpolate_ok x s e itp :
  chart._interpolate x s e = Ok itp ->
  exists X p1 p2,
    chart.sel_time_slice x s e = Ok X
    /\ scipy.new (Arr1 (arange (List.length X)), p1, p2)
                 (chart.transposed_values x X) false (scipy.FillWith None)
       = Ok itp
    /\ ((chart.path_taken x s e = Some chart.RegularPath
         /\ p1 = longitude x /\ p2 = latitude x)
        \/ (chart.path_taken x s e = Some chart.CurvilinearPath
            /\ exists lon_min lon_max lat_min lat_max,
                arr_min (longitude x) = Ok lon_min
                /\ arr_max (longitude x) = Ok lon_max
                /\ arr_min (latitude x) = Ok lat_min
                /\ arr_max (latitude x) = Ok lat_max
                /\ chart.is_2d (longitude x) = true
                /\ p1 = Arr1 (linspace lon_min lon_max (n_lon x))
                /\ p2 = Arr1 (linspace lat_min lat_max (n_lat x)))).
Proof.
  unfold chart._interpolate, chart.path_taken, chart._interpolate_traced.
  destruct (chart.sel_time_slice x s e) as [X|err]; [|discriminate].
  destruct (chart.regular_attempt x X) as [i|err] eqn:E; cbn [fst snd].
  - intros [= <-]. exists X, (longitude x), (latitude x). auto 10.
  - unfold chart.curvilinear_attempt.
    destruct (arr_min (longitude x)) as [lon_min|]; cbn [rbind]; [|discriminate].
    destruct (arr_max (longitude x)) as [lon_max|]; cbn [rbind]; [|discriminate].
    destruct (shape_at (longitude x) 1) as [nx|] eqn:Ex; cbn [rbind]; [|discriminate].
    destruct (arr_min (latitude x)) as [lat_min|]; cbn [rbind]; [|discriminate].
    destruct (arr_max (latitude x)) as [lat_max|]; cbn [rbind]; [|discriminate].
    destruct (shape_at (latitude x) 0) as [ny|] eqn:Ey; cbn [rbind]; [|discriminate].
    intros H.
    assert (chart.is_2d (longitude x) = true /\ nx = n_lon x) as [H2d ->].
    { unfold n_lon. destruct (longitude x); [discriminate|].
      cbn in Ex. split; [reflexivity|congruence]. }
    assert (ny = n_lat x) as ->.
    { unfold n_lat. destruct (latitude x); cbn in Ey; congruence. }
    exists X, (Arr1 (linspace lon_min lon_max (n_lon x))),
      (Arr1 (linspace lat_min lat_max (n_lat x))).
    split; [reflexivity|]. split; [exact H|]. right. split; [reflexivity|].
    exists lon_min, lon_max, lat_min, lat_max. auto 10.
Qed.

(** Every interpolant [_interpolate] returns answers NaN outside its
    grid and does not raise on the bounds. *)
Lemma _interpolate_fill x s e itp :
  chart._interpolate x s e = Ok itp ->
  scipy.bounds_error itp = false /\ scipy.fill_value itp = scipy.FillWith None.
Proof.
  intros H. apply _interpolate_ok in H as (X & p1 & p2 & _ & H & _).
  apply new_ok in H as (w0 & w1 & w2 & H). tauto.
Qed.

Lemma Qmin_list_le l q : (Qmin_list q l <= q)%Q.
Proof.
  revert q. induction l as [|x l IH]; intros q; cbn; [apply Qle_refl|].
  destruct (Qlt_bool x q) eqn:E.
  - apply Qlt_bool_iff in E. eapply Qle_trans; [apply IH|]. apply Qlt_le_weak, E.
  - apply IH.
Qed.

Lemma Qmax_list_ge l q : (q <= Qmax_list q l)%Q.
Proof.
  revert q. induction l as [|x l IH]; intros q; cbn; [apply Qle_refl|].
  destruct (Qlt_bool q x) eqn:E.
  - apply Qlt_bool_iff in E. eapply Qle_trans; [|apply IH]. apply Qlt_le_weak, E.
  - apply IH.
Qed.

Lemma arr_min_le_max a lo hi : arr_min a = Ok lo -> arr_max a = Ok hi -> (lo <= hi)%Q.
Proof.
  unfold arr_min, arr_max. destruct (flatten a) as [|q l]; [discriminate|].
  intros [= <-] [= <-].
  eapply Qle_trans; [apply Qmin_list_le|apply Qmax_list_ge].
Qed.

(** Linearly spaced points from a minimum to a maximum are not
    descending, unless there is at most one of them. *)
Lemma linspace_ascending a b n :
  (a <= b)%Q -> strictly_descending (linspace a b n) = true ->
  strictly_ascending (linspace a b n) = true.
Proof.
  intros Hab. destruct n as [|[|n]]; [reflexivity|reflexivity|].
  unfold linspace. cbn [List.seq List.map].
  set (k := inject_Z (Z.of_nat (S (S n) - 1))).
  set (f := fun i : nat => (a + inject_Z (Z.of_nat i) * ((b - a) / k))%Q).
  intros H. exfalso.
  change (Qlt_bool (f 1%nat) (f 0%nat)
          && strictly_descending (List.map f (List.seq 1 (S n))) = true) in H.
  apply andb_true_iff in H as [H _]. apply Qlt_bool_iff in H. unfold f in H.
  assert (Hk : (0 < k)%Q).
  { unfold k, Qlt, inject_Z. cbn [Qnum Qden]. lia. }
  assert (Hst : (0 <= (b - a) / k)%Q).
  { apply Qle_shift_div_l; [exact Hk|]. Lqa.lra. }
  change (inject_Z (Z.of_nat 1)) with 1%Q in H.
  change (inject_Z (Z.of_nat 0)) with 0%Q in H.
  Lqa.lra.
Qed.

(** The axis kept for linearly spaced points is these points. *)
Lemma ascending_order_linspace a b n :
  (a <= b)%Q -> strictly_ascending (ascending_order (linspace a b n)) = true ->
  ascending_order (linspace a b n) = linspace a b n.
Proof.
  intros Hab. unfold ascending_order.
  destruct (strictly_ascending (linspace a b n)) eqn:E; [reflexivity|].
  rewrite <- strictly_descending_rev. intros H.
  apply (linspace_ascending a b n Hab) in H. congruence.
Qed.

(** C4, as the code has it. [_interpolate] tries the regular-grid path
    and takes the curvilinear path exactly when that attempt raises,
    whatever the error.  With 2-D coordinates the attempt always raises;
    a regular-grid interpolant has the 1-D coordinates of the field, in
    ascending order, as its axes; and the axes of a curvilinear
    interpolant are the [N] linearly spaced points between the minimum
    and the maximum of each coordinate array, [N] being the size of the
    dimension in the data. *)
Theorem _interpolate_path_by_fallback x s e :
  (chart.path_taken x s e = Some chart.RegularPath
   <-> exists X, chart.sel_time_slice x s e = Ok X
                 /\ is_ok (chart.regular_attempt x X) = true)
  /\ (chart.path_taken x s e = Some chart.CurvilinearPath
      <-> exists X err, chart.sel_time_slice x s e = Ok X
                        /\ chart.regular_attempt x X = Raise err)
  /\ (forall X, chart.sel_time_slice x s e = Ok X ->
                chart.path_taken x s e = Some chart.CurvilinearPath ->
                chart._interpolate x s e = chart.curvilinear_attempt x X)
  /\ (forall X, chart.sel_time_slice x s e = Ok X ->
                chart.is_2d (longitude x) = true \/ chart.is_2d (latitude x) = true ->
                chart.path_taken x s e = Some chart.CurvilinearPath)
  /\ (forall itp,
         chart._interpolate x s e = Ok itp ->
         match chart.path_taken x s e with
         | Some chart.RegularPath =>
             exists lons lats,
               longitude x = Arr1 lons /\ latitude x = Arr1 lats
               /\ (scipy.grid_lon itp = lons \/ scipy.grid_lon itp = List.rev lons)
               /\ (scipy.grid_lat itp = lats \/ scipy.grid_lat itp = List.rev lats)
               /\ strictly_ascending (scipy.grid_lon itp) = true
               /\ strictly_ascending (scipy.grid_lat itp) = true
         | Some chart.CurvilinearPath =>
             chart.is_2d (longitude x) = true
             /\ exists lon_min lon_max lat_min lat_max,
                 arr_min (longitude x) = Ok lon_min
                 /\ arr_max (longitude x) = Ok lon_max
                 /\ arr_min (latitude x) = Ok lat_min
                 /\ arr_max (latitude x) = Ok lat_max
                 /\ scipy.grid_lon itp = linspace lon_min lon_max (n_lon x)
                 /\ scipy.grid_lat itp = linspace lat_min lat_max (n_lat x)
         | None => False
         end).
Proof.
  split; [|split; [|split; [|split]]].
  - unfold chart.path_taken, chart._interpolate_traced.
    destruct (chart.sel_time_slice x s e) as [X|err]; cbn [fst].
    + destruct (chart.regular_attempt x X) as [i|err'] eqn:E; cbn [fst]; split.
      * intros _. exists X. rewrite E. auto.
      * reflexivity.
      * discriminate.
      * intros (X' & [= <-] & H). rewrite E in H. discriminate.
    + split; [discriminate|]. intros (X & [=] & _).
  - unfold chart.path_taken, chart._interpolate_traced.
    destruct (chart.sel_time_slice x s e) as [X|err]; cbn [fst].
    + destruct (chart.regular_attempt x X) as [i|err'] eqn:E; cbn [fst]; split.
      * discriminate.
      * intros (X' & err' & [= <-] & H). congruence.
      * intros _. eauto.
      * reflexivity.
    + split; [discriminate|]. intros (X & err' & [=] & _).
  - intros X HX. unfold chart.path_taken, chart._interpolate, chart._interpolate_traced.
    rewrite HX. destruct (chart.regular_attempt x X); cbn [fst snd];
      [discriminate|reflexivity].
  - intros X HX H2d. unfold chart.path_taken, chart._interpolate_traced.
    rewrite HX. destruct (chart.regular_attempt x X) as [i|err'] eqn:E; cbn [fst];
      [|reflexivity].
    exfalso. unfold chart.regular_attempt in E.
    assert (Hok : is_ok (scipy.new (Arr1 (arange (List.length X)),
                                    longitude x, latitude x)
                                   (chart.transposed_values x X)
                                   false (scipy.FillWith None)) = true)
      by (rewrite E; reflexivity).
    apply new_2d_raises in Hok as [H1 H2]. destruct H2d; congruence.
  - intros itp H. apply _interpolate_ok in H as (X & p1 & p2 & _ & Hnew & Hpath).
    apply new_ok in Hnew
      as (w0 & w1 & w2 & _ & E1 & E2 & _ & _ & G1 & G2 & _ & A1 & A2 & _).
    destruct Hpath as [(-> & -> & ->)
                      |(-> & lon_min & lon_max & lat_min & lat_max
                        & Hm1 & HM1 & Hm2 & HM2 & H2d & -> & ->)].
    + exists w1, w2. rewrite G1, G2 in *. unfold ascending_order in *.
      destruct (strictly_ascending w1), (strictly_ascending w2); auto 10.
    + split; [exact H2d|]. exists lon_min, lon_max, lat_min, lat_max.
      injection E1 as <-. injection E2 as <-.
      rewrite G1 in A1 |- *. rewrite G2 in A2 |- *.
      rewrite ascending_order_linspace
        by (eauto using arr_min_le_max).
      rewrite ascending_order_linspace
        by (eauto using arr_min_le_max).
      auto 10.
Qed.

(** C4, as stated, fails: a field with 1-D coordinates on which the
    regular-grid path raises for a reason that has nothing to do with the
    dimensions (longitudes that are neither ascending nor descending) is
    sent to the curvilinear path, and what [_interpolate] raises is the
    IndexError of that path. *)
Lemma _interpolate_fallback_on_unrelated_failure :
  chart.is_2d (longitude unsorted_field) = false
  /\ chart.is_2d (latitude unsorted_field) = false
  /\ chart.sel_time_slice unsorted_field 0 0 = Ok [0%nat]
  /\ (exists msg, chart.regular_attempt unsorted_field [0%nat]
                  = Raise (ValueError msg))
  /\ chart.path_taken unsorted_field 0 0 = Some chart.CurvilinearPath
  /\ chart._interpolate unsorted_field 0 0 = Raise IndexError.
Proof. repeat split. eexists. reflexivity. Qed.

(** A field whose latitudes are descending goes through the regular
    path: its latitude axis is reversed and its values are read from the
    other end. *)
Example _interpolate_descending_latitude :
  exists itp,
    chart._interpolate north_first 0 86400 = Ok itp
    /\ chart.path_taken north_first 0 86400 = Some chart.RegularPath
    /\ scipy.grid_lat itp = [0#1; 1#1]
    /\ scipy.grid_values itp 0 0 0 = values north_first 0 1 0.
Proof. eexists. repeat split. Qed.

Lemma last_in {A} (l : list A) (d : A) : l <> [] -> In (List.last l d) l.
Proof.
  intros Hne. destruct (List.exists_last Hne) as (l' & a & ->).
  rewrite List.last_last. apply List.in_or_app. right. left. reflexivity.
Qed.

Lemma outside_axis_out_of_bounds grid x :
  grid <> [] -> outside_axis grid x = true -> scipy.out_of_bounds grid x = Ok true.
Proof.
  intros Hne H. unfold outside_axis in H.
  pose proof (last_in grid) as Hlast.
  destruct grid as [|g0 grid]; [congruence|].
  unfold scipy.out_of_bounds. f_equal.
  apply orb_true_iff in H as [H|H]; apply orb_true_iff;
    rewrite List.forallb_forall in H.
  - left. apply H. left. reflexivity.
  - right. apply H. apply Hlast. discriminate.
Qed.

Lemma out_of_bounds_nonempty grid x :
  grid <> [] -> exists o, scipy.out_of_bounds grid x = Ok o.
Proof. destruct grid; [congruence|]. cbn. eauto. Qed.

Lemma find_index_nonempty grid x :
  grid <> [] -> exists c, scipy.find_index grid x = Ok c.
Proof. destruct grid as [|g [|g' grid]]; [congruence|cbn; eauto|cbn; eauto]. Qed.

Lemma grid_nonempty_axes itp :
  grid_nonempty itp = true ->
  scipy.grid_time itp <> [] /\ scipy.grid_lon itp <> [] /\ scipy.grid_lat itp <> [].
Proof.
  unfold grid_nonempty. intros H.
  apply andb_true_iff in H as [H H3]. apply andb_true_iff in H as [H1 H2].
  repeat split; intros E; rewrite E in *; discriminate.
Qed.

(** C5. An interpolant that [_interpolate] builds for a window that
    holds no time stamp of the field has an empty time axis: every query
    is outside its domain, and a query of it does not return NaN, it
    raises IndexError. *)
Theorem _interpolate_empty_window x s e itp (t lon lat : Q) :
  strictly_ascending (List.map inject_Z (time x)) = true ->
  (forall ts, In ts (time x) -> ~ (s <= ts <= e)) ->
  chart._interpolate x s e = Ok itp ->
  scipy.grid_time itp = []
  /\ outside_domain itp t lon lat = true
  /\ scipy.call itp t lon lat = Raise IndexError.
Proof.
  intros Ht Hnone Hi.
  pose proof (_interpolate_fill _ _ _ _ Hi) as [Hb _].
  apply _interpolate_ok in Hi as (X & p1 & p2 & HX & Hnew & _).
  assert (X = []) as ->.
  { unfold chart.sel_time_slice in HX.
    rewrite (sel_slice_ascending _ _ _ Ht), labels_within_none in HX.
    - injection HX as <-. reflexivity.
    - intros q Hq [H1 H2]. apply List.in_map_iff in Hq as (ts & <- & Hts).
      rewrite <- Zle_Qle in H1, H2. exact (Hnone ts Hts (conj H1 H2)). }
  apply new_ok in Hnew as (w0 & w1 & w2 & E0 & _ & _ & _ & G0 & _).
  injection E0 as <-. cbn in G0.
  split; [exact G0|]. split.
  - unfold outside_domain. rewrite G0. reflexivity.
  - unfold scipy.call. rewrite Hb, G0. reflexivity.
Qed.

Lemma _interpolate_empty_window_witness :
  strictly_ascending (List.map inject_Z (time small_field)) = true
  /\ exists itp,
      chart._interpolate small_field 172800 259200 = Ok itp
      /\ scipy.call itp (0#1) (5#1) (0#1) = Raise IndexError.
Proof.
  split; [reflexivity|].
  destruct (chart._interpolate small_field 172800 259200) as [itp|] eqn:E;
    [|discriminate E].
  exists itp. split; [reflexivity|].
  apply (_interpolate_empty_window small_field 172800 259200 itp (0#1) (5#1) (0#1));
    [reflexivity| |exact E].
  intros ts [<-|[<-|[]]] [H _]; revert H; vm_compute; intros H; apply H; reflexivity.
Defined.

(** Inside its domain the same interpolant interpolates: half way
    between the values 0 and 1 of two neighbours. *)
Example small_interpolant_inside :
  exists q, scipy.call small_interpolant (0#1) (1#2) (0#1) = Ok (Some q)
            /\ (q == 1#2)%Q.
Proof. eexists. split; [vm_compute; reflexivity|reflexivity]. Qed.

(** On an axis of one point the interpolant takes the value at that
    point. *)
Example one_point_axis :
  exists itp q,
    chart._interpolate all_water 0 0 = Ok itp
    /\ scipy.grid_lat itp = [0#1]
    /\ scipy.call itp (0#1) (1#2) (0#1) = Ok (Some q) /\ (q == 1#2)%Q.
Proof. eexists. eexists. split; [reflexivity|]. split; [reflexivity|].
       split; [vm_compute; reflexivity|reflexivity]. Qed.

(** ** The launch schedule *)

Lemma date_range_length start end_ :
  List.length (Calendar.date_range start end_)
  = Z.to_nat ((end_ - start) / Calendar.seconds_per_day + 1).
Proof.
  unfold Calendar.date_range. rewrite List.length_map, List.length_seq. reflexivity.
Qed.

Lemma date_range_nth_error start end_ j :
  (j < List.length (Calendar.date_range start end_))%nat ->
  List.nth_error (Calendar.date_range start end_) j
  = Some (Calendar.add_days start (Z.of_nat j)).
Proof.
  intros Hj. rewrite date_range_length in Hj. unfold Calendar.date_range.
  rewrite List.nth_error_map.
  rewrite (List.nth_error_nth' _ O) by (rewrite List.length_seq; exact Hj).
  rewrite List.seq_nth by exact Hj. reflexivity.
Qed.

Lemma stride_index (n K i : nat) :
  (0 < K)%nat -> (i < Nat.div (n + K - 1) K)%nat -> (i * K < n)%nat.
Proof.
  intros HK Hi.
  pose proof (Nat.Div0.mul_div_le (n + K - 1) K) as H.
  assert ((i + 1) * K <= K * ((n + K - 1) / K))%nat by nia.
  lia.
Qed.

Lemma stride_count (D k : Z) :
  0 <= D -> 0 < k ->
  Nat.div (Z.to_nat (D + 1) + Z.to_nat k - 1) (Z.to_nat k) = Z.to_nat (D / k + 1).
Proof.
  intros HD Hk. apply Nat2Z.inj. rewrite Nat2Z.inj_div.
  zify. Z.div_mod_to_equations. nia.
Qed.

Lemma flat_map_stride {A B} (l : list A) (f : nat -> B) (g : nat -> nat) (h : A -> B) m :
  (forall i, (i < m)%nat -> exists a, List.nth_error l (g i) = Some a /\ h a = f i) ->
  List.flat_map (fun i => match List.nth_error l (g i) with
                          | Some x => [h x]
                          | None => []
                          end) (List.seq 0 m)
  = List.map f (List.seq 0 m).
Proof.
  induction m as [|m IH]; intros H; [reflexivity|].
  rewrite List.seq_S, List.flat_map_app, List.map_app, IH by (intros; apply H; lia).
  cbn. destruct (H m) as (a & -> & <-); [lia|]. reflexivity.
Qed.

(** The dates of [dates[::k]] for a positive [k]: [start],
    [start + k days], [start + 2 k days], ... up to [end]. *)
Lemma launch_dates_explicit (start end_ k : Z) :
  0 < k -> start <= end_ ->
  traverser.slice_step k (Calendar.date_range start end_)
  = Ok (List.map (fun i => Calendar.add_days start (Z.of_nat i * k))
                 (List.seq 0 (Z.to_nat ((end_ - start)
                                        / (k * Calendar.seconds_per_day) + 1)))).
Proof.
  intros Hk Hse. unfold traverser.slice_step.
  destruct (Z.eqb_spec k 0) as [->|_]; [lia|].
  destruct (Z.ltb_spec 0 k) as [_|]; [|lia]. f_equal.
  set (D := (end_ - start) / Calendar.seconds_per_day).
  assert (HD : 0 <= D).
  { subst D. apply Z.div_pos; unfold Calendar.seconds_per_day; lia. }
  assert (Hcount : Nat.div (List.length (Calendar.date_range start end_) + Z.to_nat k - 1)
                           (Z.to_nat k)
                   = Z.to_nat ((end_ - start) / (k * Calendar.seconds_per_day) + 1)).
  { rewrite date_range_length. fold D. rewrite stride_count by assumption.
    subst D. rewrite Z.div_div by (unfold Calendar.seconds_per_day; lia).
    rewrite (Z.mul_comm Calendar.seconds_per_day k). reflexivity. }
  rewrite <- Hcount.
  rewrite <- (flat_map_stride (Calendar.date_range start end_)
                (fun i => Calendar.add_days start (Z.of_nat i * k))
                (fun i => (i * Z.to_nat k)%nat) (fun x => x)).
  - reflexivity.
  - intros i Hi. apply stride_index in Hi; [|lia].
    exists (Calendar.add_days start (Z.of_nat (i * Z.to_nat k))).
    split; [apply date_range_nth_error, Hi|].
    f_equal. lia.
Qed.

(** C6. With a positive launch frequency and [start_date <= end_date],
    the launch dates are [start_date], [start_date + launch_freq days],
    [start_date + 2 launch_freq days], ...: every date of the stride that
    does not exceed [end_date], [start_date] included, and no other; and
    from 2020-01-01 to 2020-01-10 with a frequency of 5 there are two
    launches, on 2020-01-01 and on 2020-01-06. *)
Theorem launch_schedule mode craft duration timestep destination speed
        (start end_ launch_freq : Z) bbox departure_points data_directory vessel_config :
  0 < launch_freq -> start <= end_ ->
  let t := traverser.__init__ mode craft duration timestep destination speed
                              start end_ launch_freq bbox departure_points
                              data_directory vessel_config in
  (exists ds,
      traverser.launch_dates t = Ok ds
      /\ List.hd_error ds = Some start
      /\ (forall d, In d ds <->
                    exists i, 0 <= i
                              /\ d = Calendar.add_days start (i * launch_freq)
                              /\ d <= end_)
      /\ ds = List.map (fun i => Calendar.add_days start (Z.of_nat i * launch_freq))
                       (List.seq 0 (List.length ds)))
  /\ (let t' := traverser.__init__ mode craft duration timestep destination speed
                  (Calendar.timestamp_of_ymd 2020 1 1)
                  (Calendar.timestamp_of_ymd 2020 1 10) 5
                  bbox departure_points data_directory vessel_config in
      traverser.launch_dates t'
      = Ok [Calendar.timestamp_of_ymd 2020 1 1; Calendar.timestamp_of_ymd 2020 1 6]
      /\ List.map Calendar.strftime_ymd
                  [Calendar.timestamp_of_ymd 2020 1 1; Calendar.timestamp_of_ymd 2020 1 6]
         = ["2020-01-01"; "2020-01-06"]%string).
Proof.
  intros Hk Hse t. split.
  - unfold traverser.launch_dates, t, traverser.__init__; cbn.
    rewrite launch_dates_explicit by assumption.
    set (n := Z.to_nat ((end_ - start) / (launch_freq * Calendar.seconds_per_day) + 1)).
    assert (Hq : 0 <= (end_ - start) / (launch_freq * Calendar.seconds_per_day)).
    { apply Z.div_pos; unfold Calendar.seconds_per_day; lia. }
    eexists. split; [reflexivity|]. split; [|split].
    + destruct n as [|n'] eqn:En; [subst n; lia|]. cbn.
      unfold Calendar.add_days. f_equal. lia.
    + intros d. rewrite List.in_map_iff. setoid_rewrite List.in_seq. split.
      * intros (i & <- & _ & Hi). exists (Z.of_nat i).
        split; [lia|]. split; [reflexivity|].
        unfold Calendar.add_days, Calendar.seconds_per_day in *.
        subst n. zify. Z.div_mod_to_equations. nia.
      * intros (i & Hi & -> & Hd). exists (Z.to_nat i).
        rewrite Z2Nat.id by assumption. split; [reflexivity|].
        split; [lia|].
        unfold Calendar.add_days, Calendar.seconds_per_day in *.
        subst n. zify. Z.div_mod_to_equations. nia.
    + rewrite List.length_map, List.length_seq. reflexivity.
  - vm_compute. split; reflexivity.
Qed.

Lemma launch_schedule_witness :
  0 < 5
  /\ Calendar.timestamp_of_ymd 2020 1 1 <= Calendar.timestamp_of_ymd 2020 1 10
  /\ exists ds,
      traverser.launch_dates
        (traverser.__init__ "drift" 1 60 1 [] (2#1)
                            (Calendar.timestamp_of_ymd 2020 1 1)
                            (Calendar.timestamp_of_ymd 2020 1 10) 5 [] [] "" "")
      = Ok ds
      /\ List.length ds = 2%nat.
Proof.
  split; [lia|]. split; [vm_compute; discriminate|].
  destruct (launch_schedule "drift" 1 60 1 [] (2#1)
              (Calendar.timestamp_of_ymd 2020 1 1)
              (Calendar.timestamp_of_ymd 2020 1 10) 5 [] [] "" "")
    as [_ [H _]]; [lia|vm_compute; discriminate|].
  eexists. split; [exact H|reflexivity].
Defined.

(** ** The worker pool *)

Section PoolFacts.
Context {A B : Type}.
Variable func : A -> B.
Variable items : list A.
Variable cs : nat.

Lemma set_slice_length start (xs : list B) slots :
  List.length (mp.set_slice start xs slots) = List.length slots.
Proof.
  revert start xs. induction slots as [|s slots IH]; intros start xs; cbn.
  - reflexivity.
  - destruct start as [|start]; [destruct xs as [|x xs]|]; cbn;
      rewrite ?IH; reflexivity.
Qed.

Lemma set_slice_inside start (xs : list B) slots p y :
  (start <= p)%nat -> List.nth_error xs (p - start) = Some y ->
  (p < List.length slots)%nat ->
  List.nth_error (mp.set_slice start xs slots) p = Some (Some y).
Proof.
  revert start xs p. induction slots as [|s slots IH]; intros start xs p Hs Hy Hp;
    cbn in *; [lia|].
  destruct start as [|start].
  - destruct xs as [|x xs]; [destruct (p - 0)%nat; discriminate|].
    destruct p as [|p]; cbn in *; [congruence|].
    apply IH; [lia| |lia]. rewrite Nat.sub_0_r. exact Hy.
  - destruct p as [|p]; [lia|]. cbn. apply IH; [lia|exact Hy|lia].
Qed.

Lemma set_slice_outside start (xs : list B) slots p :
  (p < start \/ start + List.length xs <= p)%nat ->
  List.nth_error (mp.set_slice start xs slots) p = List.nth_error slots p.
Proof.
  revert start xs p. induction slots as [|s slots IH]; intros start xs p Hp;
    cbn; [reflexivity|].
  destruct start as [|start].
  - destruct xs as [|x xs]; [reflexivity|].
    destruct p as [|p]; cbn in *; [lia|]. apply IH. lia.
  - destruct p as [|p]; cbn; [reflexivity|]. apply IH. lia.
Qed.

Lemma valid_nth task p :
  valid cs items task -> covers cs p task ->
  List.nth_error (snd task) (p - fst task * cs) = List.nth_error items p.
Proof.
  unfold valid, covers. intros Hv [Hlo Hhi]. rewrite Hv in *.
  rewrite List.nth_error_firstn, List.nth_error_skipn.
  rewrite List.length_firstn in Hhi.
  destruct (Nat.ltb_spec (p - fst task * cs) cs); [|lia].
  f_equal. lia.
Qed.

Lemma complete_length slots task :
  List.length (mp.complete func cs slots task) = List.length slots.
Proof. apply set_slice_length. Qed.

Lemma fold_complete_length tasks slots :
  List.length (List.fold_left (mp.complete func cs) tasks slots)
  = List.length slots.
Proof.
  revert slots. induction tasks as [|t tasks IH]; intros slots; cbn;
    [reflexivity|]. rewrite IH. apply complete_length.
Qed.

(** A slot that holds the result of its item holds it after any
    further batch is completed. *)
Lemma complete_keeps slots task p a :
  valid cs items task -> List.nth_error items p = Some a ->
  List.nth_error slots p = Some (Some (func a)) ->
  List.nth_error (mp.complete func cs slots task) p = Some (Some (func a)).
Proof.
  intros Hv Ha Hs. unfold mp.complete.
  assert (Hp : (p < List.length slots)%nat)
    by (apply List.nth_error_Some; congruence).
  destruct (Nat.le_gt_cases (fst task * cs) p) as [Hlo|Hlo];
    [destruct (Nat.lt_ge_cases p (fst task * cs + List.length (snd task))) as [Hhi|Hhi]|].
  - apply set_slice_inside; [exact Hlo| |exact Hp].
    rewrite List.nth_error_map, (valid_nth task p Hv (conj Hlo Hhi)), Ha.
    reflexivity.
  - rewrite set_slice_outside; [exact Hs|]. rewrite List.length_map. lia.
  - rewrite set_slice_outside; [exact Hs|]. lia.
Qed.

Lemma fold_complete_keeps tasks slots p a :
  Forall (valid cs items) tasks -> List.nth_error items p = Some a ->
  List.nth_error slots p = Some (Some (func a)) ->
  List.nth_error (List.fold_left (mp.complete func cs) tasks slots) p
  = Some (Some (func a)).
Proof.
  intros Hv Ha. revert slots.
  induction Hv as [|t tasks Ht Hv IH]; intros slots Hs; cbn; [exact Hs|].
  apply IH. apply complete_keeps; assumption.
Qed.

(** Once the batch that covers an item is completed, whenever that
    is, the slot of the item holds its result. *)
Lemma fold_complete_covered tasks slots p a :
  Forall (valid cs items) tasks -> Exists (covers cs p) tasks ->
  List.nth_error items p = Some a -> (p < List.length slots)%nat ->
  List.nth_error (List.fold_left (mp.complete func cs) tasks slots) p
  = Some (Some (func a)).
Proof.
  intros Hv Hc Ha. revert slots.
  induction Hc as [t tasks Ht|t tasks Hc IH]; intros slots Hp; cbn;
    apply Forall_cons_iff in Hv as [Hvt Hv].
  - apply fold_complete_keeps; [exact Hv|exact Ha|].
    unfold mp.complete. destruct Ht as [Hlo Hhi].
    apply set_slice_inside; [exact Hlo| |exact Hp].
    rewrite List.nth_error_map, (valid_nth t p Hvt (conj Hlo Hhi)), Ha.
    reflexivity.
  - apply IH; [exact Hv|]. rewrite complete_length. exact Hp.
Qed.

Lemma batches_valid : Forall (valid cs items) (mp.batches cs items).
Proof.
  unfold mp.batches. apply Forall_forall. intros t Ht.
  apply List.in_map_iff in Ht as (i & <- & _). reflexivity.
Qed.

Lemma batches_cover p :
  (0 < cs)%nat -> (p < List.length items)%nat ->
  Exists (covers cs p) (mp.batches cs items).
Proof.
  intros Hcs Hp. apply Exists_exists.
  exists (Nat.div p cs, List.firstn cs (List.skipn (Nat.div p cs * cs) items)).
  pose proof (Nat.Div0.mul_div_le p cs) as Hle.
  pose proof (Nat.mul_succ_div_gt p cs ltac:(lia)) as Hgt.
  split.
  - unfold mp.batches. apply List.in_map_iff. exists (Nat.div p cs).
    split; [reflexivity|]. apply List.in_seq. split; [lia|].
    unfold mp.n_batches. destruct cs as [|cs']; [lia|].
    cbn [Nat.add]. apply Nat.Div0.div_lt_upper_bound.
    pose proof (Nat.Div0.mul_div_le (List.length items + S cs' - 1) (S cs')).
    pose proof (Nat.mul_succ_div_gt (List.length items + S cs' - 1) (S cs') ltac:(lia)).
    nia.
  - unfold covers. cbn [fst snd].
    rewrite List.length_firstn, List.length_skipn. lia.
Qed.

Lemma gather_map_Some (ys : list B) : mp.gather (List.map Some ys) = Some ys.
Proof.
  induction ys as [|y ys IH]; cbn; [reflexivity|]. rewrite IH. reflexivity.
Qed.

(** The slots after every batch is completed, in any order. *)
Lemma fold_complete_all (tasks : list (nat * list A)) :
  (0 < cs)%nat -> Permutation tasks (mp.batches cs items) ->
  List.fold_left (mp.complete func cs) tasks
                 (List.repeat None (List.length items))
  = List.map Some (List.map func items).
Proof.
  intros Hcs Hperm. apply List.nth_error_ext. intros p.
  assert (Hv : Forall (valid cs items) tasks).
  { eapply Permutation_Forall; [symmetry; exact Hperm|apply batches_valid]. }
  destruct (List.nth_error items p) as [a|] eqn:Ha.
  - assert (Hp : (p < List.length items)%nat)
      by (apply List.nth_error_Some; congruence).
    rewrite (fold_complete_covered tasks _ p a Hv); [| |exact Ha|].
    + rewrite !List.nth_error_map, Ha. reflexivity.
    + eapply Permutation_Exists; [symmetry; exact Hperm|].
      apply batches_cover; assumption.
    + rewrite List.repeat_length. exact Hp.
  - apply List.nth_error_None in Ha.
    transitivity (@None (option B)); [|symmetry];
      apply List.nth_error_None;
      rewrite ?fold_complete_length, ?List.repeat_length, ?List.length_map;
      exact Ha.
Qed.
End PoolFacts.

Lemma chunksize_pos n processes :
  (0 < n)%nat -> (0 < processes)%nat -> (0 < mp.chunksize n processes)%nat.
Proof.
  intros Hn Hp. unfold mp.chunksize.
  destruct (Nat.eqb_spec (Nat.modulo n (processes * 4)) 0) as [E|_]; [|lia].
  pose proof (Nat.div_mod_eq n (processes * 4)). nia.
Qed.

Lemma batches_nil {A} cs : mp.batches cs (@nil A) = [].
Proof.
  unfold mp.batches, mp.n_batches. destruct cs as [|c]; [reflexivity|].
  cbn [List.length Nat.add]. rewrite Nat.div_small by lia. reflexivity.
Qed.

(** [Pool.map] returns the results in the order of the items, whatever
    the order in which the workers complete the batches. *)
Lemma pool_map_ordered {A B} processes schedule (func : A -> B) (items : list A) :
  (0 < processes)%nat ->
  (forall tasks, Permutation (schedule tasks) tasks) ->
  mp.map processes schedule func items = Ok (Some (List.map func items)).
Proof.
  intros Hp Hs. unfold mp.map.
  destruct (Nat.eqb_spec processes 0) as [->|_]; [lia|]. do 2 f_equal.
  destruct items as [|a items'] eqn:E.
  - rewrite batches_nil, (Permutation_nil (Permutation_sym (Hs []))).
    reflexivity.
  - rewrite <- E. rewrite fold_complete_all.
    + apply gather_map_Some.
    + apply chunksize_pos; [subst; cbn; lia|exact Hp].
    + apply Hs.
Qed.

(** ** Sequential and parallel runs *)

Lemma fold_append_from {A B} (f : A -> B) (l : list A) (acc : list B) :
  List.fold_left (fun ys x => ys ++ [f x]) l acc = acc ++ List.map f l.
Proof.
  revert acc. induction l as [|x l IH]; intros acc; cbn.
  - symmetry. apply app_nil_r.
  - rewrite IH, <- app_assoc. reflexivity.
Qed.

Lemma fold_append_map {A B} (f : A -> B) (l : list A) :
  List.fold_left (fun ys x => ys ++ [f x]) l [] = List.map f l.
Proof. exact (fold_append_from f l []). Qed.

Section TraverserFacts.
Variable WeightedGrid : Type.
Variable from_map : DataArray -> nat -> result WeightedGrid.
Variable xoak_set_index : DataArray -> result unit.
Variable Dataset : Type.
Variable glob : string -> list string.
Variable open_mfdataset : list string -> result Dataset.
Variable ds_drop : string -> Dataset -> result Dataset.
Variable ds_squeeze : Dataset -> Dataset.
Variable ds_rename : list (string * string) -> Dataset -> result Dataset.
Variable ds_sel_time_load :
  Calendar.Timestamp -> Calendar.Timestamp -> Dataset -> result Dataset.
Variable ds_var : string -> Dataset -> result DataArray.
Variable Vessel : Type.
Variable Model : Type.
Variable Model_new : Z -> Z -> Model.
Variable Model_use : Model -> chart.Chart WeightedGrid -> Model.
Variable Model_run : Model -> chart.Chart WeightedGrid -> Vessel -> Vessel.
Variable Vessel_from_position :
  Q * Q -> traverser.Traverser -> chart.Chart WeightedGrid -> Vessel.

Abbreviation run :=
  (traverser.run WeightedGrid from_map xoak_set_index Dataset glob
                 open_mfdataset ds_drop ds_squeeze ds_rename ds_sel_time_load
                 ds_var Vessel Model Model_new Model_use Model_run
                 Vessel_from_position).
Abbreviation run_mp :=
  (traverser.run_mp WeightedGrid from_map xoak_set_index Dataset glob
                    open_mfdataset ds_drop ds_squeeze ds_rename ds_sel_time_load
                    ds_var Vessel Model Model_new Model_use Model_run
                    Vessel_from_position).
Abbreviation launches :=
  (traverser.launches WeightedGrid Vessel Model Model_use Vessel_from_position).
Abbreviation run_each := (traverser.run_each WeightedGrid Vessel Model Model_run).
Abbreviation run_pool := (traverser.run_pool WeightedGrid Vessel Model Model_run).

(** The loop that appends one result per vessel is a [map]. *)
Lemma run_each_map date model c vessels :
  run_each date model c vessels = Ok (List.map (Model_run model c) vessels).
Proof.
  unfold traverser.run_each. f_equal. apply fold_append_map.
Qed.

Lemma run_pool_map cpu_count (schedule : traverser.Schedule Vessel)
      date model c vessels :
  (0 < cpu_count)%nat ->
  (forall d tasks, Permutation (schedule d tasks) tasks) ->
  run_pool cpu_count schedule date model c vessels
  = Ok (List.map (Model_run model c) vessels).
Proof.
  intros Hc Hs. unfold traverser.run_pool.
  rewrite pool_map_ordered by auto. reflexivity.
Qed.

Lemma launches_ext f g t ds c model results :
  (forall date model c vessels, f date model c vessels = g date model c vessels) ->
  launches f t ds c model results = launches g t ds c model results.
Proof.
  intros Hfg. revert c model results.
  induction ds as [|date ds IH]; intros c model results; cbn; [reflexivity|].
  destruct (chart.interpolate date (traverser.duration t) c) as [c' [u|e]];
    [|reflexivity].
  rewrite Hfg. destruct (g date _ _ _) as [trajectories|e]; cbn; auto.
Qed.

(** C8. [run] and [run_mp] return the same: the same error, or the
    same results, with the same launch-date keys and under each key
    the trajectories of the vessels in the order of the departure
    points, whatever the order in which the workers complete their
    batches.  The model's [run] is taken to be a function of the
    model, the chart and the vessel. *)
Theorem run_mp_equals_run cpu_count (schedule : traverser.Schedule Vessel)
        (t : traverser.Traverser) :
  (0 < cpu_count)%nat ->
  (forall d tasks, Permutation (schedule d tasks) tasks) ->
  run_mp cpu_count schedule t = run t
  /\ (forall ds c model results,
         launches (run_pool cpu_count schedule) t ds c model results
         = launches run_each t ds c model results)
  /\ (forall date model c,
         run_pool cpu_count schedule date model c
                  (traverser.Vessel_from_positions WeightedGrid Vessel
                                                   Vessel_from_position t c)
         = Ok (List.map (fun p => Model_run model c (Vessel_from_position p t c))
                        (traverser.departure_points t))
         /\ run_each date model c
                     (traverser.Vessel_from_positions WeightedGrid Vessel
                                                      Vessel_from_position t c)
            = Ok (List.map (fun p => Model_run model c (Vessel_from_position p t c))
                           (traverser.departure_points t))).
Proof.
  intros Hc Hs.
  assert (Heq : forall date model c vessels,
             run_pool cpu_count schedule date model c vessels
             = run_each date model c vessels).
  { intros. rewrite run_each_map. apply run_pool_map; assumption. }
  split; [|split].
  - unfold traverser.run_mp, traverser.run.
    destruct (traverser.load_chart _ _ _ _ _ _ _ _ _ _ _ t) as [c|e];
      [|reflexivity]. cbn.
    destruct (traverser.launch_dates t) as [ds|e]; [|reflexivity]. cbn.
    apply launches_ext, Heq.
  - intros. apply launches_ext, Heq.
  - intros date model c.
    rewrite run_pool_map, run_each_map by assumption.
    unfold traverser.Vessel_from_positions. rewrite List.map_map. auto.
Qed.

(** With the [load] of the chart as it is, neither mode gets to the
    first launch. *)
Lemma run_raises (t : traverser.Traverser) : exists e, run t = Raise e.
Proof.
  unfold traverser.run, traverser.load_chart.
  destruct (load_raises WeightedGrid from_map xoak_set_index Dataset glob
              open_mfdataset ds_drop ds_squeeze ds_rename ds_sel_time_load
              ds_var (traverser.data_directory t)
              (chart.__init__ WeightedGrid (traverser.bbox t)
                              (traverser.start_date t) (traverser.end_date t)))
    as [e He].
  destruct (chart.load _ _ _ _ _ _ _ _ _ _ _ _ _) as [c r].
  cbn in He. subst r. cbn. eauto.
Qed.

End TraverserFacts.

Lemma run_mp_equals_run_witness :
  (0 < 2)%nat
  /\ (forall d tasks, Permutation (reversed_schedule d tasks) tasks)
  /\ forall ds c model results,
      traverser.launches unit (Q * Q) unit (fun m _ => m) vessel_at
        (traverser.run_pool unit (Q * Q) unit drift_east 2 reversed_schedule)
        three_points ds c model results
      = traverser.launches unit (Q * Q) unit (fun m _ => m) vessel_at
          (traverser.run_each unit (Q * Q) unit drift_east)
          three_points ds c model results.
Proof.
  split; [lia|]. split.
  - intros d tasks. symmetry. apply Permutation_rev.
  - apply (run_mp_equals_run unit (fun _ _ => Ok tt) (fun _ => Ok tt) unit
             (fun _ => []) (fun _ => Ok tt) (fun _ _ => Ok tt)
             (fun _ => tt) (fun _ _ => Ok tt) (fun _ _ _ => Ok tt)
             (fun _ _ => Raise KeyError)
             (Q * Q) unit (fun _ _ => tt) (fun m _ => m)
             drift_east vessel_at 2 reversed_schedule three_points).
    + lia.
    + intros d tasks. symmetry. apply Permutation_rev.
Defined.

(** One launch of three vessels through the pool, the batches being
    completed in reverse: the trajectories are in the order of the
    departure points, under the key of the launch date. *)
Example launch_through_pool :
  traverser.launches unit (Q * Q) unit (fun m _ => m) vessel_at
    (traverser.run_pool unit (Q * Q) unit drift_east 2 reversed_schedule)
    three_points [0] chart_with_winds tt ∅
  = Ok (<["1970-01-01"%string := [(1#1, 0#1); (2#1, 1#1); (3#1, 2#1)]]> ∅).
Proof. vm_compute. reflexivity. Qed.

(** ** Nearest land and nearest water *)

Lemma argmin_from_in {X} (key : X -> R) best l :
  In (argmin_from key best l) (best :: l).
Proof.
  revert best. induction l as [|x l IH]; intros best; cbn; [auto|].
  destruct (IH (if Rltb (key x) (key best) then x else best)) as [H|H].
  - destruct (Rltb (key x) (key best)); rewrite <- H; auto.
  - auto.
Qed.

Lemma argmin_from_le {X} (key : X -> R) best l y :
  In y (best :: l) -> (key (argmin_from key best l) <= key y)%R.
Proof.
  revert best y. induction l as [|x l IH]; intros best y Hy; cbn.
  - destruct Hy as [->|[]]. apply Rle_refl.
  - unfold Rltb at 1. destruct (Rlt_dec (key x) (key best)) as [Hlt|Hge].
    + destruct Hy as [Hy|[Hy|Hy]].
      * subst y. eapply Rle_trans; [apply (IH x x); left; reflexivity|].
        apply Rlt_le, Hlt.
      * subst y. apply IH. left. reflexivity.
      * apply IH. right. exact Hy.
    + destruct Hy as [Hy|[Hy|Hy]].
      * subst y. apply IH. left. reflexivity.
      * subst y. eapply Rle_trans; [apply (IH best best); left; reflexivity|].
        apply Rnot_lt_le, Hge.
      * apply IH. right. exact Hy.
Qed.

(** [argmin] returns an element with the smallest key, and raises on
    nothing but an empty list. *)
Lemma argmin_spec {X} (key : X -> R) l :
  l <> [] ->
  exists x, argmin key l = Ok x /\ In x l
            /\ forall y, In y l -> (key x <= key y)%R.
Proof.
  destruct l as [|x0 l]; [congruence|]. intros _.
  exists (argmin_from key x0 l). split; [reflexivity|].
  split; [apply argmin_from_in|]. intros y. apply argmin_from_le.
Qed.

Lemma argmin_in {X} (key : X -> R) l x : argmin key l = Ok x -> In x l.
Proof.
  destruct l as [|x0 l]; [discriminate|]. cbn. intros [= <-].
  apply argmin_from_in.
Qed.

Lemma count_row test w la :
  count_true (List.map (fun lo => test (window_value w (fst la) (fst lo))) (w_lons w))
  = Z.of_nat
      (List.length
         (List.filter (fun n => test (node_value n))
                      (List.map (fun lo => {| node_lat := la; node_lon := lo;
                                              node_value := window_value w (fst la) (fst lo) |})
                                (w_lons w)))).
Proof.
  unfold count_true. f_equal.
  induction (w_lons w) as [|lo lons IH]; cbn; [reflexivity|].
  destruct (test (window_value w (fst la) (fst lo))); cbn; rewrite IH; reflexivity.
Qed.

Lemma count_rows test w (lats : list (nat * Q)) :
  List.fold_right Z.add 0
    (List.map count_true
       (List.map (fun la => List.map (fun lo => test (window_value w (fst la) (fst lo)))
                                     (w_lons w))
                 lats))
  = Z.of_nat
      (List.length
         (List.filter (fun n => test (node_value n))
            (List.flat_map
               (fun la => List.map
                            (fun lo => {| node_lat := la; node_lon := lo;
                                          node_value := window_value w (fst la) (fst lo) |})
                            (w_lons w))
               lats))).
Proof.
  induction lats as [|la lats IH]; [reflexivity|].
  cbn [List.map List.fold_right List.flat_map].
  rewrite List.filter_app, List.length_app, Nat2Z.inj_add, IH, count_row.
  reflexivity.
Qed.

(** On a window with at least one row, [sum(sum(mask))] counts the
    nodes of the mask. *)
Lemma sum_sum_count test w :
  w_lats w <> [] ->
  sum_sum (mask_values test w)
  = Ok (Z.of_nat (List.length (List.filter (fun n => test (node_value n)) (nodes w)))).
Proof.
  intros Hne. unfold nodes. rewrite <- count_rows.
  unfold sum_sum, mask_values.
  destruct (w_lats w) as [|la0 lats0]; [congruence|]. reflexivity.
Qed.

(** With no row in the window, the count raises. *)
Lemma sum_sum_no_row test w :
  w_lats w = [] -> sum_sum (mask_values test w) = Raise TypeError.
Proof. intros H. unfold mask_values. rewrite H. reflexivity. Qed.

(** What the window of a search was selected from. *)
Lemma selected_radius_ok {G} (c : chart.Chart G) lon lat r w :
  chart.selected_radius c lon lat r = Ok w ->
  exists u lons lats it,
    chart.u_current_all c = Some u
    /\ longitude u = Arr1 lons /\ latitude u = Arr1 lats
    /\ get_loc (chart.start_date c) (time u) = Ok it
    /\ sel_slice (lon - r) (lon + r) lons = Ok (w_lons w)
    /\ sel_slice (lat - r) (lat + r) lats = Ok (w_lats w)
    /\ w_data w = u /\ w_time w = it.
Proof.
  unfold chart.selected_radius, chart.attr, sel_window, index_of_coord.
  destruct (chart.u_current_all c) as [u|]; cbn [rbind]; [|discriminate].
  destruct (longitude u) as [lons|] eqn:Elon; cbn [rbind]; [|discriminate].
  destruct (latitude u) as [lats|] eqn:Elat; cbn [rbind]; [|discriminate].
  destruct (get_loc _ (time u)) as [it|] eqn:Et; cbn [rbind]; [|discriminate].
  destruct (sel_slice _ _ lons) as [in_lons|] eqn:Slon; cbn [rbind]; [|discriminate].
  destruct (sel_slice _ _ lats) as [in_lats|] eqn:Slat; cbn [rbind]; [|discriminate].
  intros [= <-]. exists u, lons, lats, it. cbn. auto 10.
Qed.

(** The window of a search around a point of a chart whose currents
    are on a grid with increasing coordinates and hold the start date. *)
Lemma selected_radius_regular {G} (c : chart.Chart G) u lons lats it lon lat r :
  chart.u_current_all c = Some u ->
  longitude u = Arr1 lons -> latitude u = Arr1 lats ->
  strictly_ascending lons = true -> strictly_ascending lats = true ->
  get_loc (chart.start_date c) (time u) = Ok it ->
  chart.selected_radius c lon lat r = Ok (regular_window u it lons lats lon lat r).
Proof.
  intros Hu Elon Elat Alon Alat Hit. unfold chart.selected_radius, sel_window.
  rewrite Hu. cbn [chart.attr rbind]. rewrite Elon, Elat. cbn [index_of_coord rbind].
  rewrite Hit. cbn [rbind].
  rewrite (sel_slice_ascending _ _ _ Alon), (sel_slice_ascending _ _ _ Alat).
  reflexivity.
Qed.

(** The nodes of the window of a search on a regular grid are the
    nodes of the grid whose longitude and latitude are within the radius
    of those of the query point, with their values at the start date. *)
Lemma in_regular_window u it lons lats lon lat r n :
  In n (nodes (regular_window u it lons lats lon lat r)) <->
  exists ilat ilon qlat qlon,
    node_in_window lons lats lon lat r ilat ilon qlat qlon
    /\ n = {| node_lat := (ilat, qlat); node_lon := (ilon, qlon);
              node_value := values u it ilat ilon |}.
Proof.
  rewrite in_nodes. unfold regular_window, node_in_window, within_radius.
  cbn [w_lats w_lons]. split.
  - intros ([ilat qlat] & [ilon qlon] & Hla & Hlo & ->).
    apply in_labels_within in Hla as (Hla & H1 & H2), Hlo as (Hlo & H3 & H4).
    exists ilat, ilon, qlat, qlon. auto 10.
  - intros (ilat & ilon & qlat & qlon & (Hla & Hlo & H3 & H4 & H1 & H2) & ->).
    exists (ilat, qlat), (ilon, qlon).
    split; [|split; [|reflexivity]]; apply in_labels_within; auto.
Qed.

Lemma regular_grid_ok x :
  regular_grid x = true ->
  exists lons lats,
    longitude x = Arr1 lons /\ latitude x = Arr1 lats
    /\ strictly_ascending (List.map inject_Z (time x)) = true
    /\ strictly_ascending lons = true /\ strictly_ascending lats = true.
Proof.
  unfold regular_grid. intros H.
  apply andb_true_iff in H as [H Hlat]. apply andb_true_iff in H as [Ht Hlon].
  destruct (longitude x) as [lons|]; [|discriminate].
  destruct (latitude x) as [lats|]; [|discriminate].
  exists lons, lats. auto.
Qed.

(** The window of a search on a chart whose currents are on a regular
    grid. *)
Lemma selected_radius_grid {G} (c : chart.Chart G) u lons lats it lon lat r :
  chart.u_current_all c = Some u -> regular_grid u = true ->
  longitude u = Arr1 lons -> latitude u = Arr1 lats ->
  get_loc (chart.start_date c) (time u) = Ok it ->
  chart.selected_radius c lon lat r = Ok (regular_window u it lons lats lon lat r).
Proof.
  intros Hu Hreg Elon Elat Hit.
  apply regular_grid_ok in Hreg as (lons' & lats' & Elon' & Elat' & _ & Alon & Alat).
  rewrite Elon in Elon'. injection Elon' as <-.
  rewrite Elat in Elat'. injection Elat' as <-.
  apply selected_radius_regular; assumption.
Qed.

(** On a regular grid, the nearest-neighbour selection at the
    coordinates and the time stamp of a node is the value of the node. *)
Lemma sel_nearest_at_node x t it lons lats ilon ilat qlon qlat :
  longitude x = Arr1 lons -> latitude x = Arr1 lats ->
  strictly_ascending (List.map inject_Z (time x)) = true ->
  strictly_ascending lons = true -> strictly_ascending lats = true ->
  get_loc t (time x) = Ok it ->
  List.nth_error lons ilon = Some qlon -> List.nth_error lats ilat = Some qlat ->
  sel_nearest x t qlon qlat = Ok (values x it ilat ilon).
Proof.
  intros Elon Elat Ht Hlon Hlat Hit Hilon Hilat. unfold sel_nearest.
  rewrite Elon, Elat. cbn [index_of_coord rbind].
  rewrite (nearest_time_exact _ _ _ Ht Hit). cbn [rbind].
  rewrite (nearest_coord_exact lons ilon qlon qlon Hlon Hilon (Qeq_refl _)).
  cbn [rbind].
  rewrite (nearest_coord_exact lats ilat qlat qlat Hlat Hilat (Qeq_refl _)).
  reflexivity.
Qed.

(** What [find_closest_water] returns is a node of the window that
    holds a value. *)
Lemma find_closest_water_node {G} (c : chart.Chart G) lon lat r qlon qlat :
  chart.find_closest_water c lon lat r = Ok (Some (qlon, qlat)) ->
  exists w n,
    chart.selected_radius c lon lat r = Ok w
    /\ In n (nodes w) /\ node_value n <> None
    /\ snd (node_lon n) = qlon /\ snd (node_lat n) = qlat.
Proof.
  unfold chart.find_closest_water.
  destruct (chart.selected_radius c lon lat r) as [w|]; cbn; [|discriminate].
  destruct (sum_sum (mask_values notnull w)) as [count|]; cbn; [|discriminate].
  destruct (negb (count =? 0)); [|discriminate].
  destruct (argmin _ _) as [n|] eqn:En; cbn; [|discriminate].
  intros [= <- <-]. apply argmin_in in En.
  apply List.filter_In in En as [Hn Hv].
  exists w, n. repeat split; auto.
  intros Hnone. rewrite Hnone in Hv. discriminate.
Qed.

(** On a regular grid, what [find_closest_water] returns is a node of
    the grid within the radius that holds a value at the start date. *)
Lemma find_closest_water_grid_node {G} (c : chart.Chart G) u lons lats it
      lon lat r qlon qlat :
  chart.u_current_all c = Some u -> regular_grid u = true ->
  longitude u = Arr1 lons -> latitude u = Arr1 lats ->
  get_loc (chart.start_date c) (time u) = Ok it ->
  chart.find_closest_water c lon lat r = Ok (Some (qlon, qlat)) ->
  exists ilat ilon,
    node_in_window lons lats lon lat r ilat ilon qlat qlon
    /\ values u it ilat ilon <> None.
Proof.
  intros Hu Hreg Elon Elat Hit Hfind.
  apply find_closest_water_node in Hfind as (w & n & Hsel & Hn & Hval & <- & <-).
  rewrite (selected_radius_grid c u lons lats it lon lat r Hu Hreg Elon Elat Hit)
    in Hsel.
  injection Hsel as <-.
  apply in_regular_window in Hn as (ilat & ilon & qlat & qlon & Hw & ->).
  cbn [node_value node_lon node_lat snd] in *. eauto.
Qed.

(** C3, as the code has it. On a chart whose current fields are on the
    same regular grid and whose v component holds a value wherever its
    u component does, the cell that [find_closest_water] returns for a
    point classified as land is classified as water by [isLand]. *)
Theorem find_closest_water_is_water {G} (c : chart.Chart G) u v
        (lon lat r qlon qlat : Q) :
  chart.u_current_all c = Some u -> chart.v_current_all c = Some v ->
  regular_grid u = true ->
  time v = time u -> longitude v = longitude u -> latitude v = latitude u ->
  (forall it ilat ilon, values v it ilat ilon = None -> values u it ilat ilon = None) ->
  chart.isLand c lon lat = Ok true ->
  chart.find_closest_water c lon lat r = Ok (Some (qlon, qlat)) ->
  chart.isLand c qlon qlat = Ok false.
Proof.
  intros Hu Hv Hreg Ht Hlon Hlat Hmask _ Hfind.
  destruct (regular_grid_ok u Hreg) as (lons & lats & Elon & Elat & Hat & Halon & Halat).
  assert (Hit : exists it, get_loc (chart.start_date c) (time u) = Ok it).
  { apply find_closest_water_node in Hfind as (w & _ & Hsel & _).
    apply selected_radius_ok in Hsel as (u' & _ & _ & it & Hu' & _ & _ & Hit & _).
    rewrite Hu in Hu'. injection Hu' as <-. eauto. }
  destruct Hit as [it Hit].
  destruct (find_closest_water_grid_node c u lons lats it lon lat r qlon qlat
              Hu Hreg Elon Elat Hit Hfind)
    as (ilat & ilon & (Hla & Hlo & _) & Hval).
  unfold chart.isLand. rewrite Hu, Hv. cbn.
  rewrite (sel_nearest_at_node u _ it lons lats ilon ilat qlon qlat) by assumption.
  cbn.
  rewrite (sel_nearest_at_node v _ it lons lats ilon ilat qlon qlat)
    by (rewrite ?Ht, ?Hlon, ?Hlat; assumption).
  cbn. f_equal.
  destruct (values u it ilat ilon) as [x|] eqn:Eu; [|congruence].
  destruct (values v it ilat ilon) as [y|] eqn:Ev; [reflexivity|].
  apply Hmask in Ev. congruence.
Qed.

Lemma find_closest_water_is_water_witness :
  chart.isLand (chart_of coast coast) (0#1) (0#1) = Ok true
  /\ chart.find_closest_water (chart_of coast coast) (0#1) (0#1) (2#1)
     = Ok (Some (1#1, 0#1))
  /\ chart.isLand (chart_of coast coast) (1#1) (0#1) = Ok false.
Proof.
  split; [reflexivity|]. split; [reflexivity|].
  apply (find_closest_water_is_water (chart_of coast coast) coast coast
           (0#1) (0#1) (2#1) (1#1) (0#1));
    try reflexivity.
  intros it ilat ilon H. exact H.
Defined.

(** C3, as stated, fails: [find_closest_water] looks at the u component
    only and [isLand] at both, so that a node with a u value and no v
    value is returned as the closest water and classified as land. *)
Lemma find_closest_water_returns_land :
  chart.isLand (chart_of coast no_value) (0#1) (0#1) = Ok true
  /\ chart.find_closest_water (chart_of coast no_value) (0#1) (0#1) (2#1)
     = Ok (Some (1#1, 0#1))
  /\ chart.isLand (chart_of coast no_value) (1#1) (0#1) = Ok true.
Proof. repeat split. Qed.

Lemma Q2R_90 : Q2R (90 # 1) = 90%R.
Proof. unfold Q2R. cbn. lra. Qed.

Lemma Q2R_m90 : Q2R (-90 # 1) = (-90)%R.
Proof. unfold Q2R. cbn. lra. Qed.

(** The cosine of a latitude is not negative. *)
Lemma cos_latitude_nonneg (latitude : Q) :
  (-90 # 1 <= latitude)%Q -> (latitude <= 90 # 1)%Q ->
  (0 <= cos (Q2R latitude * PI / 180))%R.
Proof.
  intros Hlo Hhi. apply Qle_Rle in Hlo, Hhi. rewrite Q2R_m90 in Hlo.
  rewrite Q2R_90 in Hhi. pose proof PI_RGT_0 as Hpi.
  apply cos_ge_0; nra.
Qed.

Lemma distance_km_nonneg longitude latitude lon' lat' :
  (-90 # 1 <= latitude)%Q -> (latitude <= 90 # 1)%Q ->
  (0 <= distance_km longitude latitude lon' lat')%R.
Proof.
  intros Hlo Hhi. unfold distance_km, r_earth.
  pose proof PI_RGT_0 as Hpi.
  pose proof (sqrt_pos ((Q2R lat' - Q2R latitude) ^ 2 + (Q2R lon' - Q2R longitude) ^ 2))
    as Hs.
  pose proof (cos_latitude_nonneg latitude Hlo Hhi) as Hc.
  apply Rmult_le_pos; [apply Rmult_le_pos|]; [lra|exact Hs|exact Hc].
Qed.

(** With no grid latitude within the radius, the window has no row and
    the count of its missing nodes raises. *)
Lemma find_closest_land_no_row {G} bearing (c : chart.Chart G) lon lat r w :
  chart.selected_radius c lon lat r = Ok w -> w_lats w = [] ->
  chart.find_closest_land bearing c lon lat r = Raise TypeError.
Proof.
  intros Hsel Hrows. unfold chart.find_closest_land. rewrite Hsel. cbn.
  rewrite (sum_sum_no_row _ _ Hrows). reflexivity.
Qed.

(** What [find_closest_land] computes on a window with a row. *)
Lemma find_closest_land_result {G} bearing (c : chart.Chart G) lon lat r w :
  chart.selected_radius c lon lat r = Ok w -> w_lats w <> [] ->
  chart.find_closest_land bearing c lon lat r
  = match land_nodes w with
    | [] => Ok None
    | n0 :: l =>
        let n := argmin_from (node_distance lon lat) n0 l in
        Ok (Some (node_distance lon lat n,
                  bearing (lon, lat) (snd (node_lon n), snd (node_lat n))))
    end.
Proof.
  intros Hsel Hrows. unfold chart.find_closest_land. rewrite Hsel. cbn [rbind].
  rewrite (sum_sum_count isnan w Hrows). cbn [rbind]. fold (land_nodes w).
  destruct (land_nodes w) as [|n0 l]; [reflexivity|].
  cbn [List.length]. rewrite Nat2Z.inj_succ.
  destruct (Z.eqb_spec (Z.succ (Z.of_nat (List.length l))) 0) as [E|_]; [lia|].
  reflexivity.
Qed.

(** What [find_closest_water] computes on a window with a row. *)
Lemma find_closest_water_result {G} (c : chart.Chart G) lon lat r w :
  chart.selected_radius c lon lat r = Ok w -> w_lats w <> [] ->
  chart.find_closest_water c lon lat r
  = match water_nodes w with
    | [] => Ok None
    | n0 :: l =>
        let n := argmin_from (node_distance lon lat) n0 l in
        Ok (Some (snd (node_lon n), snd (node_lat n)))
    end.
Proof.
  intros Hsel Hrows. unfold chart.find_closest_water. rewrite Hsel. cbn [rbind].
  rewrite (sum_sum_count notnull w Hrows). cbn [rbind]. fold (water_nodes w).
  destruct (water_nodes w) as [|n0 l]; [reflexivity|].
  cbn [List.length]. rewrite Nat2Z.inj_succ.
  destruct (Z.eqb_spec (Z.succ (Z.of_nat (List.length l))) 0) as [E|_]; [lia|].
  reflexivity.
Qed.

(** A grid latitude within the radius gives the window a row. *)
Lemma regular_window_rows u it lons lats lon lat r :
  (exists qlat, In qlat lats /\ (lat - r <= qlat)%Q /\ (qlat <= lat + r)%Q) ->
  w_lats (regular_window u it lons lats lon lat r) <> [].
Proof.
  intros (qlat & Hin & H1 & H2). apply List.In_nth_error in Hin as [ilat Hilat].
  assert (Hla : In (ilat, qlat) (w_lats (regular_window u it lons lats lon lat r)))
    by (apply in_labels_within; auto).
  intros E. rewrite E in Hla. exact Hla.
Qed.

(** The nearest of the nodes of a window that pass a test, among the
    nodes of the grid within the radius. *)
Lemma nearest_in_regular_window u it lons lats lon lat r
      (test : option Q -> bool) n0 l :
  List.filter (fun n => test (node_value n))
              (nodes (regular_window u it lons lats lon lat r)) = n0 :: l ->
  exists ilat ilon qlat qlon,
    argmin_from (node_distance lon lat) n0 l
    = {| node_lat := (ilat, qlat); node_lon := (ilon, qlon);
         node_value := values u it ilat ilon |}
    /\ node_in_window lons lats lon lat r ilat ilon qlat qlon
    /\ test (values u it ilat ilon) = true
    /\ forall jlat jlon plat plon,
        node_in_window lons lats lon lat r jlat jlon plat plon ->
        test (values u it jlat jlon) = true ->
        (distance_km lon lat qlon qlat <= distance_km lon lat plon plat)%R.
Proof.
  intros E. set (n := argmin_from (node_distance lon lat) n0 l).
  assert (Hin : In n (n0 :: l)) by apply argmin_from_in.
  rewrite <- E in Hin. apply List.filter_In in Hin as [Hin Htest].
  apply in_regular_window in Hin as (ilat & ilon & qlat & qlon & Hw & Hn).
  exists ilat, ilon, qlat, qlon. split; [exact Hn|]. split; [exact Hw|].
  rewrite Hn in Htest. split; [exact Htest|].
  intros jlat jlon plat plon Hw' Htest'.
  set (n' := {| node_lat := (jlat, plat); node_lon := (jlon, plon);
                node_value := values u it jlat jlon |}).
  assert (Hle : (node_distance lon lat n <= node_distance lon lat n')%R).
  { apply argmin_from_le. rewrite <- E. apply List.filter_In. split.
    - apply in_regular_window. exists jlat, jlon, plat, plon. auto.
    - exact Htest'. }
  rewrite Hn in Hle. exact Hle.
Qed.

(** What [find_closest_land] returns on a regular grid with a grid
    latitude within the radius. *)
Lemma find_closest_land_nearest {G} (bearing : Q * Q -> Q * Q -> R)
      (c : chart.Chart G) u lons lats it (lon lat r : Q) :
  let land ilat ilon qlat qlon :=
    node_in_window lons lats lon lat r ilat ilon qlat qlon
    /\ values u it ilat ilon = None in
  chart.u_current_all c = Some u -> regular_grid u = true ->
  longitude u = Arr1 lons -> latitude u = Arr1 lats ->
  get_loc (chart.start_date c) (time u) = Ok it ->
  (exists qlat, In qlat lats /\ (lat - r <= qlat)%Q /\ (qlat <= lat + r)%Q) ->
  ((forall ilat ilon qlat qlon, ~ land ilat ilon qlat qlon) ->
   chart.find_closest_land bearing c lon lat r = Ok None)
  /\ ((exists ilat ilon qlat qlon, land ilat ilon qlat qlon) ->
      exists ilat ilon qlat qlon,
        land ilat ilon qlat qlon
        /\ (forall jlat jlon plat plon,
               land jlat jlon plat plon ->
               (distance_km lon lat qlon qlat <= distance_km lon lat plon plat)%R)
        /\ chart.find_closest_land bearing c lon lat r
           = Ok (Some (distance_km lon lat qlon qlat,
                       bearing (lon, lat) (qlon, qlat)))).
Proof.
  intros land Hu Hreg Elon Elat Hit Hrow.
  pose proof (selected_radius_grid c u lons lats it lon lat r Hu Hreg Elon Elat Hit)
    as Hsel.
  rewrite (find_closest_land_result bearing c lon lat r _ Hsel
             (regular_window_rows u it lons lats lon lat r Hrow)).
  unfold land_nodes.
  destruct (List.filter _ (nodes (regular_window u it lons lats lon lat r)))
    as [|n0 l] eqn:E.
  - split; [reflexivity|]. intros (ilat & ilon & qlat & qlon & Hw & Hnone).
    exfalso.
    assert (Hin : In {| node_lat := (ilat, qlat); node_lon := (ilon, qlon);
                        node_value := values u it ilat ilon |}
                     (List.filter (fun n => isnan (node_value n))
                        (nodes (regular_window u it lons lats lon lat r)))).
    { apply List.filter_In. split.
      - apply in_regular_window. exists ilat, ilon, qlat, qlon. auto.
      - cbn. rewrite Hnone. reflexivity. }
    rewrite E in Hin. exact Hin.
  - destruct (nearest_in_regular_window u it lons lats lon lat r isnan n0 l E)
      as (ilat & ilon & qlat & qlon & Hn & Hw & Hnan & Hmin).
    assert (Hland : land ilat ilon qlat qlon).
    { split; [exact Hw|]. destruct (values u it ilat ilon); [discriminate|reflexivity]. }
    split.
    + intros Hnone. exfalso. exact (Hnone ilat ilon qlat qlon Hland).
    + intros _. exists ilat, ilon, qlat, qlon. split; [exact Hland|]. split.
      { intros jlat jlon plat plon [Hw' Hnone'].
        apply (Hmin jlat jlon plat plon Hw'). rewrite Hnone'. reflexivity. }
      cbn zeta. rewrite Hn. reflexivity.
Qed.




(* ===================================================================== *)
(** * Further properties of the code *)

(** ** utils.py *)

Lemma normalize_longitude_value_range (lon : list Q) (y : Q) :
  In y (utils.normalize_longitude lon) -> (-180 # 1 < y)%Q /\ (y <= 180 # 1)%Q.
Proof.
  intros Hy. apply normalize_longitude_In in Hy as (x & _ & [[He ->]|[Hw ->]]).
  - unfold utils.is_east in He. apply andb_true_iff in He as [H0 H180].
    apply Qle_bool_iff in H0, H180. split; [|exact H180].
    eapply Qlt_le_trans; [|exact H0]. reflexivity.
  - unfold utils.is_west in Hw. apply andb_true_iff in Hw as [H180 H360].
    apply Qlt_bool_iff in H180. apply Qle_bool_iff in H360. split; Lqa.lra.
Qed.

Lemma normalize_longitude_no_west (lon : list Q) :
  List.filter utils.is_west (utils.normalize_longitude lon) = [].
Proof.
  destruct (List.filter utils.is_west (utils.normalize_longitude lon))
    as [|y l] eqn:E; [reflexivity|]. exfalso.
  assert (Hy : In y (List.filter utils.is_west (utils.normalize_longitude lon)))
    by (rewrite E; left; reflexivity).
  apply List.filter_In in Hy as [Hin Hw].
  apply normalize_longitude_value_range in Hin as [_ Hle].
  unfold utils.is_west in Hw. apply andb_true_iff in Hw as [Hlt _].
  apply Qlt_bool_iff in Hlt. Lqa.lra.
Qed.

(** X1. Every value [normalize_longitude] returns is in the signed
    convention, within (-180, 180]; and while one more application may
    drop values (the negative ones), from the second application on the
    function is idempotent. *)
Theorem normalize_longitude_signed_range (lon : list Q) :
  (forall y, In y (utils.normalize_longitude lon) ->
             (-180 # 1 < y)%Q /\ (y <= 180 # 1)%Q)
  /\ utils.normalize_longitude (utils.normalize_longitude lon)
     = List.filter utils.is_east (utils.normalize_longitude lon)
  /\ utils.normalize_longitude
       (utils.normalize_longitude (utils.normalize_longitude lon))
     = utils.normalize_longitude (utils.normalize_longitude lon).
Proof.
  split; [apply normalize_longitude_value_range|].
  assert (Htwice : utils.normalize_longitude (utils.normalize_longitude lon)
                   = List.filter utils.is_east (utils.normalize_longitude lon)).
  { unfold utils.normalize_longitude at 1.
    rewrite normalize_longitude_no_west. cbn. apply app_nil_r. }
  split; [exact Htwice|].
  rewrite Htwice. unfold utils.normalize_longitude at 1.
  assert (Hall : forallb utils.is_east
                   (List.filter utils.is_east (utils.normalize_longitude lon)) = true).
  { apply forallb_forall. intros x Hx. apply List.filter_In in Hx. tauto. }
  rewrite (filter_all _ _ Hall), (filter_none _ _ _ east_not_west Hall).
  cbn. apply app_nil_r.
Qed.

Section GridStoreMore.
Variable Dataset : Type.
Variable DataArray' : Type.
Variable glob : string -> list string.
Variable open_mfdataset : list string -> result Dataset.
Variable ds_drop : string -> Dataset -> result Dataset.
Variable ds_squeeze : Dataset -> Dataset.
Variable ds_rename : list (string * string) -> Dataset -> result Dataset.
Variable ds_sel_time_load :
  Calendar.Timestamp -> Calendar.Timestamp -> Dataset -> result Dataset.
Variable ds_var : string -> Dataset -> result DataArray'.

(** X2. The files [load_data] opens are the matches of
    [os.path.join(data_directory, source, YEAR, "*.nc")] for the calendar
    years from the year of [start] to the year of [end], and no other;
    when [end] is in an earlier year than [start] there is none. *)
Theorem load_data_files_by_year start end_ data_directory source (f : string) :
  In f (utils.filenames_of glob start end_ data_directory source)
  <-> exists year,
      Calendar.year start <= year <= Calendar.year end_
      /\ In f (glob (os_path.join data_directory
                                  [source; Calendar.year_str year; "*.nc"%string])).
Proof.
  unfold utils.filenames_of, utils.years_between, utils.pattern_of.
  rewrite List.in_flat_map. setoid_rewrite List.in_map_iff.
  setoid_rewrite List.in_seq. split.
  - intros (y & (i & <- & Hi) & Hf). exists (Calendar.year start + Z.of_nat i).
    split; [lia|exact Hf].
  - intros (y & Hy & Hf). exists y. split; [|exact Hf].
    exists (Z.to_nat (y - Calendar.year start)). split; lia.
Qed.

(** X3. [cmems_to_xr] raises only when renaming [uo]/[vo] on the dataset
    as it was given raises, and with that error: what goes wrong while
    dropping the depth, squeezing and renaming is swallowed by the bare
    [except].  What it returns is the renamed dataset, with the depth
    dropped and squeezed or, after a failure of that path, as it was. *)
Theorem cmems_to_xr_fallback (currents : Dataset) :
  let rename := ds_rename [("uo", "u"); ("vo", "v")]%string in
  let cmems_to_xr := utils.cmems_to_xr Dataset ds_drop ds_squeeze ds_rename in
  (forall e, cmems_to_xr currents = Raise e -> rename currents = Raise e)
  /\ (forall d, rename currents = Ok d -> exists d', cmems_to_xr currents = Ok d')
  /\ (forall d, cmems_to_xr currents = Ok d ->
                (exists dropped, ds_drop "depth" currents = Ok dropped
                                 /\ rename (ds_squeeze dropped) = Ok d)
                \/ rename currents = Ok d).
Proof.
  intros rename cmems_to_xr. unfold cmems_to_xr, utils.cmems_to_xr, try_except.
  fold rename.
  destruct (ds_drop "depth" currents) as [dropped|e0] eqn:Ed; cbn.
  - destruct (rename (ds_squeeze dropped)) as [d1|e1] eqn:Er.
    + split; [discriminate|]. split; [eauto|].
      intros d [= <-]. left. eauto.
    + split; [auto|]. split; [eauto|]. auto.
  - split; [auto|]. split; [eauto|]. auto.
Qed.

(** X4. A source other than "currents" and "winds" makes [load_data]
    raise the ValueError of the source, whatever the dates, the
    directory and the files are. *)
Theorem load_data_rejects_other_sources start end_ bbox data_directory source :
  source <> "currents"%string -> source <> "winds"%string ->
  utils.load_data Dataset DataArray' glob open_mfdataset ds_drop ds_squeeze
                  ds_rename ds_sel_time_load ds_var
                  start end_ bbox data_directory source
  = Raise (ValueError "Source must be currents or winds.").
Proof.
  intros Hc Hw. unfold utils.load_data.
  apply String.eqb_neq in Hc, Hw. rewrite Hc, Hw. reflexivity.
Qed.

End GridStoreMore.

Lemma load_data_rejects_other_sources_witness :
  "tides"%string <> "currents"%string /\ "tides"%string <> "winds"%string
  /\ utils.load_data unit unit (fun _ => []) (fun _ => Ok tt) (fun _ _ => Ok tt)
                     (fun d => d) (fun _ _ => Ok tt) (fun _ _ _ => Ok tt)
                     (fun _ _ => Ok tt) 0 86400 [] "data" "tides"
     = Raise (ValueError "Source must be currents or winds.").
Proof.
  split; [discriminate|]. split; [discriminate|].
  apply (load_data_rejects_other_sources unit unit (fun _ => []) (fun _ => Ok tt)
           (fun _ _ => Ok tt) (fun d => d) (fun _ _ => Ok tt) (fun _ _ _ => Ok tt)
           (fun _ _ => Ok tt) 0 86400 [] "data" "tides"); discriminate.
Defined.

(** ** chart.py *)

Section ChartMore.
Variable WeightedGrid : Type.
Variable from_map : DataArray -> nat -> result WeightedGrid.
Variable xoak_set_index : DataArray -> result unit.
Variable Dataset : Type.
Variable glob : string -> list string.
Variable open_mfdataset : list string -> result Dataset.
Variable ds_drop : string -> Dataset -> result Dataset.
Variable ds_squeeze : Dataset -> Dataset.
Variable ds_rename : list (string * string) -> Dataset -> result Dataset.
Variable ds_sel_time_load :
  Calendar.Timestamp -> Calendar.Timestamp -> Dataset -> result Dataset.
Variable ds_var : string -> Dataset -> result DataArray.

Abbreviation Chart' := (chart.Chart WeightedGrid).
Abbreviation load' :=
  (chart.load WeightedGrid from_map xoak_set_index Dataset glob open_mfdataset
              ds_drop ds_squeeze ds_rename ds_sel_time_load ds_var).
Abbreviation load_data' :=
  (utils.load_data Dataset DataArray glob open_mfdataset ds_drop ds_squeeze
                   ds_rename ds_sel_time_load ds_var).

(** X5. [Chart.load] never gets to the coordinate vectors and the grid:
    it raises and leaves [waves_all], [longitudes], [latitudes] and
    [grid] as they were.  When the currents and the winds load, they are
    stored in the chart and the error is the ValueError of the "waves"
    source. *)
Theorem load_stops_before_grid (data_dir : string) (c : Chart') :
  (exists e, snd (load' data_dir c) = Raise e)
  /\ chart.waves_all (fst (load' data_dir c)) = chart.waves_all c
  /\ chart.longitudes (fst (load' data_dir c)) = chart.longitudes c
  /\ chart.latitudes (fst (load' data_dir c)) = chart.latitudes c
  /\ chart.grid (fst (load' data_dir c)) = chart.grid c
  /\ (forall currents winds,
         load_data' (chart.start_date c) (chart.end_date c) (chart.bbox c)
                    data_dir "currents" = Ok currents ->
         load_data' (chart.start_date c) (chart.end_date c) (chart.bbox c)
                    data_dir "winds" = Ok winds ->
         load' data_dir c
         = (chart.set_wind_all WeightedGrid winds
              (chart.set_current_all WeightedGrid currents
                 (chart.set_data_dir WeightedGrid data_dir c)),
            Raise (ValueError "Source must be currents or winds."))).
Proof.
  unfold chart.load, chart.bind, chart.assign, chart.eval, chart.load_data. cbn.
  destruct (utils.load_data _ _ _ _ _ _ _ _ _ _ _ _ _ "currents") as [uv|e]; cbn.
  - destruct (utils.load_data _ _ _ _ _ _ _ _ _ _ _ _ _ "winds") as [uv'|e']; cbn.
    + repeat split; eauto. intros currents winds [= <-] [= <-]. reflexivity.
    + repeat split; eauto. intros currents winds _ [=].
  - repeat split; eauto. intros currents winds [=].
Qed.

(** X6. On a chart whose currents are not loaded, [isLand],
    [find_closest_land] and [find_closest_water] raise AttributeError,
    and so does [interpolate], which leaves the chart as it was. *)
Theorem unloaded_chart_raises bearing (c : Chart') (lon lat r : Q) date duration :
  chart.u_current_all c = None ->
  chart.isLand c lon lat = Raise AttributeError
  /\ chart.find_closest_land bearing c lon lat r = Raise AttributeError
  /\ chart.find_closest_water c lon lat r = Raise AttributeError
  /\ chart.interpolate date duration c = (c, Raise AttributeError).
Proof.
  intros H.
  unfold chart.isLand, chart.find_closest_land, chart.find_closest_water,
    chart.selected_radius, chart.interpolate, chart.bind, chart.eval.
  rewrite H. cbn. auto.
Qed.

(** X7. On a chart whose current fields lie on the same regular grid,
    [isLand] at the coordinates of a node of the grid tells whether the u
    or the v component is missing at that node, at the start date of the
    chart when it is a time stamp of the fields. *)
Theorem isLand_at_node (c : Chart') u v lons lats it ilon ilat (qlon qlat : Q) :
  chart.u_current_all c = Some u -> chart.v_current_all c = Some v ->
  regular_grid u = true ->
  time v = time u -> longitude v = longitude u -> latitude v = latitude u ->
  longitude u = Arr1 lons -> latitude u = Arr1 lats ->
  get_loc (chart.start_date c) (time u) = Ok it ->
  List.nth_error lons ilon = Some qlon -> List.nth_error lats ilat = Some qlat ->
  chart.isLand c qlon qlat
  = Ok (isnan (values u it ilat ilon) || isnan (values v it ilat ilon)).
Proof.
  intros Hu Hv Hreg Ht Hlon Hlat Elon Elat Hit Hilon Hilat.
  apply regular_grid_ok in Hreg as (lons' & lats' & Elon' & Elat' & Hat & Halon & Halat).
  rewrite Elon in Elon'. injection Elon' as <-.
  rewrite Elat in Elat'. injection Elat' as <-.
  unfold chart.isLand. rewrite Hu, Hv. cbn.
  rewrite (sel_nearest_at_node u _ it lons lats ilon ilat qlon qlat) by assumption.
  cbn.
  rewrite (sel_nearest_at_node v _ it lons lats ilon ilat qlon qlat)
    by (rewrite ?Ht, ?Hlon, ?Hlat; assumption).
  reflexivity.
Qed.

End ChartMore.

Lemma unloaded_chart_raises_witness :
  chart.u_current_all (chart.__init__ unit [] 0 86400) = None
  /\ chart.isLand (chart.__init__ unit [] 0 86400) (0#1) (0#1) = Raise AttributeError
  /\ chart.interpolate 0 1 (chart.__init__ unit [] 0 86400)
     = (chart.__init__ unit [] 0 86400, Raise AttributeError).
Proof.
  split; [reflexivity|].
  destruct (unloaded_chart_raises unit (fun _ _ => 0%R) (chart.__init__ unit [] 0 86400)
              (0#1) (0#1) (1#1) 0 1 eq_refl) as (H1 & _ & _ & H4).
  split; [exact H1|exact H4].
Defined.

Lemma isLand_at_node_witness :
  chart.u_current_all (chart_of coast coast) = Some coast
  /\ regular_grid coast = true
  /\ get_loc (chart.start_date (chart_of coast coast)) (time coast) = Ok 0%nat
  /\ List.nth_error [0#1; 1#1] 1 = Some (1#1)
  /\ chart.isLand (chart_of coast coast) (1#1) (0#1)
     = Ok (isnan (values coast 0 0 1) || isnan (values coast 0 0 1)).
Proof.
  split; [reflexivity|]. split; [reflexivity|]. split; [reflexivity|].
  split; [reflexivity|].
  apply (isLand_at_node unit (chart_of coast coast) coast coast
           [0#1; 1#1] [0#1] 0%nat 1%nat 0%nat (1#1) (0#1)); reflexivity.
Defined.

(** *** The two searches *)

Lemma distance_km_square_degrees lon lat lon' lat' :
  distance_km lon lat lon' lat'
  = (r_earth * PI / 180 * sqrt (Q2R (square_degrees lon lat lon' lat'))
     * cos (Q2R lat * PI / 180))%R.
Proof.
  unfold distance_km, square_degrees.
  rewrite Q2R_plus, !Q2R_mult, !Q2R_minus. do 3 f_equal. ring.
Qed.

Lemma square_degrees_nonneg lon lat lon' lat' :
  (0 <= Q2R (square_degrees lon lat lon' lat'))%R.
Proof.
  unfold square_degrees. rewrite Q2R_plus, !Q2R_mult, !Q2R_minus.
  apply Rplus_le_le_0_compat; apply Rle_0_sqr.
Qed.

Lemma cos_latitude_pos (latitude : Q) :
  (-90 # 1 < latitude)%Q -> (latitude < 90 # 1)%Q ->
  (0 < cos (Q2R latitude * PI / 180))%R.
Proof.
  intros Hlo Hhi. apply Qlt_Rlt in Hlo, Hhi. rewrite Q2R_m90 in Hlo.
  rewrite Q2R_90 in Hhi. pose proof PI_RGT_0 as Hpi.
  apply cos_gt_0; nra.
Qed.

(** Away from the poles, the order of the distances in kilometres is
    the order of the distances in degrees. *)
Lemma distance_km_le_square_degrees lon lat a b a' b' :
  (-90 # 1 < lat)%Q -> (lat < 90 # 1)%Q ->
  (distance_km lon lat a b <= distance_km lon lat a' b')%R
  <-> (square_degrees lon lat a b <= square_degrees lon lat a' b')%Q.
Proof.
  intros Hlo Hhi. rewrite !distance_km_square_degrees. unfold r_earth.
  pose proof (cos_latitude_pos lat Hlo Hhi) as Hc.
  pose proof PI_RGT_0 as Hpi.
  pose proof (square_degrees_nonneg lon lat a b) as Hn.
  pose proof (square_degrees_nonneg lon lat a' b') as Hn'.
  set (k := (6371 * PI / 180)%R).
  assert (Hk : (0 < k)%R) by (unfold k; lra).
  split.
  - intros H. apply Rle_Qle. apply sqrt_le_0; [exact Hn|exact Hn'|].
    apply Rmult_le_reg_r with (r := cos (Q2R lat * PI / 180)); [exact Hc|].
    apply Rmult_le_reg_l with (r := k); [exact Hk|].
    rewrite <- !Rmult_assoc. exact H.
  - intros H. apply Qle_Rle in H. apply sqrt_le_1 in H; [|exact Hn|exact Hn'].
    apply Rmult_le_compat_r; [lra|]. apply Rmult_le_compat_l; [lra|exact H].
Qed.

Lemma node_distance_le_degrees2 lon lat n n' :
  (-90 # 1 < lat)%Q -> (lat < 90 # 1)%Q ->
  (node_distance lon lat n <= node_distance lon lat n')%R
  <-> (degrees2 lon lat n <= degrees2 lon lat n')%Q.
Proof. apply distance_km_le_square_degrees. Qed.







Lemma get_loc_not_in t index : ~ In t index -> get_loc t index = Raise KeyError.
Proof.
  induction index as [|t' index IH]; intros H; cbn; [reflexivity|].
  destruct (Z.eqb_spec t' t) as [->|_]; [exfalso; apply H; left; reflexivity|].
  rewrite IH; [reflexivity|]. intros Hin. apply H. right. exact Hin.
Qed.

(** On an increasing index that is not empty, a nearest label is
    found. *)
Lemma nearest_coord_ok index q :
  strictly_ascending index = true -> index <> [] ->
  exists i, nearest_coord index q = Ok i.
Proof.
  intros H Hne. rewrite (nearest_coord_ascending _ _ H).
  destruct index as [|c index]; [congruence|]. cbn. eauto.
Qed.

Lemma sel_nearest_ok x t lon lat lons lats :
  regular_grid x = true ->
  time x <> [] -> longitude x = Arr1 lons -> lons <> [] ->
  latitude x = Arr1 lats -> lats <> [] ->
  exists val, sel_nearest x t lon lat = Ok val.
Proof.
  intros Hreg Ht Elon Hlons Elat Hlats.
  apply regular_grid_ok in Hreg as (lons' & lats' & Elon' & Elat' & At & Alon & Alat).
  rewrite Elon in Elon'. injection Elon' as <-.
  rewrite Elat in Elat'. injection Elat' as <-.
  unfold sel_nearest, nearest_time. rewrite Elon, Elat. cbn [index_of_coord rbind].
  destruct (nearest_coord_ok (List.map inject_Z (time x)) (inject_Z t) At)
    as [it ->].
  { destruct (time x); [congruence|discriminate]. }
  cbn [rbind].
  destruct (nearest_coord_ok lons lon Alon Hlons) as [ilon ->]. cbn [rbind].
  destruct (nearest_coord_ok lats lat Alat Hlats) as [ilat ->]. cbn [rbind].
  eauto.
Qed.

(** X11. The two searches select the start date of the chart as an
    exact label: on a chart whose currents are on a regular grid that is
    not empty, when the start date is not a time stamp of [u_current_all]
    they raise KeyError, while [isLand], which selects the nearest time
    stamp, answers. *)
Theorem searches_need_exact_start_date {G} bearing (c : chart.Chart G)
        u v lons lats (lon lat r : Q) :
  chart.u_current_all c = Some u -> chart.v_current_all c = Some v ->
  regular_grid u = true ->
  time v = time u -> longitude v = longitude u -> latitude v = latitude u ->
  ~ In (chart.start_date c) (time u) ->
  time u <> [] ->
  longitude u = Arr1 lons -> lons <> [] ->
  latitude u = Arr1 lats -> lats <> [] ->
  chart.find_closest_land bearing c lon lat r = Raise KeyError
  /\ chart.find_closest_water c lon lat r = Raise KeyError
  /\ exists land, chart.isLand c lon lat = Ok land.
Proof.
  intros Hu Hv Hreg Htv Hlonv Hlatv Hnot Ht Elon Hlons Elat Hlats.
  assert (Hregv : regular_grid v = true).
  { unfold regular_grid in *. rewrite Htv, Hlonv, Hlatv. exact Hreg. }
  unfold chart.find_closest_land, chart.find_closest_water, chart.selected_radius,
    sel_window, chart.isLand.
  rewrite Hu, Hv. cbn [chart.attr rbind]. rewrite Elon, Elat.
  cbn [index_of_coord rbind]. rewrite (get_loc_not_in _ _ Hnot). cbn [rbind].
  split; [reflexivity|]. split; [reflexivity|].
  destruct (sel_nearest_ok u (chart.start_date c) lon lat lons lats) as [vx ->];
    try assumption.
  destruct (sel_nearest_ok v (chart.start_date c) lon lat lons lats) as [vy ->];
    try assumption; try congruence.
  cbn [rbind]. eauto.
Qed.

(** A chart whose start date is 12 hours before the time stamp of its
    fields. *)
Lemma searches_need_exact_start_date_witness :
  regular_grid coast = true
  /\ ~ In (-43200) (time coast)
  /\ chart.find_closest_water
       {| chart.bbox := []; chart.start_date := -43200; chart.end_date := 0;
          chart.data_dir := None;
          chart.u_current_all := Some coast; chart.v_current_all := Some coast;
          chart.u_wind_all := None; chart.v_wind_all := None;
          chart.waves_all := None;
          chart.longitudes := None; chart.latitudes := None;
          chart.grid := @None unit;
          chart.u_current := None; chart.v_current := None;
          chart.u_wind := None; chart.v_wind := None |} (0#1) (0#1) (2#1)
     = Raise KeyError.
Proof.
  split; [reflexivity|]. split; [intros [H|[]]; discriminate|].
  apply (searches_need_exact_start_date (fun _ _ => 0%R) _ coast coast
           [0#1; 1#1] [0#1] (0#1) (0#1) (2#1)); try reflexivity; try discriminate.
  intros [H|[]]; discriminate.
Defined.

Lemma in_centre (q r : Q) : (0 <= r)%Q -> (q - r <= q)%Q /\ (q <= q + r)%Q.
Proof. intros Hr. split; Lqa.lra. Qed.

Lemma distance_km_self lon lat : distance_km lon lat lon lat = 0%R.
Proof.
  unfold distance_km.
  replace ((Q2R lat - Q2R lat) ^ 2 + (Q2R lon - Q2R lon) ^ 2)%R with 0%R by ring.
  rewrite sqrt_0. ring.
Qed.

(** A node of the grid is within the window of a search around its own
    coordinates. *)
Lemma node_in_own_window lons lats ilat ilon qlat qlon r :
  List.nth_error lats ilat = Some qlat -> List.nth_error lons ilon = Some qlon ->
  (0 <= r)%Q ->
  node_in_window lons lats qlon qlat r ilat ilon qlat qlon.
Proof.
  intros Hla Hlo Hr. unfold node_in_window, within_radius.
  pose proof (in_centre qlon r Hr). pose proof (in_centre qlat r Hr). tauto.
Qed.

(** X12. On a chart whose u current is on a regular grid, at the
    coordinates of a node of the grid that is missing at the start date
    and for a radius that is not negative, [find_closest_land] returns a
    distance of 0 km. *)
Theorem find_closest_land_on_land {G} (helper : geo.Bearing) (c : chart.Chart G)
        u lons lats it ilon ilat (qlon qlat r : Q) :
  chart.u_current_all c = Some u -> regular_grid u = true ->
  longitude u = Arr1 lons -> latitude u = Arr1 lats ->
  get_loc (chart.start_date c) (time u) = Ok it ->
  List.nth_error lons ilon = Some qlon -> List.nth_error lats ilat = Some qlat ->
  values u it ilat ilon = None ->
  (0 <= r)%Q -> (-90 # 1 <= qlat)%Q -> (qlat <= 90 # 1)%Q ->
  exists angle,
    chart.find_closest_land (geo.bearing_from_lonlat helper) c qlon qlat r
    = Ok (Some (0%R, angle)).
Proof.
  intros Hu Hreg Elon Elat Hit Hilon Hilat Hnone Hr Hlo Hhi.
  pose proof (node_in_own_window lons lats ilat ilon qlat qlon r Hilat Hilon Hr)
    as Hhere.
  destruct (find_closest_land_nearest (geo.bearing_from_lonlat helper)
              c u lons lats it qlon qlat r Hu Hreg Elon Elat Hit) as [_ H].
  { exists qlat. split; [exact (List.nth_error_In _ _ Hilat)|].
    apply in_centre, Hr. }
  destruct H as (jlat & jlon & plat & plon & _ & Hmin & Hf).
  { exists ilat, ilon, qlat, qlon. auto. }
  pose proof (distance_km_nonneg qlon qlat plon plat Hlo Hhi) as Hge.
  pose proof (Hmin ilat ilon qlat qlon (conj Hhere Hnone)) as Hle.
  rewrite distance_km_self in Hle.
  rewrite Hf. replace (distance_km qlon qlat plon plat) with 0%R
    by (apply Rle_antisym; assumption).
  eauto.
Qed.

Lemma find_closest_land_on_land_witness :
  regular_grid coast = true
  /\ List.nth_error [0#1; 1#1] 0 = Some (0#1)
  /\ values coast 0 0 0 = None
  /\ exists angle,
      chart.find_closest_land (geo.bearing_from_lonlat north) (chart_of coast coast)
                              (0#1) (0#1) (5#100)
      = Ok (Some (0%R, angle)).
Proof.
  split; [reflexivity|]. split; [reflexivity|]. split; [reflexivity|].
  apply (find_closest_land_on_land north (chart_of coast coast) coast
           [0#1; 1#1] [0#1] 0%nat 0%nat 0%nat (0#1) (0#1) (5#100));
    try reflexivity; discriminate.
Defined.

Lemma square_degrees_zero lon lat lon' lat' :
  (square_degrees lon lat lon' lat' <= 0)%Q -> (lat' == lat)%Q /\ (lon' == lon)%Q.
Proof.
  unfold square_degrees. intros H.
  set (a := (lat' - lat)%Q) in *.
  set (b := (lon' - lon)%Q) in *.
  assert (Ha : (0 <= a * a)%Q) by Lqa.nra.
  assert (Hb : (0 <= b * b)%Q) by Lqa.nra.
  assert (Ha0 : (a == 0)%Q) by Lqa.nra.
  assert (Hb0 : (b == 0)%Q) by Lqa.nra.
  unfold a in Ha0. unfold b in Hb0. split; Lqa.lra.
Qed.

Lemma square_degrees_self lon lat : (square_degrees lon lat lon lat == 0)%Q.
Proof. unfold square_degrees. ring. Qed.

(** X13. On a regular grid and for a query latitude strictly between
    -90 and 90, [find_closest_water] at the coordinates of a node that
    holds a value at the start date returns these coordinates, whatever
    the radius, provided it is not negative. *)
Theorem find_closest_water_on_water {G} (c : chart.Chart G)
        u lons lats it ilon ilat (qlon qlat r : Q) :
  chart.u_current_all c = Some u -> regular_grid u = true ->
  longitude u = Arr1 lons -> latitude u = Arr1 lats ->
  get_loc (chart.start_date c) (time u) = Ok it ->
  List.nth_error lons ilon = Some qlon -> List.nth_error lats ilat = Some qlat ->
  values u it ilat ilon <> None ->
  (0 <= r)%Q -> (-90 # 1 < qlat)%Q -> (qlat < 90 # 1)%Q ->
  chart.find_closest_water c qlon qlat r = Ok (Some (qlon, qlat)).
Proof.
  intros Hu Hreg Elon Elat Hit Hilon Hilat Hval Hr Hlo Hhi.
  pose proof (selected_radius_grid c u lons lats it qlon qlat r Hu Hreg Elon Elat Hit)
    as Hsel.
  apply regular_grid_ok in Hreg as (lons' & lats' & Elon' & Elat' & _ & Halon & Halat).
  rewrite Elon in Elon'. injection Elon' as <-.
  rewrite Elat in Elat'. injection Elat' as <-.
  set (w := regular_window u it lons lats qlon qlat r) in Hsel.
  set (here := {| node_lat := (ilat, qlat); node_lon := (ilon, qlon);
                  node_value := window_value w ilat ilon |}).
  assert (Hla : In (ilat, qlat) (w_lats w)).
  { apply in_labels_within. split; [exact Hilat|apply in_centre, Hr]. }
  assert (Hlo' : In (ilon, qlon) (w_lons w)).
  { apply in_labels_within. split; [exact Hilon|apply in_centre, Hr]. }
  assert (Hrows : w_lats w <> []) by (intros E; rewrite E in Hla; exact Hla).
  assert (Hhere : In here (water_nodes w)).
  { apply List.filter_In. split.
    - apply in_nodes. exists (ilat, qlat), (ilon, qlon). auto.
    - cbn. unfold window_value. cbn.
      destruct (values u it ilat ilon); [reflexivity|congruence]. }
  rewrite (find_closest_water_result c qlon qlat r w Hsel Hrows).
  destruct (water_nodes w) as [|n0 l] eqn:E; [destruct Hhere|]. cbn zeta.
  set (n := argmin_from (node_distance qlon qlat) n0 l).
  assert (Hin : In n (water_nodes w)) by (rewrite E; apply argmin_from_in).
  assert (Hle : (node_distance qlon qlat n <= node_distance qlon qlat here)%R)
    by (apply argmin_from_le; exact Hhere).
  apply (node_distance_le_degrees2 qlon qlat n here Hlo Hhi)
    in Hle.
  unfold degrees2 in Hle. cbn [here node_lon node_lat snd] in Hle.
  rewrite (square_degrees_self qlon qlat) in Hle.
  apply square_degrees_zero in Hle as [Hnlat Hnlon].
  apply List.filter_In in Hin as [Hin _].
  apply in_nodes in Hin as ([jlat plat] & [jlon plon] & Hjla & Hjlo & Hn).
  rewrite Hn in Hnlat, Hnlon |- *. cbn [node_lat node_lon snd] in *.
  apply in_labels_within in Hjla as [Hjla _], Hjlo as [Hjlo _].
  assert (jlat = ilat)
    by exact (strictly_ascending_distinct lats jlat ilat plat qlat Halat Hjla Hilat Hnlat).
  assert (jlon = ilon)
    by exact (strictly_ascending_distinct lons jlon ilon plon qlon Halon Hjlo Hilon Hnlon).
  subst jlat jlon. rewrite Hilat in Hjla. rewrite Hilon in Hjlo.
  injection Hjla as <-. injection Hjlo as <-. reflexivity.
Qed.

Lemma find_closest_water_on_water_witness :
  regular_grid coast = true
  /\ values coast 0 0 1 <> None
  /\ chart.find_closest_water (chart_of coast coast) (1#1) (0#1) (2#1)
     = Ok (Some (1#1, 0#1)).
Proof.
  split; [reflexivity|]. split; [discriminate|].
  apply (find_closest_water_on_water (chart_of coast coast) coast
           [0#1; 1#1] [0#1] 0%nat 1%nat 0%nat (1#1) (0#1) (2#1));
    try reflexivity; discriminate.
Defined.

(** *** The interpolants *)

(** X21. On an interpolant built by [_interpolate] whose three axes
    have at least one point, a query outside the domain (a time index, a
    longitude or a latitude below every point or above every point of its
    axis) returns NaN: it does not raise and it does not extrapolate. *)
Theorem _interpolate_out_of_bounds_nan x s e itp (t lon lat : Q) :
  chart._interpolate x s e = Ok itp ->
  grid_nonempty itp = true ->
  outside_domain itp t lon lat = true ->
  scipy.call itp t lon lat = Ok None.
Proof.
  intros Hi Hn Ho. apply _interpolate_fill in Hi as [Hb Hf].
  apply grid_nonempty_axes in Hn as (N0 & N1 & N2).
  destruct (out_of_bounds_nonempty _ t N0) as [o0 E0].
  destruct (out_of_bounds_nonempty _ lon N1) as [o1 E1].
  destruct (out_of_bounds_nonempty _ lat N2) as [o2 E2].
  destruct (find_index_nonempty _ t N0) as [ct Et].
  destruct (find_index_nonempty _ lon N1) as [clon Elon].
  destruct (find_index_nonempty _ lat N2) as [clat Elat].
  unfold scipy.call. rewrite Hb, Hf, E0, E1, E2, Et, Elon, Elat. cbn [rbind].
  assert (Hoob : o0 || o1 || o2 = true).
  { unfold outside_domain in Ho.
    apply orb_true_iff in Ho as [Ho|Ho]; [apply orb_true_iff in Ho as [Ho|Ho]|].
    - rewrite (outside_axis_out_of_bounds _ _ N0 Ho) in E0. injection E0 as <-.
      reflexivity.
    - rewrite (outside_axis_out_of_bounds _ _ N1 Ho) in E1. injection E1 as <-.
      apply orb_true_iff. left. apply orb_true_r.
    - rewrite (outside_axis_out_of_bounds _ _ N2 Ho) in E2. injection E2 as <-.
      apply orb_true_r. }
  rewrite Hoob. reflexivity.
Qed.

Lemma _interpolate_out_of_bounds_nan_witness :
  chart._interpolate small_field 0 86400 = Ok small_interpolant
  /\ grid_nonempty small_interpolant = true
  /\ outside_domain small_interpolant (0#1) (5#1) (0#1) = true
  /\ scipy.call small_interpolant (0#1) (5#1) (0#1) = Ok None.
Proof.
  split; [reflexivity|]. split; [reflexivity|]. split; [reflexivity|].
  apply (_interpolate_out_of_bounds_nan small_field 0 86400);
    reflexivity.
Defined.

Lemma filter_indexed_sorted {A} (test : nat * A -> bool) (l : list A) s :
  StronglySorted Nat.lt
    (List.map fst (List.filter test (List.combine (List.seq s (List.length l)) l))).
Proof.
  revert s. induction l as [|a l IH]; intros s; cbn; [constructor|].
  destruct (test (s, a)); cbn; [|apply IH].
  constructor; [apply IH|]. apply Forall_forall. intros i Hi.
  apply List.in_map_iff in Hi as ([i' a'] & <- & Hin).
  apply List.filter_In in Hin as [Hin _].
  apply in_combine_seq in Hin as [Hs _]. cbn. lia.
Qed.

(** On an increasing time index, the window of [_interpolate] holds the
    positions of the time stamps within [start_date, end_date], in
    order. *)
Lemma sel_time_slice_ascending x s e :
  strictly_ascending (List.map inject_Z (time x)) = true ->
  exists X,
    chart.sel_time_slice x s e = Ok X
    /\ StronglySorted Nat.lt X
    /\ forall i, In i X <-> exists t, List.nth_error (time x) i = Some t /\ s <= t <= e.
Proof.
  intros H. unfold chart.sel_time_slice. rewrite (sel_slice_ascending _ _ _ H).
  cbn [rbind]. eexists. split; [reflexivity|]. split.
  - unfold labels_within, indexed. apply filter_indexed_sorted.
  - intros i. rewrite List.in_map_iff. split.
    + intros ([i' q] & <- & Hin). apply in_labels_within in Hin as (Hin & H1 & H2).
      rewrite List.nth_error_map in Hin. revert Hin. cbn [fst].
      unfold Calendar.Timestamp.
      destruct (@List.nth_error Z (time x) i') as [t|]; unfold option_map;
        [|discriminate].
      intros [= <-]. exists t. split; [reflexivity|].
      rewrite <- !Zle_Qle in *. lia.
    + intros (t & Hi & Ht). exists (i, inject_Z t). split; [reflexivity|].
      apply in_labels_within. unfold Calendar.Timestamp in *.
      rewrite List.nth_error_map, Hi.
      split; [reflexivity|]. rewrite <- !Zle_Qle. lia.
Qed.

(** X14. On a field whose time index is increasing, the time axis of an
    interpolant that [_interpolate] returns is the index 0, 1, ...,
    n - 1 of the time stamps of the field within [start_date, end_date],
    in their order, not the time stamps; its value at a node
    [(k, ilon, ilat)] is the value of the field at the [k]-th of these
    time stamps, at the latitude and the longitude of the node, which on
    the regular path are read from the other end of a coordinate vector
    that is descending. *)
Theorem _interpolate_time_index x s e itp :
  strictly_ascending (List.map inject_Z (time x)) = true ->
  chart._interpolate x s e = Ok itp ->
  exists X,
    chart.sel_time_slice x s e = Ok X
    /\ StronglySorted Nat.lt X
    /\ (forall i, In i X
                  <-> exists t, List.nth_error (time x) i = Some t /\ s <= t <= e)
    /\ scipy.grid_time itp = arange (List.length X)
    /\ (forall k ilon ilat,
           scipy.grid_values itp k ilon ilat
           = match chart.path_taken x s e with
             | Some chart.RegularPath =>
                 values x (List.nth k X O)
                        (source_position (latitude x) ilat)
                        (source_position (longitude x) ilon)
             | _ => values x (List.nth k X O) ilat ilon
             end).
Proof.
  intros Ht H.
  destruct (sel_time_slice_ascending x s e Ht) as (X & HX & Hsorted & Hin).
  exists X. split; [exact HX|]. split; [exact Hsorted|]. split; [exact Hin|].
  apply _interpolate_ok in H as (X' & p1 & p2 & HX' & Hnew & Hpath).
  rewrite HX in HX'. injection HX' as <-.
  apply new_ok in Hnew
    as (w0 & w1 & w2 & E0 & E1 & E2 & _ & G0 & G1 & G2 & _ & A1 & A2 & Hv & _).
  injection E0 as <-. split.
  - rewrite G0. unfold ascending_order. rewrite arange_ascending. reflexivity.
  - intros k ilon ilat. rewrite Hv. cbn [scipy.at3 chart.transposed_values].
    assert (Hk : source_position (Arr1 (arange (List.length X))) k = k).
    { unfold source_position. rewrite arange_ascending. reflexivity. }
    rewrite Hk.
    destruct Hpath as [(-> & -> & ->)
                      |(-> & lon_min & lon_max & lat_min & lat_max
                        & Hm1 & HM1 & Hm2 & HM2 & H2d & -> & ->)];
      [reflexivity|].
    injection E1 as <-. injection E2 as <-.
    rewrite G1 in A1. rewrite G2 in A2.
    pose proof (ascending_order_linspace _ _ _ (arr_min_le_max _ _ _ Hm1 HM1) A1) as L1.
    pose proof (ascending_order_linspace _ _ _ (arr_min_le_max _ _ _ Hm2 HM2) A2) as L2.
    rewrite L1 in A1. rewrite L2 in A2.
    unfold source_position. rewrite A1, A2. reflexivity.
Qed.

Lemma _interpolate_time_index_witness :
  strictly_ascending (List.map inject_Z (time north_first)) = true
  /\ exists itp,
      chart._interpolate north_first 0 86400 = Ok itp
      /\ scipy.grid_time itp = [0#1; 1#1]
      /\ scipy.grid_values itp 1 0 0 = values north_first 1 1 0.
Proof.
  split; [reflexivity|].
  destruct (chart._interpolate north_first 0 86400) as [itp|] eqn:E;
    [|discriminate E].
  exists itp. split; [reflexivity|].
  destruct (_interpolate_time_index north_first 0 86400 itp eq_refl E)
    as (X & HX & _ & _ & H1 & H2).
  injection HX as <-. split; [exact H1|]. exact (H2 1%nat 0%nat 0%nat).
Defined.

Lemma monotone_checked dim w :
  strictly_monotone w = true -> exists c, scipy.check_points dim (Arr1 w) = Ok c.
Proof.
  unfold strictly_monotone, scipy.check_points.
  cbn [scipy.points_ascending scipy.points_descending].
  destruct (strictly_ascending w); cbn [orb]; [eauto|]. intros ->. eauto.
Qed.

(** The regular path on 1-D coordinates that are not all strictly
    ascending or strictly descending raises. *)
Lemma regular_attempt_not_monotone x X lons lats :
  longitude x = Arr1 lons -> latitude x = Arr1 lats ->
  strictly_monotone lons && strictly_monotone lats = false ->
  exists msg, chart.regular_attempt x X = Raise (ValueError msg).
Proof.
  intros Elon Elat H. unfold chart.regular_attempt, scipy.new.
  rewrite Elon, Elat. cbn [chart.transposed_values scipy.shape3].
  unfold scipy.check_points at 1. cbn [scipy.points_ascending].
  rewrite arange_ascending. cbn [rbind].
  destruct (strictly_monotone lons) eqn:M1.
  - cbn [andb] in H. destruct (not_monotone_raises 2 lats H) as [msg Hmsg].
    rewrite Hmsg. destruct (monotone_checked 1 lons M1) as [c1 ->].
    cbn [rbind]. eauto.
  - destruct (not_monotone_raises 1 lons M1) as [msg ->]. cbn [rbind]. eauto.
Qed.

(** X15. On a field with 1-D coordinates [_interpolate] returns an
    interpolant, by the regular path, exactly when the longitudes and the
    latitudes are each strictly ascending or strictly descending; its
    axes are the coordinates in ascending order.  Otherwise the error of
    the regular path is lost: what is raised is the IndexError of the
    curvilinear path (or the error of the minimum of an array without an
    element when there is no longitude). *)
Theorem _interpolate_regular_grid x s e X lons lats :
  longitude x = Arr1 lons -> latitude x = Arr1 lats ->
  chart.sel_time_slice x s e = Ok X ->
  (strictly_monotone lons && strictly_monotone lats = true ->
   exists itp, chart._interpolate x s e = Ok itp
               /\ chart.path_taken x s e = Some chart.RegularPath
               /\ scipy.grid_lon itp = ascending_order lons
               /\ scipy.grid_lat itp = ascending_order lats
               /\ strictly_ascending (scipy.grid_lon itp) = true
               /\ strictly_ascending (scipy.grid_lat itp) = true)
  /\ (strictly_monotone lons && strictly_monotone lats = false ->
      chart.path_taken x s e = Some chart.CurvilinearPath
      /\ (exists err, chart._interpolate x s e = Raise err)
      /\ (lons <> [] -> chart._interpolate x s e = Raise IndexError)).
Proof.
  intros Elon Elat HX.
  unfold chart._interpolate, chart.path_taken, chart._interpolate_traced.
  rewrite HX. split; intros H.
  - apply andb_true_iff in H as [M1 M2].
    destruct (new_1d (arange (List.length X)) lons lats
                (chart.transposed_values x X) false (scipy.FillWith None))
      as [itp Hnew]; try assumption.
    { cbn [chart.transposed_values scipy.shape3]. unfold n_lon, n_lat.
      rewrite Elon, Elat, arange_length. reflexivity. }
    { apply arange_ascending. }
    unfold chart.regular_attempt. rewrite Elon, Elat, Hnew. cbn [fst snd].
    exists itp. split; [reflexivity|]. split; [reflexivity|].
    apply new_ok in Hnew
      as (w0 & w1 & w2 & _ & E1 & E2 & _ & _ & G1 & G2 & _ & A1 & A2 & _).
    injection E1 as <-. injection E2 as <-. auto.
  - destruct (regular_attempt_not_monotone x X lons lats Elon Elat H) as [msg ->].
    cbn [fst snd]. split; [reflexivity|].
    unfold chart.curvilinear_attempt. rewrite Elon. unfold arr_min, arr_max.
    cbn [flatten]. destruct lons as [|l0 ls]; cbn [rbind shape_at].
    + split; [eauto|congruence].
    + split; [eauto|reflexivity].
Qed.

Lemma _interpolate_regular_grid_witness :
  longitude north_first = Arr1 [0#1; 1#1]
  /\ latitude north_first = Arr1 [1#1; 0#1]
  /\ strictly_monotone [0#1; 1#1] && strictly_monotone [1#1; 0#1] = true
  /\ exists itp,
      chart._interpolate north_first 0 86400 = Ok itp
      /\ scipy.grid_lat itp = [0#1; 1#1].
Proof.
  split; [reflexivity|]. split; [reflexivity|]. split; [reflexivity|].
  destruct (_interpolate_regular_grid north_first 0 86400 [0%nat; 1%nat]
              [0#1; 1#1] [1#1; 0#1] eq_refl eq_refl eq_refl) as [H _].
  destruct (H eq_refl) as (itp & Hi & _ & _ & Hlat & _).
  exists itp. split; [exact Hi|exact Hlat].
Defined.

(** The chart and the result of an [interpolate] whose four
    interpolations succeed. *)
Lemma interpolate_ok {G} (c : chart.Chart G) date duration xu xv wu wv iu iv ju jv :
  chart.u_current_all c = Some xu -> chart.v_current_all c = Some xv ->
  chart.u_wind_all c = Some wu -> chart.v_wind_all c = Some wv ->
  chart._interpolate xu date (Calendar.add_days date duration) = Ok iu ->
  chart._interpolate xv date (Calendar.add_days date duration) = Ok iv ->
  chart._interpolate wu date (Calendar.add_days date duration) = Ok ju ->
  chart._interpolate wv date (Calendar.add_days date duration) = Ok jv ->
  chart.interpolate date duration c
  = (chart.set_v_wind G jv
       (chart.set_u_wind G ju (chart.set_v_current G iv (chart.set_u_current G iu c))),
     Ok tt).
Proof.
  intros Hu Hv Hwu Hwv Eu Ev Fu Fv.
  unfold chart.interpolate, chart.bind, chart.assign, chart.eval.
  rewrite Hu. cbn. rewrite Eu. cbn. rewrite Hv. cbn. rewrite Ev. cbn.
  rewrite Hwu. cbn. rewrite Fu. cbn. rewrite Hwv. cbn. rewrite Fv. reflexivity.
Qed.

Lemma interpolate_ok_inv {G} (c : chart.Chart G) date duration :
  snd (chart.interpolate date duration c) = Ok tt ->
  exists xu xv wu wv iu iv ju jv,
    chart.u_current_all c = Some xu /\ chart.v_current_all c = Some xv
    /\ chart.u_wind_all c = Some wu /\ chart.v_wind_all c = Some wv
    /\ chart._interpolate xu date (Calendar.add_days date duration) = Ok iu
    /\ chart._interpolate xv date (Calendar.add_days date duration) = Ok iv
    /\ chart._interpolate wu date (Calendar.add_days date duration) = Ok ju
    /\ chart._interpolate wv date (Calendar.add_days date duration) = Ok jv.
Proof.
  unfold chart.interpolate, chart.bind, chart.assign, chart.eval, chart.attr.
  cbn.
  destruct (chart.u_current_all c) as [xu|]; cbn; [|discriminate].
  destruct (chart._interpolate xu _ _) as [iu|] eqn:Eu; cbn; [|discriminate].
  destruct (chart.v_current_all c) as [xv|]; cbn; [|discriminate].
  destruct (chart._interpolate xv _ _) as [iv|] eqn:Ev; cbn; [|discriminate].
  destruct (chart.u_wind_all c) as [wu|]; cbn; [|discriminate].
  destruct (chart._interpolate wu _ _) as [ju|] eqn:Fu; cbn; [|discriminate].
  destruct (chart.v_wind_all c) as [wv|]; cbn; [|discriminate].
  destruct (chart._interpolate wv _ _) as [jv|] eqn:Fv; cbn; [|discriminate].
  intros _. exists xu, xv, wu, wv, iu, iv, ju, jv. auto 10.
Qed.

Lemma set_sub_window_eq {G} (c c' : chart.Chart G) iu iv ju jv :
  same_loaded_state c c' ->
  chart.set_v_wind G jv
    (chart.set_u_wind G ju (chart.set_v_current G iv (chart.set_u_current G iu c')))
  = chart.set_v_wind G jv
      (chart.set_u_wind G ju (chart.set_v_current G iv (chart.set_u_current G iu c))).
Proof.
  unfold same_loaded_state. destruct c, c'. cbn.
  intros (-> & -> & -> & -> & -> & -> & -> & -> & -> & -> & -> & ->). reflexivity.
Qed.

(** X16. Re-interpolating replaces the sub-window: when
    [interpolate(date, duration)] returns on a chart, it returns on the
    chart left by any earlier [interpolate], returned or raised, and
    leaves the same chart as if the earlier call had not been made. *)
Theorem interpolate_last_wins {G} (c : chart.Chart G) date0 duration0 date duration :
  snd (chart.interpolate date duration c) = Ok tt ->
  chart.interpolate date duration (fst (chart.interpolate date0 duration0 c))
  = chart.interpolate date duration c.
Proof.
  intros H.
  apply interpolate_ok_inv in H
    as (xu & xv & wu & wv & iu & iv & ju & jv & Hu & Hv & Hwu & Hwv & Eu & Ev & Fu & Fv).
  pose proof (interpolate_frame G date0 duration0 c) as F.
  rewrite (interpolate_ok c date duration xu xv wu wv iu iv ju jv) by assumption.
  pose proof F as (_ & _ & _ & _ & Hu' & Hv' & Hwu' & Hwv' & _).
  rewrite (interpolate_ok (fst (chart.interpolate date0 duration0 c))
             date duration xu xv wu wv iu iv ju jv) by congruence.
  f_equal. apply set_sub_window_eq, F.
Qed.

Lemma interpolate_last_wins_witness :
  snd (chart.interpolate 0 1 chart_with_winds) = Ok tt
  /\ chart.interpolate 0 1 (fst (chart.interpolate 0 30 chart_with_winds))
     = chart.interpolate 0 1 chart_with_winds.
Proof.
  split; [reflexivity|].
  apply (interpolate_last_wins chart_with_winds 0 30 0 1). reflexivity.
Defined.

(** ** traverser.py *)

Section TraverserMore.
Variable WeightedGrid : Type.
Variable from_map : DataArray -> nat -> result WeightedGrid.
Variable xoak_set_index : DataArray -> result unit.
Variable Dataset : Type.
Variable glob : string -> list string.
Variable open_mfdataset : list string -> result Dataset.
Variable ds_drop : string -> Dataset -> result Dataset.
Variable ds_squeeze : Dataset -> Dataset.
Variable ds_rename : list (string * string) -> Dataset -> result Dataset.
Variable ds_sel_time_load :
  Calendar.Timestamp -> Calendar.Timestamp -> Dataset -> result Dataset.
Variable ds_var : string -> Dataset -> result DataArray.
Variable Vessel : Type.
Variable Model : Type.
Variable Model_new : Z -> Z -> Model.
Variable Model_use : Model -> chart.Chart WeightedGrid -> Model.
Variable Model_run : Model -> chart.Chart WeightedGrid -> Vessel -> Vessel.
Variable Vessel_from_position :
  Q * Q -> traverser.Traverser -> chart.Chart WeightedGrid -> Vessel.

Abbreviation run' :=
  (traverser.run WeightedGrid from_map xoak_set_index Dataset glob
                 open_mfdataset ds_drop ds_squeeze ds_rename ds_sel_time_load
                 ds_var Vessel Model Model_new Model_use Model_run
                 Vessel_from_position).
Abbreviation run_mp' :=
  (traverser.run_mp WeightedGrid from_map xoak_set_index Dataset glob
                    open_mfdataset ds_drop ds_squeeze ds_rename ds_sel_time_load
                    ds_var Vessel Model Model_new Model_use Model_run
                    Vessel_from_position).
Abbreviation as_generator' :=
  (traverser.as_generator WeightedGrid from_map xoak_set_index Dataset glob
                          open_mfdataset ds_drop ds_squeeze ds_rename
                          ds_sel_time_load ds_var Vessel Model Model_new Model_use
                          Model_run Vessel_from_position).
Abbreviation launches' :=
  (traverser.launches WeightedGrid Vessel Model Model_use Vessel_from_position).
Abbreviation generate' :=
  (traverser.generate WeightedGrid Vessel Model Model_use Model_run
                      Vessel_from_position).
Abbreviation run_pool' := (traverser.run_pool WeightedGrid Vessel Model Model_run).
Abbreviation load_chart' :=
  (traverser.load_chart WeightedGrid from_map xoak_set_index Dataset glob
                        open_mfdataset ds_drop ds_squeeze ds_rename
                        ds_sel_time_load ds_var).

Lemma load_chart_raises (t : traverser.Traverser) : exists e, load_chart' t = Raise e.
Proof.
  unfold traverser.load_chart.
  destruct (load_raises WeightedGrid from_map xoak_set_index Dataset glob
              open_mfdataset ds_drop ds_squeeze ds_rename ds_sel_time_load
              ds_var (traverser.data_directory t)
              (chart.__init__ WeightedGrid (traverser.bbox t)
                              (traverser.start_date t) (traverser.end_date t)))
    as [e He].
  destruct (chart.load _ _ _ _ _ _ _ _ _ _ _ _ _) as [c r].
  cbn in He. subst r. eauto.
Qed.

(** X17. No entry point of the traverser gets to its first launch:
    [run], [run_mp] and [as_generator] end with the error that
    [Chart.load] raises, the same for the three, and [as_generator]
    yields nothing before it. *)
Theorem traverser_never_launches cpu_count schedule (t : traverser.Traverser) :
  exists e,
    run' t = Raise e
    /\ run_mp' cpu_count schedule t = Raise e
    /\ as_generator' cpu_count schedule t = ([], Some e).
Proof.
  destruct (load_chart_raises t) as [e He]. exists e.
  unfold traverser.run, traverser.run_mp, traverser.as_generator.
  rewrite He. auto.
Qed.

(** The launches of the generator and those of the loop of [run_mp],
    from the same chart, model and results: the generator yields one
    dictionary per launch that succeeds, under the key of its date, up to
    the first launch that fails. *)
Lemma generate_launches cpu_count schedule t ds c model results :
  exists ys err,
    generate' cpu_count schedule t ds c model = (ys, err)
    /\ Forall2 (fun date y => exists trajectories,
                    y = {[ Calendar.strftime_ymd date := trajectories ]})
               (List.firstn (List.length ys) ds) ys
    /\ launches' (run_pool' cpu_count schedule) t
                 (List.firstn (List.length ys) ds) c model results
       = Ok (traverser.collect Vessel results ys)
    /\ match err with
       | None => List.length ys = List.length ds
       | Some e =>
           (List.length ys < List.length ds)%nat
           /\ launches' (run_pool' cpu_count schedule) t
                        (List.firstn (S (List.length ys)) ds) c model results
              = Raise e
           /\ launches' (run_pool' cpu_count schedule) t ds c model results
              = Raise e
       end.
Proof.
  revert c model results.
  induction ds as [|date ds IH]; intros c model results.
  - exists [], None. cbn. auto.
  - cbn [traverser.generate].
    destruct (chart.interpolate date (traverser.duration t) c) as [c' [u|e]] eqn:Ei.
    2: { exists [], (Some e). cbn [List.length List.firstn traverser.launches].
         rewrite Ei. cbn. repeat split; auto; lia. }
    destruct (traverser.run_pool _ _ _ _ _ _ _ _ _ _) as [trajectories|e] eqn:Er.
    2: { exists [], (Some e). cbn [List.length List.firstn traverser.launches].
         rewrite Ei, Er. cbn. repeat split; auto; lia. }
    destruct (IH c' (Model_use model c')
                 (<[Calendar.strftime_ymd date := trajectories]> results))
      as (ys & err & -> & Hshape & Hprefix & Herr).
    cbn [fst snd].
    exists ({[ Calendar.strftime_ymd date := trajectories ]} :: ys), err.
    split; [reflexivity|].
    assert (Hcollect :
              traverser.collect Vessel results
                ({[ Calendar.strftime_ymd date := trajectories ]} :: ys)
              = traverser.collect Vessel
                  (<[Calendar.strftime_ymd date := trajectories]> results) ys).
    { unfold traverser.collect, traverser.Results in *. cbn [List.fold_left].
      rewrite <- insert_union_singleton_l. reflexivity. }
    cbn [List.length List.firstn]. split; [|split].
    + constructor; [eauto|exact Hshape].
    + cbn [traverser.launches]. rewrite Ei, Er. cbn [rbind].
      rewrite Hcollect. exact Hprefix.
    + destruct err as [e|].
      * destruct Herr as (Hlen & Hfail & Hall). split; [lia|]. split.
        -- change (List.firstn (S (S (List.length ys))) (date :: ds))
             with (date :: List.firstn (S (List.length ys)) ds).
           cbn [traverser.launches]. rewrite Ei, Er. cbn [rbind]. exact Hfail.
        -- cbn [traverser.launches]. rewrite Ei, Er. cbn [rbind]. exact Hall.
      * lia.
Qed.

(** X18. The launches of [as_generator] are those of [run_mp]: from the
    same chart and model, the generator yields one dictionary per launch,
    with the launch date as its only key, for the launches before the
    first one that fails, and updating a dictionary with them in order
    gives the results the loop of [run_mp] has after these launches.
    When the loop returns, these are all the launches and its results;
    when it raises, the generator raises the same error, from the launch
    that follows the ones it has yielded. *)
Theorem as_generator_streams_run_mp cpu_count schedule (t : traverser.Traverser)
        (ds : list Calendar.Timestamp) (c : chart.Chart WeightedGrid) (model : Model) :
  exists ys,
    Forall2 (fun date y => exists trajectories,
                 y = {[ Calendar.strftime_ymd date := trajectories ]})
            (List.firstn (List.length ys) ds) ys
    /\ launches' (run_pool' cpu_count schedule) t
                 (List.firstn (List.length ys) ds) c model ∅
       = Ok (traverser.collect Vessel ∅ ys)
    /\ match launches' (run_pool' cpu_count schedule) t ds c model ∅ with
       | Ok final =>
           generate' cpu_count schedule t ds c model = (ys, None)
           /\ List.length ys = List.length ds
           /\ traverser.collect Vessel ∅ ys = final
       | Raise e =>
           generate' cpu_count schedule t ds c model = (ys, Some e)
           /\ (List.length ys < List.length ds)%nat
           /\ launches' (run_pool' cpu_count schedule) t
                        (List.firstn (S (List.length ys)) ds) c model ∅
              = Raise e
       end.
Proof.
  destruct (generate_launches cpu_count schedule t ds c model ∅)
    as (ys & err & Hgen & Hshape & Hprefix & Herr).
  exists ys. split; [exact Hshape|]. split; [exact Hprefix|].
  destruct err as [e|].
  - destruct Herr as (Hlen & Hfail & ->). auto.
  - rewrite Herr, List.firstn_all in Hprefix. rewrite Hprefix. auto.
Qed.

End TraverserMore.

(** One launch of three vessels, streamed. *)
Example generate_one_launch :
  traverser.generate unit (Q * Q) unit (fun m _ => m) drift_east vessel_at
                     2 reversed_schedule three_points [0] chart_with_winds tt
  = ([{["1970-01-01"%string := [(1#1, 0#1); (2#1, 1#1); (3#1, 2#1)]]}], None).
Proof. vm_compute. reflexivity. Qed.

(** X19. With a launch frequency of 0 the launch dates raise the
    ValueError of a zero slice step.  With a negative frequency [-k] the
    schedule runs backwards: it starts at the last day of the range from
    [start_date] to [end_date] and steps [k] days back while it does not
    pass [start_date]. *)
Theorem launch_schedule_backwards mode craft duration timestep destination speed
        (start end_ launch_freq : Z) bbox departure_points data_directory vessel_config :
  let t := traverser.__init__ mode craft duration timestep destination speed
                              start end_ launch_freq bbox departure_points
                              data_directory vessel_config in
  let last_day := (end_ - start) / Calendar.seconds_per_day in
  (launch_freq = 0 ->
   traverser.launch_dates t = Raise (ValueError "slice step cannot be zero"))
  /\ (launch_freq < 0 -> start <= end_ ->
      traverser.launch_dates t
      = Ok (List.map (fun i => Calendar.add_days start
                                 (last_day - Z.of_nat i * (- launch_freq)))
                     (List.seq 0 (Z.to_nat (last_day / (- launch_freq) + 1))))).
Proof.
  intros t last_day. unfold traverser.launch_dates, t, traverser.__init__; cbn.
  split.
  - intros ->. reflexivity.
  - intros Hk Hse. unfold traverser.slice_step.
    destruct (Z.eqb_spec launch_freq 0) as [->|_]; [lia|].
    destruct (Z.ltb_spec 0 launch_freq) as [|_]; [lia|]. f_equal.
    assert (HD : 0 <= last_day).
    { unfold last_day. apply Z.div_pos; unfold Calendar.seconds_per_day; lia. }
    assert (Hlen : List.length (Calendar.date_range start end_) = Z.to_nat (last_day + 1))
      by apply date_range_length.
    rewrite Hlen, (stride_count last_day (- launch_freq)) by lia.
    apply (flat_map_stride (List.rev (Calendar.date_range start end_))
             (fun i => Calendar.add_days start (last_day - Z.of_nat i * (- launch_freq)))
             (fun i => (i * Z.to_nat (- launch_freq))%nat) (fun x => x)).
    intros i Hi.
    rewrite <- (stride_count last_day (- launch_freq)) in Hi by lia.
    apply stride_index in Hi; [|lia].
    rewrite List.nth_error_rev, Hlen.
    destruct (Nat.ltb_spec (i * Z.to_nat (- launch_freq)) (Z.to_nat (last_day + 1)));
      [|lia].
    eexists. split; [apply date_range_nth_error; lia|].
    f_equal. lia.
Qed.

Section TraverserResults.
Variable WeightedGrid : Type.
Variable Vessel : Type.
Variable Model : Type.
Variable Model_use : Model -> chart.Chart WeightedGrid -> Model.
Variable Model_run : Model -> chart.Chart WeightedGrid -> Vessel -> Vessel.
Variable Vessel_from_position :
  Q * Q -> traverser.Traverser -> chart.Chart WeightedGrid -> Vessel.

Abbreviation launches_each :=
  (traverser.launches WeightedGrid Vessel Model Model_use Vessel_from_position
                      (traverser.run_each WeightedGrid Vessel Model Model_run)).

Lemma launches_each_results (t : traverser.Traverser) ds c model
      (results final : gmap string (list Vessel)) :
  launches_each t ds c model results = Ok final ->
  dom final = list_to_set (List.map Calendar.strftime_ymd ds) ∪ dom results
  /\ ((forall key trajectories,
          results !! key = Some trajectories ->
          List.length trajectories = List.length (traverser.departure_points t)) ->
      forall key trajectories,
        final !! key = Some trajectories ->
        List.length trajectories = List.length (traverser.departure_points t)).
Proof.
  revert c model results.
  induction ds as [|date ds IH]; intros c model results;
    cbn [traverser.launches List.map].
  - intros [= <-]. split; [|auto].
    rewrite list_to_set_nil, (left_id_L ∅ (∪)). reflexivity.
  - destruct (chart.interpolate date (traverser.duration t) c) as [c' [u|e]];
      [|discriminate].
    rewrite run_each_map. cbn [rbind]. intros H.
    apply IH in H. destruct H as [Hdom Hlen]. unfold traverser.Results in *. split.
    + rewrite Hdom, dom_insert_L, list_to_set_cons, !(assoc_L (∪)).
      f_equal. apply (comm_L (∪)).
    + intros Hres. apply Hlen. intros key trajectories Hk.
      destruct (decide (key = Calendar.strftime_ymd date)) as [->|Hne].
      * rewrite lookup_insert_eq in Hk. injection Hk as <-.
        unfold traverser.Vessel_from_positions.
        rewrite !List.length_map. reflexivity.
      * rewrite lookup_insert_ne in Hk by congruence. eauto.
Qed.

(** X20. When the loop of [run] returns, the keys of its results are
    the [YYYY-MM-DD] strings of the launch dates, and no other, and
    every entry holds one trajectory per departure point. *)
Theorem run_results_shape (t : traverser.Traverser) ds c model
        (final : gmap string (list Vessel)) :
  launches_each t ds c model ∅ = Ok final ->
  dom final = list_to_set (List.map Calendar.strftime_ymd ds)
  /\ forall key trajectories,
      final !! key = Some trajectories ->
      List.length trajectories = List.length (traverser.departure_points t).
Proof.
  intros H. apply launches_each_results in H. destruct H as [Hdom Hlen].
  unfold traverser.Results in *. split.
  - rewrite Hdom, dom_empty_L, (right_id_L ∅ (∪)). reflexivity.
  - apply Hlen. intros key trajectories Hk. rewrite lookup_empty in Hk. discriminate.
Qed.

End TraverserResults.

Lemma run_results_shape_witness :
  traverser.launches unit (Q * Q) unit (fun m _ => m) vessel_at
    (traverser.run_each unit (Q * Q) unit drift_east)
    three_points [0] chart_with_winds tt ∅
  = Ok (<["1970-01-01"%string := [(1#1, 0#1); (2#1, 1#1); (3#1, 2#1)]]> ∅)
  /\ dom (<["1970-01-01"%string := [(1#1, 0#1); (2#1, 1#1); (3#1, 2#1)]]>
            (∅ : gmap string (list (Q * Q))))
     = list_to_set (List.map Calendar.strftime_ymd [0]).
Proof.
  assert (H : traverser.launches unit (Q * Q) unit (fun m _ => m) vessel_at
                (traverser.run_each unit (Q * Q) unit drift_east)
                three_points [0] chart_with_winds tt ∅
              = Ok (<["1970-01-01"%string := [(1#1, 0#1); (2#1, 1#1); (3#1, 2#1)]]> ∅))
    by (vm_compute; reflexivity).
  split; [exact H|].
  exact (proj1 (run_results_shape unit (Q * Q) unit (fun m _ => m) drift_east vessel_at
                  three_points [0] chart_with_winds tt _ H)).
Defined.
